(** * raisegrade-resources: OCR batch scripts

    A shallow embedding of [high_accuracy_ocr_pipeline.py], the pipeline the
    design document describes, of [ocr.py], the shorter script next to it,
    and of [batch_extract.py], a plain loop over [pdftotext], with the
    properties the design document states about them and further ones read
    off the code.

    Layout: a small model of the Python values the scripts handle (strings as
    lists of code points, [pathlib] paths as lists of parts, the file system
    as a finite map, a monad for state, exceptions and [sys.exit]); then the
    scripts, one module each; then the properties. *)

From stdpp Require Import gmap sorting list strings pretty lexico.
From Stdlib Require Import ZArith.

Local Open Scope list_scope.

(** ** Python strings *)

(** A [str] is a sequence of Unicode code points. *)
Abbreviation str := (list N).

(** A string literal of the source. *)
Definition py (s : string) : str :=
  (fun a => Ascii.N_of_ascii a) <$> String.list_ascii_of_string s.
Arguments py : simpl never.

(** [sep.join(parts)] *)
Fixpoint join (sep : str) (parts : list str) : str :=
  match parts with
  | [] => []
  | [p] => p
  | p :: ps => p ++ sep ++ join sep ps
  end.

(** [f"{n}"] for a non-negative integer. *)
Definition fmt_nat (n : nat) : str := py (pretty n).
Arguments fmt_nat : simpl never.

Definition in_range (lo hi c : N) : bool := ((lo <=? c) && (c <=? hi))%N.

(** [str.isspace] on one code point. *)
Definition is_space (c : N) : bool :=
  in_range 9 13 c || in_range 28 32 c || (c =? 133)%N || (c =? 160)%N
  || (c =? 5760)%N || in_range 8192 8202 c || (c =? 8232)%N || (c =? 8233)%N
  || (c =? 8239)%N || (c =? 8287)%N || (c =? 12288)%N.

Fixpoint lstrip (s : str) : str :=
  match s with
  | c :: s' => if is_space c then lstrip s' else s
  | [] => []
  end.
Definition rstrip (s : str) : str := reverse (lstrip (reverse s)).
Definition strip (s : str) : str := lstrip (rstrip s).

(** [str.splitlines()]: the line boundaries of Python, a CR LF pair counting
    as one; no empty last line. *)
Definition is_linebreak (c : N) : bool :=
  in_range 10 13 c || in_range 28 30 c || (c =? 133)%N || (c =? 8232)%N
  || (c =? 8233)%N.

Fixpoint splitlines_from (cur : str) (s : str) : list str :=
  match s with
  | [] => match cur with [] => [] | _ => [cur] end
  | c :: s' =>
      if (c =? 13)%N then
        match s' with
        | 10%N :: s'' => cur :: splitlines_from [] s''
        | _ => cur :: splitlines_from [] s'
        end
      else if is_linebreak c then cur :: splitlines_from [] s'
      else splitlines_from (cur ++ [c]) s'
  end.
Definition splitlines : str -> list str := splitlines_from [].

(** Iterating over a file opened in text mode: universal newlines turn CR LF
    and CR into LF, and every line keeps its LF. *)
Fixpoint file_lines_from (cur : str) (s : str) : list str :=
  match s with
  | [] => match cur with [] => [] | _ => [cur] end
  | c :: s' =>
      if (c =? 13)%N then
        match s' with
        | 10%N :: s'' => (cur ++ [10%N]) :: file_lines_from [] s''
        | _ => (cur ++ [10%N]) :: file_lines_from [] s'
        end
      else if (c =? 10)%N then (cur ++ [10%N]) :: file_lines_from [] s'
      else file_lines_from (cur ++ [c]) s'
  end.
Definition file_lines : str -> list str := file_lines_from [].

(** [s.rfind(c)] *)
Fixpoint rfind (c : N) (s : str) : option nat :=
  match s with
  | [] => None
  | x :: s' =>
      match rfind c s' with
      | Some i => Some (S i)
      | None => if (x =? c)%N then Some 0 else None
      end
  end.

(** Python compares strings by code point, and lists (so the parts of a
    path) lexicographically. *)
Definition str_le (s t : str) : Prop := ¬ lexico t s.
Definition seq_le (p q : list str) : Prop := ¬ lexico q p.

(** [sorted(xs)] *)
Definition sorted_strs (xs : list str) : list str := merge_sort str_le xs.

(** ** Paths *)

(** A [pathlib.Path], absolute, as its components below the root. *)
Abbreviation Path := (list str).

(** [str(p)] *)
Definition str_of_path (p : Path) : str :=
  match p with
  | [] => py "/"
  | _ => concat ((fun c => py "/" ++ c) <$> p)
  end.

(** [p.name], [p.parent], [p / name] *)
Definition name (p : Path) : str := List.last p [].
Definition parent (p : Path) : Path := removelast p.
Definition child (p : Path) (n : str) : Path := p ++ [n].

(** [p.stem]: the name without its last suffix. *)
Definition stem (p : Path) : str :=
  let n := name p in
  match rfind 46 n with
  | Some i => if (0 <? i) && (i <? length n - 1) then take i n else n
  | None => n
  end.

(** [p.relative_to(root)]: [None] stands for the [ValueError]. *)
Fixpoint relative_to (p root : Path) : option Path :=
  match root with
  | [] => Some p
  | r :: root' =>
      match p with
      | c :: p' => if decide (c = r) then relative_to p' root' else None
      | [] => None
      end
  end.

(** [sorted(paths)]: [Path.__lt__] compares the lists of parts. *)
Definition sorted_paths (ps : list Path) : list Path := merge_sort seq_le ps.

(** [s.endswith(suffix)], which is what matching [*suffix] amounts to. *)
Definition endswith (s suffix : str) : bool :=
  bool_decide (drop (length s - length suffix) s = suffix).

(** ** The file system *)

Inductive node := File (content : str) | Dir.

#[global] Instance node_eq_dec : EqDecision node.
Proof. solve_decision. Defined.

(** The file system maps the paths that exist to what is there. Text files
    are kept decoded: what [write] puts is what [read_text] gets. *)
Abbreviation FS := (gmap Path node).

Definition is_dir (fs : FS) (p : Path) : bool :=
  match p with
  | [] => true
  | _ => bool_decide (fs !! p = Some Dir)
  end.

Definition is_file (fs : FS) (p : Path) : bool :=
  match fs !! p with Some (File _) => true | _ => false end.

Definition exists_ (fs : FS) (p : Path) : bool :=
  match p with [] => true | _ => bool_decide (is_Some (fs !! p)) end.

(** The proper prefixes of a list, shortest first. *)
Fixpoint prefixes {A} (l : list A) : list (list A) :=
  match l with
  | [] => []
  | x :: l' => [] :: ((x ::.) <$> prefixes l')
  end.

(** [p] lies below [root] and every directory on the way down, [root]
    included, is one. *)
Definition below (fs : FS) (root p : Path) : bool :=
  match relative_to p root with
  | Some (c :: rel) => forallb (fun q => is_dir fs (root ++ q)) (prefixes (c :: rel))
  | _ => false
  end.

(** [root.rglob("*" + suffix)]: every entry below [root], at any depth, whose
    name matches, in the order the directory scan happens to give. Nothing
    when [root] is not a directory. *)
Definition rglob (fs : FS) (root : Path) (suffix : str) : list Path :=
  filter (fun p => below fs root p && endswith (name p) suffix)
         (fst <$> map_to_list fs).

(** ** External collaborators *)

(** What a call into a library or a child process gives back: a value, or an
    [Exception] with its text. *)
Inductive outcome (A : Type) := Returned (a : A) | Threw (msg : str).
Arguments Returned {A} a.
Arguments Threw {A} msg.

(** [subprocess.CompletedProcess] with both pipes captured. *)
Record CompletedProcess := {
  returncode : Z;
  proc_stdout : list N;
  proc_stderr : list N
}.

(** An entry of a command line: a literal, or [str(path)]. *)
Inductive arg := Lit (s : str) | PathArg (p : Path).

(** The last path named on a command line: where [ocrmypdf] and [pdftotext]
    put their output. *)
Definition output_path (cmd : list arg) : option Path :=
  match reverse cmd with
  | PathArg p :: _ => Some p
  | _ => None
  end.

(** Everything the scripts call and do not define. *)
Class World := {
  (** [shutil.which(cmd)] finds the command *)
  which : str -> bool;
  (** [subprocess.run(cmd, ...)]: the process completes or cannot be
      started; it reads the file system and may leave a file at its output
      path, and touches nothing else *)
  tool : list arg -> FS -> outcome CompletedProcess * option str;
  (** [bytes.decode(errors="ignore")] *)
  decode : list N -> str;
  (** [fitz.open] on the bytes of a document: its pages, each with what
      [get_text()] does on it *)
  fitz_open : str -> outcome (list (outcome str));
  (** [Document()], one [add_paragraph] per line and the bytes [save] writes *)
  docx_document : list str -> outcome str;
  (** [spell.word_frequency.load_text_file(spell.word_frequency.filename)]:
      the words it loads *)
  load_english : outcome (list str);
  (** [spell.unknown(words)] for a dictionary holding the given words *)
  spell_unknown : gset str -> gset str -> gset str;
  (** [spell.candidates(w)], in the order [list()] walks it *)
  spell_candidates : gset str -> str -> list str;
  (** the order in which [as_completed] hands the futures back *)
  completion_order : list Path -> list Path
}.

(** ** State, exceptions and exit *)

Record State := { files : FS; stdout : list str }.

(** How a call ends: it returns, raises an [Exception] (kept as its text),
    or raises [SystemExit]. *)
Inductive result (A : Type) := Ok (a : A) | Raise (msg : str) | Exit (code : Z).
Arguments Ok {A} a.
Arguments Raise {A} msg.
Arguments Exit {A} code.

Definition M (A : Type) : Type := State -> result A * State.

#[global] Instance M_ret : MRet M := fun A a st => (Ok a, st).
#[global] Instance M_bind : MBind M := fun A B f m st =>
  match m st with
  | (Ok a, st') => f a st'
  | (Raise e, st') => (Raise e, st')
  | (Exit c, st') => (Exit c, st')
  end.

Definition raise {A} (msg : str) : M A := fun st => (Raise msg, st).

(** [sys.exit(code)] *)
Definition sys_exit {A} (code : Z) : M A := fun st => (Exit code, st).

(** [try: body / except Exception as e: handler(e)]; [SystemExit] is not an
    [Exception] and passes through. *)
Definition try_except {A} (body : M A) (handler : str -> M A) : M A := fun st =>
  match body st with
  | (Raise e, st') => handler e st'
  | r => r
  end.

Definition lift {A} (o : outcome A) : M A :=
  match o with Returned a => mret a | Threw e => raise e end.

Definition get_files : M FS := fun st => (Ok (files st), st).
Definition set_files (f : FS -> FS) : M unit := fun st =>
  (Ok tt, {| files := f (files st); stdout := stdout st |}).

(** [print(line)] *)
Definition print (line : str) : M unit := fun st =>
  (Ok tt, {| files := files st; stdout := stdout st ++ [line] |}).

(** [for x in xs: body(x)] *)
Fixpoint for_each {A} (xs : list A) (body : A -> M unit) : M unit :=
  match xs with
  | [] => mret tt
  | x :: xs' => body x;; for_each xs' body
  end.

(** What the interpreter exits with. *)
Definition exit_code {A} (r : result A) : Z :=
  match r with Ok _ => 0 | Raise _ => 1 | Exit c => c end.

(** [p.mkdir(parents=True, exist_ok=True)], from the top down: a file in the
    way raises, an existing directory is left alone. *)
Fixpoint mkdir_from (done rest : Path) : M unit :=
  match rest with
  | [] => mret tt
  | c :: rest' =>
      let q := done ++ [c] in
      fs ← get_files;
      match fs !! q with
      | Some (File _) => raise (py "FileExistsError: " ++ str_of_path q)
      | _ => set_files <[q := Dir]>;; mkdir_from q rest'
      end
  end.
Definition mkdir_p (p : Path) : M unit := mkdir_from [] p.

(** [p.open("w")]: creates or empties the file. *)
Definition open_w (p : Path) : M unit :=
  fs ← get_files;
  if is_dir fs p then raise (py "IsADirectoryError: " ++ str_of_path p)
  else if negb (is_dir fs (parent p)) then
    raise (py "FileNotFoundError: " ++ str_of_path p)
  else set_files <[p := File []]>.

(** [f.write(s)] on a file opened by [open_w]. *)
Definition write (p : Path) (s : str) : M unit :=
  set_files (fun fs =>
    match fs !! p with
    | Some (File c) => <[p := File (c ++ s)]> fs
    | _ => <[p := File s]> fs
    end).

(** [p.read_text()] *)
Definition read_text (p : Path) : M str :=
  fs ← get_files;
  match fs !! p with
  | Some (File c) => mret c
  | Some Dir => raise (py "IsADirectoryError: " ++ str_of_path p)
  | None => raise (py "FileNotFoundError: " ++ str_of_path p)
  end.

(** [subprocess.run(cmd, stdout=PIPE, stderr=PIPE, check=False)] *)
Definition subprocess_run `{World} (cmd : list arg) : M CompletedProcess :=
  fs ← get_files;
  let '(r, written) := tool cmd fs in
  match written, output_path cmd with
  | Some c, Some p => set_files <[p := File c]>
  | _, _ => mret tt
  end;;
  lift r.

(** ** [high_accuracy_ocr_pipeline.py] *)

Module Pipeline.

(** The [CONFIG] block at the top of the script; the paths stand for their
    [expanduser().resolve()]. *)
Record Config := {
  INPUT_DIR : Path;
  OUTPUT_DIR : Path;
  WORKERS : nat;
  CUSTOM_DICT_FILE : Path
}.

Definition OCRMYPDF_BASE_ARGS : list str :=
  [ py "ocrmypdf"; py "--force-ocr"; py "--deskew"; py "--remove-background";
    py "--clean"; py "--clean-final"; py "--rotate-pages";
    py "--image-dpi"; py "400"; py "-l"; py "eng" ].

(** The character class [[A-Za-zÀ-ÿ0-9\-\']] of the tokenizer. *)
Definition is_word_char (c : N) : bool :=
  in_range 65 90 c || in_range 97 122 c || in_range 192 255 c
  || in_range 48 57 c || (c =? 45)%N || (c =? 39)%N.

(** [\d]. On [str] patterns it also matches the decimal digits of other
    scripts; none of them is a word character, so on tokens it is [0-9]. *)
Definition is_digit (c : N) : bool := in_range 48 57 c.

(** [[A-Za-z]] *)
Definition is_ascii_letter (c : N) : bool :=
  in_range 65 90 c || in_range 97 122 c.

(** A run of word characters is a match when it has two of them or more. *)
Definition emit (run : str) : list str :=
  if 2 <=? length run then [run] else [].

(** [re.findall(r"[A-Za-zÀ-ÿ0-9\-\']{2,}", text)]: greedy, left to right,
    without overlap. [run] is the run being read. *)
Fixpoint findall_from (run : str) (text : str) : list str :=
  match text with
  | [] => emit run
  | c :: text' =>
      if is_word_char c then findall_from (run ++ [c]) text'
      else emit run ++ findall_from [] text'
  end.
Definition findall_words : str -> list str := findall_from [].

(** [re.match(r'^\d+$', w)] on a token. *)
Definition all_digits (w : str) : bool :=
  match w with [] => false | _ => forallb is_digit w end.

(** [re.search(r'\d', w)] and [re.search(r'[A-Za-z]', w)] *)
Definition has_digit (w : str) : bool := existsb is_digit w.
Definition has_ascii_letter (w : str) : bool := existsb is_ascii_letter w.

Section Script.
Context `{World}.

Definition check_tools : M unit :=
  for_each [py "ocrmypdf"; py "pdftotext"; py "tesseract"] (fun cmd =>
    if which cmd then mret tt
    else print (py "ERROR: required command not found in PATH: " ++ cmd);;
         sys_exit 1).

Definition run_cmd (cmd_list : list arg) : M (bool * str) :=
  try_except
    (proc ← subprocess_run cmd_list;
     let out := decode (proc_stdout proc) ++ decode (proc_stderr proc) in
     mret (bool_decide (returncode proc = 0%Z), out))
    (fun e => mret (false, e)).

Definition ocr_to_searchable (pdf_path searchable_path : Path) : M (bool * str) :=
  let args := (Lit <$> OCRMYPDF_BASE_ARGS)
              ++ [PathArg pdf_path; PathArg searchable_path] in
  '(ok, out) ← run_cmd args;
  mret (ok, out).

Definition NL : str := [10%N].

Definition page_header (i : nat) : str :=
  py "--- PAGE " ++ fmt_nat i ++ py " ---" ++ NL.

Definition NO_TEXT : str := py "[NO TEXT ON PAGE]" ++ NL.

(** The body of [for i, page in enumerate(doc, start=1)], from page [i] on. *)
Fixpoint write_pages (out_txt : Path) (i : nat) (pages : list (outcome str))
  : M unit :=
  match pages with
  | [] => mret tt
  | page :: pages' =>
      text ← lift page;
      write out_txt (page_header i);;
      match text with
      | _ :: _ => write out_txt text
      | [] => write out_txt NO_TEXT
      end;;
      write out_txt (NL ++ NL);;
      write_pages out_txt (S i) pages'
  end.

Definition extract_text_from_searchable (searchable_pdf out_txt : Path) : M unit :=
  bytes ← read_text searchable_pdf;
  doc ← lift (fitz_open bytes);
  open_w out_txt;;
  write_pages out_txt 1 doc.

Definition write_docx_from_text (txt_path docx_path : Path) : M unit :=
  text ← read_text txt_path;
  bytes ← lift (docx_document (rstrip <$> file_lines text));
  open_w docx_path;;
  write docx_path bytes.

Definition load_custom_words (path : Path) : M (list str) :=
  fs ← get_files;
  if negb (exists_ fs path) then mret []
  else
    text ← read_text path;
    mret (strip <$> filter (fun w => strip w ≠ []) (splitlines text)).

(** One line of the issues report. *)
Definition issue_line (spell : gset str) (w : str) : str :=
  if has_digit w && has_ascii_letter w then
    w ++ py "  (chemical-like token - review manually)" ++ NL
  else
    let sugg := spell_candidates spell w in
    w ++ py " -> suggestions: " ++ join (py ", ") (take 5 sugg) ++ NL.

Definition ISSUES_HEADER : str :=
  py "Suspicious words and suggestions (automated):" ++ NL ++ NL.

(** The dictionary of [simple_spellcheck]: empty, then the English list if it
    loads, then the custom words. *)
Definition build_dictionary (custom_words : list str) : gset str :=
  let spell0 : gset str := ∅ in
  let spell1 :=
    match load_english with
    | Returned ws => list_to_set ws ∪ spell0
    | Threw _ => spell0
    end in
  list_to_set custom_words ∪ spell1.

(** [set(w for w in words if not re.match(r'^\d+$', w))] *)
Definition candidates (words : list str) : gset str :=
  list_to_set (filter (fun w => all_digits w = false) words).

Definition simple_spellcheck (txt_path issues_out : Path) (custom_words : list str)
  : M nat :=
  text ← read_text txt_path;
  let words := findall_words text in
  let spell := build_dictionary custom_words in
  let unknown := spell_unknown spell (candidates words) in
  open_w issues_out;;
  write issues_out ISSUES_HEADER;;
  for_each (sorted_strs (elements unknown)) (fun w =>
    write issues_out (issue_line spell w));;
  mret (size unknown).

(** [target_dir / (pdf_path.stem + suffix)] *)
Definition artifact (target_dir pdf_path : Path) (suffix : str) : Path :=
  child target_dir (stem pdf_path ++ suffix).

(** The two optional stages, each inside its own [try]. *)
Definition docx_stage (pdf_path txtfile docxfile : Path) : M unit :=
  try_except (write_docx_from_text txtfile docxfile)
    (fun e => print (py "[WARN] docx creation failed for " ++ name pdf_path
                     ++ py ": " ++ e)).

Definition spellcheck_stage (pdf_path txtfile issuesfile : Path)
    (custom_words : list str) : M unit :=
  try_except
    (num_issues ← simple_spellcheck txtfile issuesfile custom_words;
     print (py "[OK] " ++ name pdf_path ++ py " -> text saved ("
            ++ name txtfile ++ py "), issues: " ++ fmt_nat num_issues))
    (fun e => print (py "[WARN] spellcheck failed for " ++ name pdf_path
                     ++ py ": " ++ e)).

Definition process_pdf_file (pdf_path root out_base : Path)
    (custom_words : list str) : M bool :=
  match relative_to pdf_path root with
  | None => raise (py "ValueError: " ++ str_of_path pdf_path)
  | Some rel =>
      let target_dir := out_base ++ parent rel in
      mkdir_p target_dir;;
      let searchable := artifact target_dir pdf_path (py "_searchable.pdf") in
      let txtfile := artifact target_dir pdf_path (py ".txt") in
      let docxfile := artifact target_dir pdf_path (py ".docx") in
      let issuesfile := artifact target_dir pdf_path (py "_issues.txt") in
      print (py "[START] " ++ name pdf_path);;
      '(ok, out) ← ocr_to_searchable pdf_path searchable;
      if negb ok then
        print (py "[ERROR] ocrmypdf failed for " ++ name pdf_path ++ py ":"
               ++ NL ++ take 400 (strip out));;
        mret false
      else
        extracted ← try_except
          (extract_text_from_searchable searchable txtfile;; mret true)
          (fun e => print (py "[ERROR] text extraction failed for "
                           ++ name pdf_path ++ py ": " ++ e);;
                    mret false);
        if negb extracted then mret false
        else
          docx_stage pdf_path txtfile docxfile;;
          spellcheck_stage pdf_path txtfile issuesfile custom_words;;
          mret true
  end.

(** The loop over [as_completed(futures)]. Each document's worker is taken as
    one step, run when its future completes; [order] is the completion
    order. What the worker raises comes back out of [fut.result()]. *)
Fixpoint run_pool (root out_base : Path) (custom_words : list str)
    (order : list Path) (successes fails : nat) : M (nat * nat) :=
  match order with
  | [] => mret (successes, fails)
  | p :: rest =>
      ok ← try_except (process_pdf_file p root out_base custom_words)
             (fun e => print (py "[EXCEPTION] " ++ name p ++ py " -> " ++ e);;
                       mret false);
      if ok : bool then run_pool root out_base custom_words rest (S successes) fails
      else run_pool root out_base custom_words rest successes (S fails)
  end.

(** [sorted([p for p in root.rglob("*.pdf") if p.is_file()])] *)
Definition discover (fs : FS) (root : Path) : list Path :=
  sorted_paths (filter (fun p => is_file fs p) (rglob fs root (py ".pdf"))).

Definition main (cfg : Config) : M unit :=
  check_tools;;
  let root := INPUT_DIR cfg in
  let out_base := OUTPUT_DIR cfg in
  mkdir_p out_base;;
  custom_words ← load_custom_words (CUSTOM_DICT_FILE cfg);
  fs ← get_files;
  let pdfs := discover fs root in
  match pdfs with
  | [] => print (py "No PDFs found under " ++ str_of_path root)
  | _ =>
      print (py "Found " ++ fmt_nat (length pdfs) ++ py " PDFs. Processing with "
             ++ fmt_nat (WORKERS cfg) ++ py " worker(s).");;
      '(successes, fails) ←
        run_pool root out_base custom_words (completion_order pdfs) 0 0;
      print (NL ++ py "Done.");;
      print (py "Success: " ++ fmt_nat successes ++ py " Failed: "
             ++ fmt_nat fails);;
      print (py "Outputs in: " ++ str_of_path out_base)
  end.

End Script.
End Pipeline.

(** ** [ocr.py] *)

Module Ocr.

Record Config := {
  INPUT_DIR : Path;
  OUTPUT_DIR : Path;
  WORKERS : nat
}.

Section Script.
Context `{World}.

Definition check_tools : M unit :=
  for_each [py "ocrmypdf"; py "pdftotext"] (fun cmd =>
    if which cmd then mret tt
    else print (py "ERROR: " ++ cmd ++ py " not found. Install it before running.");;
         sys_exit 1).

Definition run_cmd (cmd : list arg) : M (bool * str) :=
  try_except
    (proc ← subprocess_run cmd;
     let out := decode (proc_stdout proc) ++ decode (proc_stderr proc) in
     mret (bool_decide (returncode proc = 0%Z), out))
    (fun e => mret (false, e)).

(** The command line of step 1. *)
Definition ocr_command (pdf_path searchable : Path) : list arg :=
  [Lit (py "ocrmypdf"); Lit (py "--deskew"); Lit (py "--force-ocr");
   PathArg pdf_path; PathArg searchable].

Definition process_one (pdf_path root out_root : Path) : M bool :=
  match relative_to (parent pdf_path) root with
  | None => raise (py "ValueError: " ++ str_of_path pdf_path)
  | Some rel_parent =>
      let target_dir := out_root ++ rel_parent in
      mkdir_p target_dir;;
      let searchable := child target_dir (stem pdf_path ++ py "_searchable.pdf") in
      let txt_file := child target_dir (stem pdf_path ++ py ".txt") in
      print (py "[START] " ++ name pdf_path);;
      '(ok, out) ← run_cmd (ocr_command pdf_path searchable);
      if negb ok then
        print (py "[ERROR] ocrmypdf failed for " ++ str_of_path pdf_path
               ++ py ":" ++ Pipeline.NL ++ strip out);;
        mret false
      else
        '(ok2, out2) ← run_cmd [Lit (py "pdftotext"); PathArg searchable;
                                 PathArg txt_file];
        if negb ok2 then
          print (py "[ERROR] pdftotext failed for " ++ str_of_path searchable
                 ++ py ":" ++ Pipeline.NL ++ strip out2);;
          mret false
        else
          print (py "[OK] " ++ name pdf_path ++ py " -> " ++ name searchable
                 ++ py ", " ++ name txt_file);;
          mret true
  end.

Definition find_pdfs (fs : FS) (root : Path) : list Path :=
  sorted_paths (filter (fun p => is_file fs p) (rglob fs root (py ".pdf"))).

Fixpoint run_pool (root out_base : Path) (order : list Path)
    (success failed : nat) : M (nat * nat) :=
  match order with
  | [] => mret (success, failed)
  | p :: rest =>
      '(s, f) ← try_except
        (ok ← process_one p root out_base;
         mret (if ok : bool then (S success, failed) else (success, S failed)))
        (fun e => print (py "[EXCEPTION] " ++ e);; mret (success, S failed));
      run_pool root out_base rest s f
  end.

Definition main (cfg : Config) : M unit :=
  let root := INPUT_DIR cfg in
  let out_base := OUTPUT_DIR cfg in
  fs0 ← get_files;
  (if negb (exists_ fs0 root) then
     print (py "Input folder does not exist: " ++ str_of_path root);;
     sys_exit 1
   else mret tt);;
  mkdir_p out_base;;
  check_tools;;
  fs ← get_files;
  let pdfs := find_pdfs fs root in
  match pdfs with
  | [] => print (py "No PDFs found under " ++ str_of_path root)
  | _ =>
      print (py "Found " ++ fmt_nat (length pdfs) ++ py " PDF(s) under "
             ++ str_of_path root ++ py ". Using " ++ fmt_nat (WORKERS cfg)
             ++ py " workers.");;
      '(success, failed) ← run_pool root out_base (completion_order pdfs) 0 0;
      print (Pipeline.NL ++ py "All done.");;
      print (py "Success: " ++ fmt_nat success ++ py ", Failed: "
             ++ fmt_nat failed);;
      print (py "Outputs saved under: " ++ str_of_path out_base)
  end.

End Script.
End Ocr.

(** ** [batch_extract.py] *)

Module BatchExtract.

Record Config := {
  INPUT_DIR : Path;
  OUTPUT_DIR : Path;
  USE_LAYOUT : bool
}.

(** [p.stat().st_size == 0]: a path that is not there raises; the size of a
    file is the length of its content, that of a folder is taken not to
    be 0. *)
Definition stat_is_empty (p : Path) : M bool :=
  fs ← get_files;
  match fs !! p with
  | Some (File c) => mret (bool_decide (c = []))
  | Some Dir => mret false
  | None => raise (py "FileNotFoundError: " ++ str_of_path p)
  end.

(** [sorted(root.rglob("*.pdf"))]: no test that the entry is a file. *)
Definition discover (fs : FS) (root : Path) : list Path :=
  sorted_paths (rglob fs root (py ".pdf")).

Section Script.
Context `{World}.

(** The command line [run_pdftotext] builds. *)
Definition pdftotext_command (use_layout : bool) (pdf txt : Path) : list arg :=
  [Lit (py "pdftotext")]
  ++ (if use_layout then [Lit (py "-layout")] else [])
  ++ [PathArg pdf; PathArg txt].

Definition run_pdftotext (cfg : Config) (pdf txt : Path) : M bool :=
  proc ← subprocess_run (pdftotext_command (USE_LAYOUT cfg) pdf txt);
  if bool_decide (returncode proc ≠ 0%Z) then
    print (py "[ERROR] " ++ name pdf ++ py " -> "
           ++ strip (decode (proc_stderr proc)));;
    mret false
  else mret true.

(** The body of [for i, pdf in enumerate(pdfs, start=1)], from document [i]
    on; [total] is [len(pdfs)]. *)
Fixpoint extract_loop (cfg : Config) (root out_base : Path) (total i : nat)
    (pdfs : list Path) : M unit :=
  match pdfs with
  | [] => mret tt
  | pdf :: rest =>
      match relative_to pdf root with
      | None => raise (py "ValueError: " ++ str_of_path pdf)
      | Some rel =>
          let target_dir := out_base ++ parent rel in
          mkdir_p target_dir;;
          let txt_file := child target_dir (stem pdf ++ py ".txt") in
          print (py "[" ++ fmt_nat i ++ py "/" ++ fmt_nat total
                 ++ py "] Extracting " ++ name pdf ++ py " -> "
                 ++ str_of_path txt_file);;
          ok ← run_pdftotext cfg pdf txt_file;
          (if ok : bool then
             empty ← stat_is_empty txt_file;
             if empty : bool then
               print (py "   WARNING: " ++ name txt_file
                      ++ py " is empty (no selectable text in PDF).")
             else mret tt
           else print (py "   FAILED on " ++ name pdf));;
          extract_loop cfg root out_base total (S i) rest
      end
  end.

Definition main (cfg : Config) : M unit :=
  let root := INPUT_DIR cfg in
  let out_base := OUTPUT_DIR cfg in
  fs0 ← get_files;
  (if negb (exists_ fs0 root) then
     print (py "Input folder not found: " ++ str_of_path root);;
     sys_exit 1
   else mret tt);;
  mkdir_p out_base;;
  fs ← get_files;
  let pdfs := discover fs root in
  match pdfs with
  | [] => print (py "No PDFs found under " ++ str_of_path root)
  | _ =>
      print (py "Found " ++ fmt_nat (length pdfs) ++ py " PDF(s) under "
             ++ str_of_path root ++ Pipeline.NL);;
      extract_loop cfg root out_base (length pdfs) 1 pdfs;;
      print (Pipeline.NL ++ py "Done.");;
      print (py "All extracted texts saved in: " ++ str_of_path out_base)
  end.

End Script.
End BatchExtract.


(** * Properties *)

(** ** The orders behind [sorted] *)

Section Orders.
Context {A : Type} `{Lexico A, !StrictOrder (@lexico A _),
                     !TrichotomyT (@lexico A _)}.

Definition lex_le (x y : list A) : Prop := ¬ lexico y x.

#[local] Instance lex_le_total : Total lex_le.
Proof.
  intros x y. unfold lex_le.
  destruct (trichotomy lexico x y) as [Hlt | [-> | Hgt]].
  - left. intros Hyx. exact (irreflexivity lexico x (transitivity Hlt Hyx)).
  - left. apply irreflexivity, _.
  - right. intros Hxy. exact (irreflexivity lexico x (transitivity Hxy Hgt)).
Qed.

#[local] Instance lex_le_trans : Transitive lex_le.
Proof.
  intros x y z Hxy Hyz Hzx. unfold lex_le in *.
  destruct (trichotomy lexico x y) as [Hlt | [-> | Hgt]]; [|done..].
  apply Hyz. by trans x.
Qed.

#[local] Instance lex_le_antisymm : AntiSymm (=) lex_le.
Proof.
  intros x y Hxy Hyx. unfold lex_le in *.
  by destruct (trichotomy lexico x y) as [? | [? | ?]].
Qed.

End Orders.

#[global] Instance str_le_total : Total str_le := lex_le_total.
#[global] Instance str_le_trans : Transitive str_le := lex_le_trans.
#[global] Instance str_le_antisymm : AntiSymm (=) str_le := lex_le_antisymm.
#[global] Instance seq_le_total : Total seq_le := lex_le_total.
#[global] Instance seq_le_trans : Transitive seq_le := lex_le_trans.
#[global] Instance seq_le_antisymm : AntiSymm (=) seq_le := lex_le_antisymm.

(** Sorting forgets the order it was given the elements in. *)
Lemma sorted_paths_perm (l1 l2 : list Path) :
  l1 ≡ₚ l2 -> sorted_paths l1 = sorted_paths l2.
Proof.
  intros Hp. apply (Sorted_unique seq_le).
  - apply Sorted_merge_sort, _.
  - apply Sorted_merge_sort, _.
  - unfold sorted_paths. by rewrite !merge_sort_Permutation.
Qed.

Lemma sorted_paths_sorted (l : list Path) : Sorted seq_le (sorted_paths l).
Proof. apply Sorted_merge_sort, _. Qed.

Lemma sorted_strs_sorted (l : list str) : Sorted str_le (sorted_strs l).
Proof. apply Sorted_merge_sort, _. Qed.

(** ** Discovery *)

(** What the design document asks of the order: by the path as one string. *)
Definition by_path_string (p q : Path) : Prop :=
  str_le (str_of_path p) (str_of_path q).

(** The files discovery is after. *)
Definition is_source_document (fs : FS) (root p : Path) : Prop :=
  is_file fs p ∧ below fs root p ∧ endswith (name p) (py ".pdf").

Lemma elem_of_discover fs root p :
  p ∈ Pipeline.discover fs root ↔ is_source_document fs root p.
Proof.
  unfold Pipeline.discover, sorted_paths, is_source_document, rglob.
  rewrite merge_sort_Permutation, !list_elem_of_filter.
  rewrite andb_True, list_elem_of_fmap. split.
  - by intros (? & [? ?] & _).
  - intros (Hf & Hb & He). split_and!; [done..|].
    unfold is_file in Hf. destruct (fs !! p) as [n|] eqn:Hp; [|done].
    exists (p, n). split; [done|]. by apply elem_of_map_to_list.
Qed.

Lemma NoDup_discover fs root : NoDup (Pipeline.discover fs root).
Proof.
  unfold Pipeline.discover, sorted_paths, rglob.
  rewrite merge_sort_Permutation.
  apply NoDup_filter, NoDup_filter, NoDup_fst_map_to_list.
Qed.


(** Two sibling directories, [a] and [a-b], each with one document. *)
Definition fs_siblings : FS :=
  list_to_map
    [ ([py "in"], Dir);
      ([py "in"; py "a"], Dir);
      ([py "in"; py "a-b"], Dir);
      ([py "in"; py "a"; py "x.pdf"], File (py "%PDF"));
      ([py "in"; py "a-b"; py "x.pdf"], File (py "%PDF")) ].

Example discover_siblings :
  Pipeline.discover fs_siblings [py "in"]
  = [[py "in"; py "a"; py "x.pdf"]; [py "in"; py "a-b"; py "x.pdf"]].
Proof. vm_compute. reflexivity. Qed.

(** C5, as stated, fails: the result is ordered by the list of path parts,
    which puts [/in/a/x.pdf] before [/in/a-b/x.pdf], while as strings
    [/in/a-b/x.pdf] comes first, [-] sorting before [/]. *)
Lemma discover_not_by_path_string :
  ¬ Sorted by_path_string (Pipeline.discover fs_siblings [py "in"]).
Proof.
  rewrite discover_siblings. intros Hs.
  apply Sorted_inv in Hs as [_ Hhd]. apply HdRel_inv in Hhd.
  apply Hhd. vm_compute. tauto.
Qed.

(** C5, amended: discovery returns exactly the files below the root, at any
    depth, whose name ends in [.pdf], each once, sorted by [pathlib]'s order
    on paths (lexicographic on the sequence of path parts, each part compared
    as a string); the result does not depend on the order in which the
    directories are scanned; with no such file it is the empty list. [ocr.py]
    discovers the same way. *)
Theorem discover_sorted_by_parts (fs : FS) (root : Path) :
  Sorted seq_le (Pipeline.discover fs root)
  ∧ NoDup (Pipeline.discover fs root)
  ∧ (∀ p, p ∈ Pipeline.discover fs root ↔ is_source_document fs root p)
  ∧ (∀ scan, scan ≡ₚ rglob fs root (py ".pdf") ->
       sorted_paths (filter (fun p => is_file fs p) scan)
       = Pipeline.discover fs root)
  ∧ ((∀ p, ¬ is_source_document fs root p) -> Pipeline.discover fs root = [])
  ∧ Ocr.find_pdfs fs root = Pipeline.discover fs root.
Proof.
  split_and!.
  - apply sorted_paths_sorted.
  - apply NoDup_discover.
  - apply elem_of_discover.
  - intros scan Hscan. apply sorted_paths_perm. by rewrite Hscan.
  - intros Hnone. destruct (Pipeline.discover fs root) as [|p l] eqn:Hd; [done|].
    destruct (Hnone p). apply elem_of_discover. rewrite Hd. left.
  - reflexivity.
Qed.

Lemma discover_sorted_by_parts_witness :
  sorted_paths (filter (fun p => is_file fs_siblings p)
                  [[py "in"; py "a-b"; py "x.pdf"]; [py "in"; py "a"; py "x.pdf"]])
  = [[py "in"; py "a"; py "x.pdf"]; [py "in"; py "a-b"; py "x.pdf"]]
  ∧ Pipeline.discover ∅ [py "in"] = [].
Proof.
  destruct (discover_sorted_by_parts fs_siblings [py "in"])
    as (_ & _ & _ & Hscan & _ & _).
  destruct (discover_sorted_by_parts ∅ [py "in"]) as (_ & _ & _ & _ & Hnone & _).
  split.
  - rewrite Hscan; [apply discover_siblings|].
    vm_compute. first [reflexivity | apply perm_swap].
  - apply Hnone. intros p (Hf & _). vm_compute in Hf. exact Hf.
Defined.

(** ** Running an external process *)

Section RunCmd.
Context `{World}.

(** What [subprocess.run] leaves on disk. *)
Definition after_tool (cmd : list arg) (st : State) : State :=
  match (tool cmd (files st)).2, output_path cmd with
  | Some c, Some p =>
      {| files := <[p := File c]> (files st); stdout := stdout st |}
  | _, _ => st
  end.

Lemma subprocess_run_eq cmd st :
  subprocess_run cmd st
  = (match (tool cmd (files st)).1 with
     | Returned proc => Ok proc
     | Threw e => Raise e
     end, after_tool cmd st).
Proof.
  unfold subprocess_run, after_tool, mbind, M_bind, get_files. simpl.
  destruct (tool cmd (files st)) as [r w]. simpl.
  destruct st as [fs out]. simpl.
  destruct w as [c|], (output_path cmd) as [p|], r as [proc|e]; reflexivity.
Qed.

Lemma run_cmd_eq cmd st :
  Pipeline.run_cmd cmd st
  = (Ok (match (tool cmd (files st)).1 with
         | Returned proc =>
             (bool_decide (returncode proc = 0%Z),
              decode (proc_stdout proc) ++ decode (proc_stderr proc))
         | Threw e => (false, e)
         end), after_tool cmd st).
Proof.
  unfold Pipeline.run_cmd, try_except, mbind, M_bind.
  rewrite subprocess_run_eq.
  by destruct (tool cmd (files st)).1.
Qed.

Lemma ocr_run_cmd_eq cmd st : Ocr.run_cmd cmd st = Pipeline.run_cmd cmd st.
Proof. reflexivity. Qed.

(** C10: [run_cmd] always returns a pair, in both scripts: [ok] is true
    exactly when the process completed with return code 0 and then the
    diagnostic is its decoded stdout followed by its decoded stderr; when
    starting the process raises, the pair is [False] and the exception's
    text. Nothing is raised to the caller. *)
Theorem run_cmd_total (cmd : list arg) (st : State) :
  ∃ ok diag st',
    Pipeline.run_cmd cmd st = (Ok (ok, diag), st')
    ∧ Ocr.run_cmd cmd st = (Ok (ok, diag), st')
    ∧ (ok = true ↔ ∃ proc, (tool cmd (files st)).1 = Returned proc
                           ∧ returncode proc = 0%Z)
    ∧ match (tool cmd (files st)).1 with
      | Returned proc =>
          diag = decode (proc_stdout proc) ++ decode (proc_stderr proc)
      | Threw e => ok = false ∧ diag = e
      end.
Proof.
  change (Ocr.run_cmd cmd st) with (Pipeline.run_cmd cmd st).
  rewrite run_cmd_eq.
  destruct (tool cmd (files st)).1 as [proc|e] eqn:Ht.
  - eexists _, _, _. split; [reflexivity|]. split; [reflexivity|]. split.
    + rewrite bool_decide_eq_true. split.
      * intros Hrc. by exists proc.
      * by intros (proc' & [= <-] & Hrc).
    + reflexivity.
  - eexists _, _, _. split; [reflexivity|]. split; [reflexivity|]. split.
    + split; [done|]. by intros (proc' & [=] & _).
    + done.
Qed.

End RunCmd.

(** ** Two invariants of the scripts' computations *)

(** [m] never raises [SystemExit]. *)
Definition no_exit {A} (m : M A) : Prop := ∀ st c, (m st).1 ≠ Exit c.

(** [m] writes, if at all, only at paths in [S]. *)
Definition touches_only {A} (S : Path -> Prop) (m : M A) : Prop :=
  ∀ st p, ¬ S p -> files (m st).2 !! p = files st !! p.

(** [m] prints nothing. *)
Definition silent {A} (m : M A) : Prop := ∀ st, stdout (m st).2 = stdout st.

Section Invariants.
Context {A B : Type}.

Lemma silent_ret (a : A) : silent (mret a).
Proof. by intros st. Qed.

Lemma silent_raise e : silent (@raise A e).
Proof. by intros st. Qed.

Lemma silent_bind (m : M A) (f : A -> M B) :
  silent m -> (∀ a, silent (f a)) -> silent (m ≫= f).
Proof.
  intros Hm Hf st. unfold mbind, M_bind. specialize (Hm st).
  destruct (m st) as [[a|e|c'] st']; simpl in *; [|done..].
  by rewrite Hf.
Qed.

Lemma silent_try_except (body : M A) handler :
  silent body -> (∀ e, silent (handler e)) -> silent (try_except body handler).
Proof.
  intros Hm Hh st. unfold try_except. specialize (Hm st).
  destruct (body st) as [[a|e|c'] st']; simpl in *; [done| |done].
  by rewrite Hh.
Qed.

Lemma silent_lift (o : outcome A) : silent (lift o).
Proof. by destruct o. Qed.

Lemma no_exit_ret (a : A) : no_exit (mret a).
Proof. by intros st c. Qed.

Lemma no_exit_raise e : no_exit (@raise A e).
Proof. by intros st c. Qed.

Lemma no_exit_bind (m : M A) (f : A -> M B) :
  no_exit m -> (∀ a, no_exit (f a)) -> no_exit (m ≫= f).
Proof.
  intros Hm Hf st c. unfold mbind, M_bind. specialize (Hm st).
  destruct (m st) as [[a|e|c'] st']; simpl in *; [apply Hf|done|].
  by destruct (Hm c').
Qed.

Lemma no_exit_try_except (body : M A) handler :
  no_exit body -> (∀ e, no_exit (handler e)) -> no_exit (try_except body handler).
Proof.
  intros Hm Hh st c. unfold try_except. specialize (Hm st).
  destruct (body st) as [[a|e|c'] st']; simpl in *; [done|apply Hh|].
  by destruct (Hm c').
Qed.

Lemma no_exit_lift (o : outcome A) : no_exit (lift o).
Proof. by destruct o. Qed.

Lemma touches_only_ret S (a : A) : touches_only S (mret a).
Proof. by intros st p _. Qed.

Lemma touches_only_raise S e : touches_only S (@raise A e).
Proof. by intros st p _. Qed.

Lemma touches_only_exit S c : touches_only S (@sys_exit A c).
Proof. by intros st p _. Qed.

Lemma touches_only_bind S (m : M A) (f : A -> M B) :
  touches_only S m -> (∀ a, touches_only S (f a)) -> touches_only S (m ≫= f).
Proof.
  intros Hm Hf st p Hp. unfold mbind, M_bind. specialize (Hm st p Hp).
  destruct (m st) as [[a|e|c'] st']; simpl in *; [|done..].
  by rewrite Hf.
Qed.

Lemma touches_only_try_except S (body : M A) handler :
  touches_only S body -> (∀ e, touches_only S (handler e)) ->
  touches_only S (try_except body handler).
Proof.
  intros Hm Hh st p Hp. unfold try_except. specialize (Hm st p Hp).
  destruct (body st) as [[a|e|c'] st']; simpl in *; [done| |done].
  by rewrite Hh.
Qed.

Lemma touches_only_lift S (o : outcome A) : touches_only S (lift o).
Proof. by destruct o. Qed.

Lemma touches_only_mono (S S' : Path -> Prop) (m : M A) :
  (∀ p, S p -> S' p) -> touches_only S m -> touches_only S' m.
Proof. intros HS Hm st p Hp. apply Hm. naive_solver. Qed.

End Invariants.

Lemma silent_get_files : silent get_files.
Proof. by intros st. Qed.
Lemma silent_set_files f : silent (set_files f).
Proof. by intros st. Qed.

Lemma no_exit_get_files : no_exit get_files.
Proof. by intros st c. Qed.
Lemma no_exit_set_files f : no_exit (set_files f).
Proof. by intros st c. Qed.
Lemma no_exit_print line : no_exit (print line).
Proof. by intros st c. Qed.

Lemma touches_only_get_files S : touches_only S get_files.
Proof. by intros st p _. Qed.
Lemma touches_only_print S line : touches_only S (print line).
Proof. by intros st p _. Qed.
Lemma touches_only_insert (S : Path -> Prop) q n :
  S q -> touches_only S (set_files <[q := n]>).
Proof.
  intros Hq st p Hp. simpl. apply lookup_insert_ne. by intros ->.
Qed.

Create HintDb inv discriminated.
#[export] Hint Resolve no_exit_ret no_exit_raise no_exit_lift no_exit_get_files
  no_exit_set_files no_exit_print touches_only_ret touches_only_raise
  touches_only_exit touches_only_lift touches_only_get_files
  touches_only_print silent_ret silent_raise silent_lift silent_get_files
  silent_set_files : inv.

(** Goes through a computation bind by bind and case by case. *)
Ltac inv_step :=
  lazymatch goal with
  | |- no_exit (_ ≫= _) => apply no_exit_bind; [|intros ?]
  | |- no_exit (try_except _ _) => apply no_exit_try_except; [|intros ?]
  | |- touches_only _ (_ ≫= _) => apply touches_only_bind; [|intros ?]
  | |- touches_only _ (try_except _ _) =>
      apply touches_only_try_except; [|intros ?]
  | |- silent (_ ≫= _) => apply silent_bind; [|intros ?]
  | |- silent (try_except _ _) => apply silent_try_except; [|intros ?]
  | |- silent (match _ with _ => _ end) => case_match
  | |- no_exit (match _ with _ => _ end) => case_match
  | |- touches_only _ (match _ with _ => _ end) => case_match
  | |- _ => solve [eauto with inv]
  end.
Ltac inv_auto := repeat inv_step.

Section FileOps.

Lemma no_exit_for_each {A} (xs : list A) body :
  (∀ x, no_exit (body x)) -> no_exit (for_each xs body).
Proof. intros Hb. induction xs; simpl; inv_auto. Qed.

Lemma touches_only_for_each {A} S (xs : list A) body :
  (∀ x, touches_only S (body x)) -> touches_only S (for_each xs body).
Proof. intros Hb. induction xs; simpl; inv_auto. Qed.

Lemma silent_for_each {A} (xs : list A) body :
  (∀ x, silent (body x)) -> silent (for_each xs body).
Proof. intros Hb. induction xs; simpl; inv_auto. Qed.

Lemma silent_mkdir_from done rest : silent (mkdir_from done rest).
Proof. revert done. induction rest; intros done; simpl; inv_auto. Qed.
Lemma silent_open_w p : silent (open_w p).
Proof. unfold open_w. inv_auto. Qed.
Lemma silent_write p s : silent (write p s).
Proof. by intros st. Qed.
Lemma silent_read_text p : silent (read_text p).
Proof. unfold read_text. inv_auto. Qed.

Lemma no_exit_mkdir_from done rest : no_exit (mkdir_from done rest).
Proof. revert done. induction rest; intros done; simpl; inv_auto. Qed.

(** [mkdir] only ever puts directories on the way down to its target. *)
Lemma touches_only_mkdir_from done rest :
  touches_only (fun p => length p <= length (done ++ rest))
    (mkdir_from done rest).
Proof.
  revert done. induction rest as [|c rest IH]; intros done; simpl; inv_auto;
    try (apply touches_only_insert; rewrite !length_app; simpl; lia);
    (eapply touches_only_mono, IH; intros p; by rewrite <-(assoc_L (++))).
Qed.

Lemma no_exit_open_w p : no_exit (open_w p).
Proof. unfold open_w. inv_auto. Qed.
Lemma no_exit_write p s : no_exit (write p s).
Proof. by intros st c. Qed.
Lemma no_exit_read_text p : no_exit (read_text p).
Proof. unfold read_text. inv_auto. Qed.

Lemma touches_only_open_w (S : Path -> Prop) p : S p -> touches_only S (open_w p).
Proof. intros Hp. unfold open_w. inv_auto. by apply touches_only_insert. Qed.
Lemma touches_only_write (S : Path -> Prop) p s : S p -> touches_only S (write p s).
Proof.
  intros Hp st q Hq. unfold write. simpl.
  assert (p ≠ q) by by intros ->.
  repeat case_match; by rewrite lookup_insert_ne.
Qed.
Lemma touches_only_read_text S p : touches_only S (read_text p).
Proof. unfold read_text. inv_auto. Qed.

End FileOps.

#[export] Hint Resolve no_exit_for_each touches_only_for_each no_exit_mkdir_from
  no_exit_open_w no_exit_write no_exit_read_text touches_only_read_text
  silent_for_each silent_mkdir_from silent_open_w silent_write
  silent_read_text : inv.

(** ** The stages of the pipeline *)

(** The state after one more printed line. *)
Definition logged (line : str) (st : State) : State :=
  {| files := files st; stdout := stdout st ++ [line] |}.

Section Stages.
Context `{World}.

Lemma no_exit_subprocess_run cmd : no_exit (subprocess_run cmd).
Proof. intros st c. rewrite subprocess_run_eq. simpl. by case_match. Qed.

Lemma touches_only_subprocess_run (S : Path -> Prop) cmd :
  (∀ p, output_path cmd = Some p -> S p) -> touches_only S (subprocess_run cmd).
Proof.
  intros HS st p Hp. rewrite subprocess_run_eq. simpl. unfold after_tool.
  repeat case_match; simpl; try done.
  apply lookup_insert_ne. intros ->. naive_solver.
Qed.

Lemma no_exit_run_cmd cmd : no_exit (Pipeline.run_cmd cmd).
Proof. intros st c. by rewrite run_cmd_eq. Qed.

Lemma touches_only_run_cmd (S : Path -> Prop) cmd :
  (∀ p, output_path cmd = Some p -> S p) -> touches_only S (Pipeline.run_cmd cmd).
Proof.
  intros HS. unfold Pipeline.run_cmd. inv_auto.
  by apply touches_only_subprocess_run.
Qed.

Lemma output_path_snoc cmd a p : output_path (cmd ++ [a; PathArg p]) = Some p.
Proof. unfold output_path. by rewrite reverse_app. Qed.

Lemma no_exit_ocr_to_searchable pdf searchable :
  no_exit (Pipeline.ocr_to_searchable pdf searchable).
Proof.
  unfold Pipeline.ocr_to_searchable. inv_auto. apply no_exit_run_cmd.
Qed.

Lemma touches_only_ocr_to_searchable (S : Path -> Prop) pdf searchable :
  S searchable -> touches_only S (Pipeline.ocr_to_searchable pdf searchable).
Proof.
  intros HS. unfold Pipeline.ocr_to_searchable. inv_auto.
  apply touches_only_run_cmd. intros p.
  rewrite output_path_snoc. by intros [= <-].
Qed.

Lemma no_exit_write_pages out_txt i pages :
  no_exit (Pipeline.write_pages out_txt i pages).
Proof. revert i. induction pages; intros i; simpl; inv_auto. Qed.

Lemma touches_only_write_pages (S : Path -> Prop) out_txt i pages :
  S out_txt -> touches_only S (Pipeline.write_pages out_txt i pages).
Proof.
  intros HS. revert i. induction pages; intros i; simpl; inv_auto;
    by apply touches_only_write.
Qed.

Lemma no_exit_extract searchable out_txt :
  no_exit (Pipeline.extract_text_from_searchable searchable out_txt).
Proof.
  unfold Pipeline.extract_text_from_searchable. inv_auto.
  apply no_exit_write_pages.
Qed.

Lemma touches_only_extract (S : Path -> Prop) searchable out_txt :
  S out_txt ->
  touches_only S (Pipeline.extract_text_from_searchable searchable out_txt).
Proof.
  intros HS. unfold Pipeline.extract_text_from_searchable. inv_auto.
  - by apply touches_only_open_w.
  - by apply touches_only_write_pages.
Qed.

Lemma no_exit_write_docx txt docx :
  no_exit (Pipeline.write_docx_from_text txt docx).
Proof. unfold Pipeline.write_docx_from_text. inv_auto. Qed.

Lemma touches_only_write_docx (S : Path -> Prop) txt docx :
  S docx -> touches_only S (Pipeline.write_docx_from_text txt docx).
Proof.
  intros HS. unfold Pipeline.write_docx_from_text. inv_auto.
  - by apply touches_only_open_w.
  - by apply touches_only_write.
Qed.

Lemma no_exit_simple_spellcheck txt issues cw :
  no_exit (Pipeline.simple_spellcheck txt issues cw).
Proof. unfold Pipeline.simple_spellcheck. inv_auto. Qed.

Lemma touches_only_simple_spellcheck (S : Path -> Prop) txt issues cw :
  S issues -> touches_only S (Pipeline.simple_spellcheck txt issues cw).
Proof.
  intros HS. unfold Pipeline.simple_spellcheck. inv_auto.
  - by apply touches_only_open_w.
  - by apply touches_only_write.
  - apply touches_only_for_each. intros w. by apply touches_only_write.
Qed.

Lemma silent_run_cmd cmd : silent (Pipeline.run_cmd cmd).
Proof.
  intros st. rewrite run_cmd_eq. unfold after_tool. simpl.
  by repeat case_match.
Qed.

Lemma silent_ocr_to_searchable pdf searchable :
  silent (Pipeline.ocr_to_searchable pdf searchable).
Proof.
  unfold Pipeline.ocr_to_searchable. inv_auto. apply silent_run_cmd.
Qed.

Lemma silent_write_pages out_txt i pages :
  silent (Pipeline.write_pages out_txt i pages).
Proof. revert i. induction pages; intros i; simpl; inv_auto. Qed.

Lemma silent_extract searchable out_txt :
  silent (Pipeline.extract_text_from_searchable searchable out_txt).
Proof.
  unfold Pipeline.extract_text_from_searchable. inv_auto.
  apply silent_write_pages.
Qed.

Lemma silent_simple_spellcheck txt issues cw :
  silent (Pipeline.simple_spellcheck txt issues cw).
Proof. unfold Pipeline.simple_spellcheck. inv_auto. Qed.

(** A failing export has written nothing. *)
Lemma write_docx_raise_unchanged txt docx st e st' :
  Pipeline.write_docx_from_text txt docx st = (Raise e, st') -> st' = st.
Proof.
  unfold Pipeline.write_docx_from_text, read_text, open_w, lift, mbind, M_bind,
    get_files, raise, mret, M_ret, set_files, write.
  repeat (case_match; simpl in *; simplify_eq); try done; congruence.
Qed.

(** An optional stage always hands control back. *)
Lemma docx_stage_returns pdf txt docx st :
  ∃ st', Pipeline.docx_stage pdf txt docx st = (Ok tt, st').
Proof.
  unfold Pipeline.docx_stage, try_except.
  pose proof (no_exit_write_docx txt docx st) as Hne.
  destruct (Pipeline.write_docx_from_text txt docx st) as [[[]|e|c] st'];
    simpl in *; [by eexists..|by destruct (Hne c)].
Qed.

(** The last stage returns, having printed one line, [OK] or [WARN]. *)
Lemma spellcheck_stage_returns pdf txt issues cw st :
  ∃ st' line, Pipeline.spellcheck_stage pdf txt issues cw st = (Ok tt, st')
              ∧ stdout st' = stdout st ++ [line].
Proof.
  unfold Pipeline.spellcheck_stage, try_except, mbind, M_bind.
  pose proof (no_exit_simple_spellcheck txt issues cw st) as Hne.
  pose proof (silent_simple_spellcheck txt issues cw st) as Hs.
  destruct (Pipeline.simple_spellcheck txt issues cw st) as [[n|e|c] st'];
    simpl in *; [| |by destruct (Hne c)].
  - eexists _, _. split; [reflexivity|]. simpl. by rewrite Hs.
  - eexists _, _. split; [reflexivity|]. simpl. by rewrite Hs.
Qed.

Lemma touches_only_docx_stage (S : Path -> Prop) pdf txt docx :
  S docx -> touches_only S (Pipeline.docx_stage pdf txt docx).
Proof.
  intros HS. unfold Pipeline.docx_stage. inv_auto.
  by apply touches_only_write_docx.
Qed.

Lemma touches_only_spellcheck_stage (S : Path -> Prop) pdf txt issues cw :
  S issues -> touches_only S (Pipeline.spellcheck_stage pdf txt issues cw).
Proof.
  intros HS. unfold Pipeline.spellcheck_stage. inv_auto.
  by apply touches_only_simple_spellcheck.
Qed.

(** A worker never raises [SystemExit]. *)
Lemma no_exit_process_pdf_file pdf root out_base cw :
  no_exit (Pipeline.process_pdf_file pdf root out_base cw).
Proof.
  unfold Pipeline.process_pdf_file, Pipeline.docx_stage,
    Pipeline.spellcheck_stage.
  inv_auto; first [apply no_exit_ocr_to_searchable | apply no_exit_extract
                  | apply no_exit_write_docx | apply no_exit_simple_spellcheck
                  | apply no_exit_mkdir_from].
Qed.

End Stages.

(** ** One document through the pipeline *)

(** The lines [process_pdf_file] prints. *)
Definition start_line (pdf_path : Path) : str := py "[START] " ++ name pdf_path.
Definition ocr_error_line (pdf_path : Path) (out : str) : str :=
  py "[ERROR] ocrmypdf failed for " ++ name pdf_path ++ py ":" ++ Pipeline.NL
  ++ take 400 (strip out).
Definition extract_error_line (pdf_path : Path) (e : str) : str :=
  py "[ERROR] text extraction failed for " ++ name pdf_path ++ py ": " ++ e.
Definition docx_warn_line (pdf_path : Path) (e : str) : str :=
  py "[WARN] docx creation failed for " ++ name pdf_path ++ py ": " ++ e.

Lemma artifact_inj dir pdf s1 s2 :
  Pipeline.artifact dir pdf s1 = Pipeline.artifact dir pdf s2 -> s1 = s2.
Proof.
  unfold Pipeline.artifact, child. intros Heq.
  apply app_inv_head in Heq. injection Heq as Heq. by apply app_inv_head in Heq.
Qed.

Lemma artifact_length dir pdf s :
  length (Pipeline.artifact dir pdf s) = S (length dir).
Proof. unfold Pipeline.artifact, child. rewrite length_app. simpl. lia. Qed.

Lemma bind_ok {A B} (m : M A) (f : A -> M B) st a st' :
  m st = (Ok a, st') -> (m ≫= f) st = f a st'.
Proof. intros Hm. unfold mbind, M_bind. by rewrite Hm. Qed.

Lemma bind_raise {A B} (m : M A) (f : A -> M B) st e st' :
  m st = (Raise e, st') -> (m ≫= f) st = (Raise e, st').
Proof. intros Hm. unfold mbind, M_bind. by rewrite Hm. Qed.

Lemma bind_ok_inv {A B} (m : M A) (f : A -> M B) st b st' :
  (m ≫= f) st = (Ok b, st') -> ∃ a sa, m st = (Ok a, sa) ∧ f a sa = (Ok b, st').
Proof.
  unfold mbind, M_bind. destruct (m st) as [[a|e|c] sa]; [|done..].
  intros Hf. by exists a, sa.
Qed.

(** An [open] for writing that succeeds leaves an empty file. *)
Lemma open_w_ok p st st' :
  open_w p st = (Ok tt, st') ->
  is_file (files st') p ∧ files st' = <[p := File []]> (files st).
Proof.
  unfold open_w. intros Ho. apply bind_ok_inv in Ho as (fs & sa & [= <- <-] & Ho).
  repeat case_match; try done. injection Ho as <-. simpl.
  split; [|done]. unfold is_file. by rewrite lookup_insert_eq.
Qed.

Lemma try_except_ok {A} (body : M A) handler st a st' :
  body st = (Ok a, st') -> try_except body handler st = (Ok a, st').
Proof. intros Hm. unfold try_except. by rewrite Hm. Qed.

Lemma try_except_raise {A} (body : M A) handler st e st' :
  body st = (Raise e, st') -> try_except body handler st = handler e st'.
Proof. intros Hm. unfold try_except. by rewrite Hm. Qed.

Lemma stdout_after {A} (m : M A) st r st' :
  silent m -> m st = (r, st') -> stdout st' = stdout st.
Proof. intros Hs Hm. specialize (Hs st). by rewrite Hm in Hs. Qed.

(** Two literal suffixes differ. *)
Ltac suffix_ne := let Heq := fresh in intros Heq; vm_compute in Heq; discriminate.

Section PerDocument.
Context `{World}.
Variables (pdf_path root out_base rel : Path) (custom_words : list str).

Local Abbreviation target_dir := (out_base ++ parent rel).
Local Abbreviation searchable :=
  (Pipeline.artifact target_dir pdf_path (py "_searchable.pdf")).
Local Abbreviation txtfile := (Pipeline.artifact target_dir pdf_path (py ".txt")).
Local Abbreviation docxfile := (Pipeline.artifact target_dir pdf_path (py ".docx")).
Local Abbreviation issuesfile :=
  (Pipeline.artifact target_dir pdf_path (py "_issues.txt")).
Local Abbreviation process :=
  (Pipeline.process_pdf_file pdf_path root out_base custom_words).

(** Creating the output directory leaves every artifact path alone. *)
Lemma mkdir_keeps_artifact st r st0 suffix :
  mkdir_p target_dir st = (r, st0) ->
  files st0 !! Pipeline.artifact target_dir pdf_path suffix
  = files st !! Pipeline.artifact target_dir pdf_path suffix.
Proof.
  intros Hmk.
  pose proof (touches_only_mkdir_from [] target_dir st
                (Pipeline.artifact target_dir pdf_path suffix)) as Ht.
  unfold mkdir_p in Hmk. rewrite Hmk in Ht. apply Ht.
  rewrite artifact_length. simpl. lia.
Qed.

(** The normalizer reported a failure: the worker prints the error and
    returns [False] at once. *)
Lemma process_ocr_failed st st0 out st1 :
  relative_to pdf_path root = Some rel ->
  mkdir_p target_dir st = (Ok tt, st0) ->
  Pipeline.ocr_to_searchable pdf_path searchable
    (logged (start_line pdf_path) st0) = (Ok (false, out), st1) ->
  process st = (Ok false, logged (ocr_error_line pdf_path out) st1).
Proof.
  intros Hrel Hmk Hocr. unfold Pipeline.process_pdf_file. rewrite Hrel.
  erewrite bind_ok by exact Hmk.
  erewrite bind_ok by reflexivity.
  erewrite bind_ok by exact Hocr.
  reflexivity.
Qed.

(** The normalizer succeeded and the extractor raised. *)
Lemma process_extract_failed st st0 out st1 e st2 :
  relative_to pdf_path root = Some rel ->
  mkdir_p target_dir st = (Ok tt, st0) ->
  Pipeline.ocr_to_searchable pdf_path searchable
    (logged (start_line pdf_path) st0) = (Ok (true, out), st1) ->
  Pipeline.extract_text_from_searchable searchable txtfile st1 = (Raise e, st2) ->
  process st = (Ok false, logged (extract_error_line pdf_path e) st2).
Proof.
  intros Hrel Hmk Hocr Hext. unfold Pipeline.process_pdf_file. rewrite Hrel.
  erewrite bind_ok by exact Hmk.
  erewrite bind_ok by reflexivity.
  erewrite bind_ok by exact Hocr.
  cbv beta iota delta [negb].
  erewrite bind_ok;
    [|erewrite try_except_raise; [reflexivity|by erewrite bind_raise]].
  reflexivity.
Qed.

(** Both required stages succeeded: both optional stages run, whatever the
    first of them does, and the worker returns [True]. *)
Lemma process_required_ok st st0 out st1 st2 :
  relative_to pdf_path root = Some rel ->
  mkdir_p target_dir st = (Ok tt, st0) ->
  Pipeline.ocr_to_searchable pdf_path searchable
    (logged (start_line pdf_path) st0) = (Ok (true, out), st1) ->
  Pipeline.extract_text_from_searchable searchable txtfile st1 = (Ok tt, st2) ->
  ∃ st3 st4,
    Pipeline.docx_stage pdf_path txtfile docxfile st2 = (Ok tt, st3)
    ∧ Pipeline.spellcheck_stage pdf_path txtfile issuesfile custom_words st3
      = (Ok tt, st4)
    ∧ process st = (Ok true, st4).
Proof.
  intros Hrel Hmk Hocr Hext.
  destruct (docx_stage_returns pdf_path txtfile docxfile st2) as [st3 Hd].
  destruct (spellcheck_stage_returns pdf_path txtfile issuesfile custom_words st3)
    as (st4 & line & Hs & _).
  exists st3, st4. split_and!; [done..|].
  unfold Pipeline.process_pdf_file. rewrite Hrel.
  erewrite bind_ok by exact Hmk.
  erewrite bind_ok by reflexivity.
  erewrite bind_ok by exact Hocr.
  cbv beta iota delta [negb].
  erewrite bind_ok;
    [|erewrite try_except_ok; [reflexivity|by erewrite bind_ok]].
  cbv beta iota delta [negb].
  erewrite bind_ok by exact Hd.
  erewrite bind_ok by exact Hs.
  reflexivity.
Qed.

(** What the normalizer leaves at the other artifact paths. *)
Lemma ocr_keeps_artifact st r st1 suffix :
  suffix ≠ py "_searchable.pdf" ->
  Pipeline.ocr_to_searchable pdf_path searchable st = (r, st1) ->
  files st1 !! Pipeline.artifact target_dir pdf_path suffix
  = files st !! Pipeline.artifact target_dir pdf_path suffix.
Proof.
  intros Hne Hocr.
  pose proof (touches_only_ocr_to_searchable (fun p => p = searchable)
                pdf_path searchable eq_refl st
                (Pipeline.artifact target_dir pdf_path suffix)) as Ht.
  rewrite Hocr in Ht. apply Ht. intros Heq. by apply artifact_inj in Heq.
Qed.

Lemma extract_keeps_artifact st r st2 suffix :
  suffix ≠ py ".txt" ->
  Pipeline.extract_text_from_searchable searchable txtfile st = (r, st2) ->
  files st2 !! Pipeline.artifact target_dir pdf_path suffix
  = files st !! Pipeline.artifact target_dir pdf_path suffix.
Proof.
  intros Hne Hext.
  pose proof (touches_only_extract (fun p => p = txtfile)
                searchable txtfile eq_refl st
                (Pipeline.artifact target_dir pdf_path suffix)) as Ht.
  rewrite Hext in Ht. apply Ht. intros Heq. by apply artifact_inj in Heq.
Qed.

Lemma spellcheck_keeps_artifact st r st4 suffix :
  suffix ≠ py "_issues.txt" ->
  Pipeline.spellcheck_stage pdf_path txtfile issuesfile custom_words st = (r, st4) ->
  files st4 !! Pipeline.artifact target_dir pdf_path suffix
  = files st !! Pipeline.artifact target_dir pdf_path suffix.
Proof.
  intros Hne Hsp.
  pose proof (touches_only_spellcheck_stage (fun p => p = issuesfile)
                pdf_path txtfile issuesfile custom_words eq_refl st
                (Pipeline.artifact target_dir pdf_path suffix)) as Ht.
  rewrite Hsp in Ht. apply Ht. intros Heq. by apply artifact_inj in Heq.
Qed.

(** C2: when the OCR normalizer fails, the worker returns [False] right after
    printing the error: the file system is as the engine left it, and the
    [.txt], [.docx] and [_issues.txt] paths of the document are as they were
    before the run. When the extractor fails (the other required stage), the
    worker returns [False] too, the [.docx] and [_issues.txt] paths are as
    before the run, and the searchable copy the normalizer wrote is still
    there, as it was written. *)
Theorem hard_failure_short_circuit (st st0 : State) :
  relative_to pdf_path root = Some rel ->
  mkdir_p target_dir st = (Ok tt, st0) ->
  (∀ out st1,
     Pipeline.ocr_to_searchable pdf_path searchable
       (logged (start_line pdf_path) st0) = (Ok (false, out), st1) ->
     ∃ st', process st = (Ok false, st')
       ∧ stdout st' = stdout st ++ [start_line pdf_path; ocr_error_line pdf_path out]
       ∧ files st' = files st1
       ∧ files st' !! txtfile = files st !! txtfile
       ∧ files st' !! docxfile = files st !! docxfile
       ∧ files st' !! issuesfile = files st !! issuesfile)
  ∧ (∀ out st1 e st2,
     Pipeline.ocr_to_searchable pdf_path searchable
       (logged (start_line pdf_path) st0) = (Ok (true, out), st1) ->
     Pipeline.extract_text_from_searchable searchable txtfile st1
       = (Raise e, st2) ->
     ∃ st', process st = (Ok false, st')
       ∧ stdout st' = stdout st ++ [start_line pdf_path; extract_error_line pdf_path e]
       ∧ files st' = files st2
       ∧ files st' !! docxfile = files st !! docxfile
       ∧ files st' !! issuesfile = files st !! issuesfile
       ∧ files st' !! searchable = files st1 !! searchable).
Proof.
  intros Hrel Hmk. split.
  - intros out st1 Hocr. eexists. split; [by eapply process_ocr_failed|].
    simpl. split_and!; [|done|..].
    + rewrite (stdout_after _ _ _ _ (silent_ocr_to_searchable _ _) Hocr). simpl.
      rewrite (stdout_after _ _ _ _ (silent_mkdir_from _ _) Hmk).
      by rewrite <-(assoc_L (++)).
    + erewrite ocr_keeps_artifact; [|suffix_ne|exact Hocr]. simpl.
      by eapply mkdir_keeps_artifact.
    + erewrite ocr_keeps_artifact; [|suffix_ne|exact Hocr]. simpl.
      by eapply mkdir_keeps_artifact.
    + erewrite ocr_keeps_artifact; [|suffix_ne|exact Hocr]. simpl.
      by eapply mkdir_keeps_artifact.
  - intros out st1 e st2 Hocr Hext. eexists.
    split; [by eapply process_extract_failed|].
    simpl. split_and!; [|done|..].
    + rewrite (stdout_after _ _ _ _ (silent_extract _ _) Hext).
      rewrite (stdout_after _ _ _ _ (silent_ocr_to_searchable _ _) Hocr). simpl.
      rewrite (stdout_after _ _ _ _ (silent_mkdir_from _ _) Hmk).
      by rewrite <-(assoc_L (++)).
    + erewrite extract_keeps_artifact; [|suffix_ne|exact Hext].
      erewrite ocr_keeps_artifact; [|suffix_ne|exact Hocr]. simpl.
      by eapply mkdir_keeps_artifact.
    + erewrite extract_keeps_artifact; [|suffix_ne|exact Hext].
      erewrite ocr_keeps_artifact; [|suffix_ne|exact Hocr]. simpl.
      by eapply mkdir_keeps_artifact.
    + erewrite extract_keeps_artifact; [done|suffix_ne|exact Hext].
Qed.

Lemma write_returns p s st :
  ∃ st', write p s st = (Ok tt, st') ∧ is_file (files st') p.
Proof.
  eexists. split; [reflexivity|]. unfold is_file. simpl.
  by repeat case_match; simplify_map_eq.
Qed.

(** Writing pages keeps the text file a file. *)
Lemma write_pages_keeps_file out_txt i pages st :
  is_file (files st) out_txt ->
  is_file (files (Pipeline.write_pages out_txt i pages st).2) out_txt.
Proof.
  revert i st. induction pages as [|page pages IH]; intros i st Hf; [done|].
  cbn [Pipeline.write_pages]. destruct page as [text|e]; [|done].
  erewrite bind_ok by reflexivity.
  destruct (write_returns out_txt (Pipeline.page_header i) st) as (sa & Ha & _).
  erewrite bind_ok by exact Ha.
  destruct text as [|c text].
  - destruct (write_returns out_txt Pipeline.NO_TEXT sa) as (sb & Hb & _).
    erewrite bind_ok by exact Hb.
    destruct (write_returns out_txt (Pipeline.NL ++ Pipeline.NL) sb)
      as (sc & Hc & Hfc).
    erewrite bind_ok by exact Hc. by apply IH.
  - destruct (write_returns out_txt (c :: text) sa) as (sb & Hb & _).
    erewrite bind_ok by exact Hb.
    destruct (write_returns out_txt (Pipeline.NL ++ Pipeline.NL) sb)
      as (sc & Hc & Hfc).
    erewrite bind_ok by exact Hc. by apply IH.
Qed.

Lemma extract_ok_is_file searchable_pdf out_txt st st2 :
  Pipeline.extract_text_from_searchable searchable_pdf out_txt st = (Ok tt, st2) ->
  is_file (files st2) out_txt.
Proof.
  unfold Pipeline.extract_text_from_searchable. intros Hext.
  apply bind_ok_inv in Hext as (bytes & sa & _ & Hext).
  apply bind_ok_inv in Hext as (doc & sb & _ & Hext).
  apply bind_ok_inv in Hext as ([] & sc & Ho & Hext).
  apply open_w_ok in Ho as [Hf _].
  pose proof (write_pages_keeps_file out_txt 1 doc sc Hf) as Hk.
  by rewrite Hext in Hk.
Qed.

(** A worker that returned [True] is counted as a success. *)
Lemma run_pool_counts_success rest successes fails st st' :
  process st = (Ok true, st') ->
  Pipeline.run_pool root out_base custom_words (pdf_path :: rest)
    successes fails st
  = Pipeline.run_pool root out_base custom_words rest (S successes) fails st'.
Proof.
  intros Hp. cbn [Pipeline.run_pool].
  erewrite bind_ok; [|by erewrite try_except_ok]. reflexivity.
Qed.

(** C6: the normalizer and the extractor succeeded and the exporter raised.
    The worker prints the [WARN] line for the export, runs the spell-check
    stage all the same, and returns [True], which the pool counts as a
    success. The [.txt] file exists, as the extractor wrote it; the [.docx]
    path is as it was before the run, so there is no [.docx] unless an older
    one was already there. *)
Theorem exporter_soft_failure (st st0 st1 st2 st3 : State) (out e : str) :
  relative_to pdf_path root = Some rel ->
  mkdir_p target_dir st = (Ok tt, st0) ->
  Pipeline.ocr_to_searchable pdf_path searchable
    (logged (start_line pdf_path) st0) = (Ok (true, out), st1) ->
  Pipeline.extract_text_from_searchable searchable txtfile st1 = (Ok tt, st2) ->
  Pipeline.write_docx_from_text txtfile docxfile st2 = (Raise e, st3) ->
  ∃ st' line,
    Pipeline.spellcheck_stage pdf_path txtfile issuesfile custom_words
      (logged (docx_warn_line pdf_path e) st2) = (Ok tt, st')
    ∧ process st = (Ok true, st')
    ∧ stdout st'
      = stdout st ++ [start_line pdf_path; docx_warn_line pdf_path e; line]
    ∧ is_file (files st') txtfile
    ∧ files st' !! txtfile = files st2 !! txtfile
    ∧ files st' !! docxfile = files st !! docxfile
    ∧ (files st !! docxfile = None -> files st' !! docxfile = None)
    ∧ (∀ rest successes fails,
         Pipeline.run_pool root out_base custom_words (pdf_path :: rest)
           successes fails st
         = Pipeline.run_pool root out_base custom_words rest
             (S successes) fails st').
Proof.
  intros Hrel Hmk Hocr Hext Hdocx.
  destruct (process_required_ok st st0 out st1 st2 Hrel Hmk Hocr Hext)
    as (st3' & st4 & Hd & Hs & Hp).
  assert (st3 = st2) as -> by by eapply write_docx_raise_unchanged.
  assert (logged (docx_warn_line pdf_path e) st2 = st3') as <-.
  { unfold Pipeline.docx_stage in Hd.
    erewrite try_except_raise in Hd by exact Hdocx.
    change (print ?l ?s) with (Ok tt, logged l s) in Hd.
    unfold docx_warn_line. congruence. }
  destruct (spellcheck_stage_returns pdf_path txtfile issuesfile custom_words
              (logged (docx_warn_line pdf_path e) st2))
    as (st4' & line & Hs' & Hout).
  assert (st4' = st4) as -> by congruence.
  assert (files st4 !! txtfile = files st2 !! txtfile) as Htxt.
  { erewrite spellcheck_keeps_artifact; [|suffix_ne|exact Hs]. done. }
  assert (files st4 !! docxfile = files st !! docxfile) as Hdx.
  { erewrite spellcheck_keeps_artifact; [|suffix_ne|exact Hs]. simpl.
    erewrite extract_keeps_artifact; [|suffix_ne|exact Hext].
    erewrite ocr_keeps_artifact; [|suffix_ne|exact Hocr]. simpl.
    by eapply mkdir_keeps_artifact. }
  exists st4, line. split_and!; try done.
  - rewrite Hout. simpl.
    rewrite (stdout_after _ _ _ _ (silent_extract _ _) Hext).
    rewrite (stdout_after _ _ _ _ (silent_ocr_to_searchable _ _) Hocr). simpl.
    rewrite (stdout_after _ _ _ _ (silent_mkdir_from _ _) Hmk).
    by rewrite <-!(assoc_L (++)).
  - apply extract_ok_is_file in Hext. unfold is_file in *. by rewrite Htxt.
  - intros Hnone. by rewrite Hdx.
  - intros rest successes fails. by apply run_pool_counts_success.
Qed.

(** The command line of the normalizer, written out. *)
Definition ocrmypdf_command (pdf searchable_pdf : Path) : list arg :=
  [ Lit (py "ocrmypdf"); Lit (py "--force-ocr"); Lit (py "--deskew");
    Lit (py "--remove-background"); Lit (py "--clean"); Lit (py "--clean-final");
    Lit (py "--rotate-pages"); Lit (py "--image-dpi"); Lit (py "400");
    Lit (py "-l"); Lit (py "eng"); PathArg pdf; PathArg searchable_pdf ].

(** C9: the normalizer runs [ocrmypdf] with [--force-ocr], [--deskew],
    [--remove-background], [--clean] (and [--clean-final]),
    [--rotate-pages], [--image-dpi 400] and [-l eng], then the input and the
    output path. When the engine completes with a return code other than 0,
    the stage result is [False] with the decoded stdout followed by the
    decoded stderr, and the worker stops there, printing the error (the first
    400 characters of the stripped output) and returning [False]. *)
Theorem ocr_normalizer_invocation (st st0 : State) (proc : CompletedProcess) :
  relative_to pdf_path root = Some rel ->
  mkdir_p target_dir st = (Ok tt, st0) ->
  (tool (ocrmypdf_command pdf_path searchable) (files st0)).1 = Returned proc ->
  returncode proc ≠ 0%Z ->
  let diagnostic := decode (proc_stdout proc) ++ decode (proc_stderr proc) in
  let st_start := logged (start_line pdf_path) st0 in
  Pipeline.ocr_to_searchable pdf_path searchable st_start
  = Pipeline.run_cmd (ocrmypdf_command pdf_path searchable) st_start
  ∧ Pipeline.ocr_to_searchable pdf_path searchable st_start
    = (Ok (false, diagnostic),
       after_tool (ocrmypdf_command pdf_path searchable) st_start)
  ∧ process st
    = (Ok false,
       logged (ocr_error_line pdf_path diagnostic)
         (after_tool (ocrmypdf_command pdf_path searchable) st_start)).
Proof.
  intros Hrel Hmk Htool Hrc diagnostic st_start.
  assert (Pipeline.ocr_to_searchable pdf_path searchable st_start
          = (Ok (false, diagnostic),
             after_tool (ocrmypdf_command pdf_path searchable) st_start)) as Hocr.
  { unfold Pipeline.ocr_to_searchable.
    erewrite bind_ok by apply run_cmd_eq.
    change ((Lit <$> Pipeline.OCRMYPDF_BASE_ARGS)
            ++ [PathArg pdf_path; PathArg searchable])
      with (ocrmypdf_command pdf_path searchable).
    change (files st_start) with (files st0). rewrite Htool.
    by rewrite bool_decide_eq_false_2. }
  split_and!; [|done|by eapply process_ocr_failed].
  rewrite Hocr, run_cmd_eq. change (files st_start) with (files st0).
  rewrite Htool. by rewrite bool_decide_eq_false_2.
Qed.

End PerDocument.

(** ** The text extractor *)

(** What a page contributes to the text file: its delimiter line, its text
    or the sentinel line, and a blank line. *)
Definition page_body (text : str) : str :=
  match text with [] => py "[NO TEXT ON PAGE]" ++ Pipeline.NL | _ => text end.
Definition page_block (i : nat) (text : str) : str :=
  Pipeline.page_header i ++ page_body text ++ Pipeline.NL ++ Pipeline.NL.

(** The pages in order, the first of them numbered [i]. *)
Fixpoint render_pages (i : nat) (texts : list str) : str :=
  match texts with
  | [] => []
  | text :: texts' => page_block i text ++ render_pages (S i) texts'
  end.

Lemma py_inj : Inj (=) (=) py.
Proof.
  assert (Inj (=) (=) (fun a => Ascii.N_of_ascii a)) as Hinj.
  { intros a b Hab.
    by rewrite <-(Ascii.ascii_N_embedding a), <-(Ascii.ascii_N_embedding b), Hab. }
  intros s1 s2 Heq. unfold py in Heq.
  apply (list_fmap_eq_inj _ Hinj) in Heq.
  rewrite <-(String.string_of_list_ascii_of_string s1),
    <-(String.string_of_list_ascii_of_string s2). by rewrite Heq.
Qed.

(** Different page numbers give different delimiter lines. *)
Lemma page_header_inj i j : Pipeline.page_header i = Pipeline.page_header j -> i = j.
Proof.
  unfold Pipeline.page_header, fmt_nat. intros Heq.
  apply app_inv_head in Heq.
  apply (f_equal (fun l => take (length l - 5) l)) in Heq.
  rewrite !length_app in Heq.
  change (length (py " ---" ++ Pipeline.NL)) with 5 in Heq.
  rewrite !Nat.add_sub, !take_app_length in Heq.
  apply py_inj in Heq. by apply (inj pretty) in Heq.
Qed.

Lemma render_pages_lookup i texts k text :
  texts !! k = Some text ->
  render_pages i texts
  = render_pages i (take k texts) ++ page_block (i + k) text
    ++ render_pages (i + S k) (drop (S k) texts).
Proof.
  revert i k. induction texts as [|t texts IH]; intros i k Hk; [done|].
  destruct k as [|k]; cbn [render_pages take drop lookup list_lookup] in *.
  - injection Hk as ->. by rewrite !Nat.add_0_r, Nat.add_1_r.
  - rewrite (IH (S i) k Hk), <-!(assoc_L (++)).
    replace (S i + k) with (i + S k) by lia.
    by replace (S i + S k) with (i + S (S k)) by lia.
Qed.

Section Extractor.
Context `{World}.

Lemma write_append p s st c :
  files st !! p = Some (File c) ->
  write p s st
  = (Ok tt, {| files := <[p := File (c ++ s)]> (files st); stdout := stdout st |}).
Proof. intros Hp. unfold write, set_files. by rewrite Hp. Qed.

Lemma write_pages_all_read out_txt i texts st c :
  files st !! out_txt = Some (File c) ->
  Pipeline.write_pages out_txt i (Returned <$> texts) st
  = (Ok tt, {| files := <[out_txt := File (c ++ render_pages i texts)]> (files st);
               stdout := stdout st |}).
Proof.
  revert i st c. induction texts as [|t texts IH]; intros i st c Hc.
  - simpl. rewrite app_nil_r, insert_id by done. by destruct st.
  - cbn [fmap list_fmap Pipeline.write_pages render_pages].
    erewrite bind_ok by reflexivity.
    erewrite bind_ok by by apply write_append.
    assert (∀ st' c', files st' !! out_txt = Some (File c') ->
      (match t with
       | _ :: _ => write out_txt t
       | [] => write out_txt Pipeline.NO_TEXT
       end) st'
      = (Ok tt, {| files := <[out_txt := File (c' ++ page_body t)]> (files st');
                   stdout := stdout st' |})) as Hbody.
    { intros st' c' Hc'. destruct t; by apply write_append. }
    erewrite bind_ok by (apply Hbody; simpl; apply lookup_insert_eq).
    erewrite bind_ok by (apply write_append; simpl; apply lookup_insert_eq).
    erewrite IH by (simpl; apply lookup_insert_eq). cbn [files stdout].
    rewrite !insert_insert_eq. unfold page_block.
    by rewrite <-!(assoc_L (++)).
Qed.

(** C7: the extractor reads the normalized copy page by page and leaves one
    text file: for every page, in order, a [--- PAGE n ---] line with [n]
    counting from 1 (so no two pages share a delimiter), then the page's text
    or, when the page has none, the line [[NO TEXT ON PAGE]], then a blank
    line. *)
Theorem extract_writes_pages (searchable_pdf out_txt : Path) (st : State)
    (bytes : str) (texts : list str) :
  files st !! searchable_pdf = Some (File bytes) ->
  fitz_open bytes = Returned (Returned <$> texts) ->
  is_dir (files st) out_txt = false ->
  is_dir (files st) (parent out_txt) = true ->
  ∃ st',
    Pipeline.extract_text_from_searchable searchable_pdf out_txt st = (Ok tt, st')
    ∧ files st' = <[out_txt := File (render_pages 1 texts)]> (files st)
    ∧ (∀ k text, texts !! k = Some text ->
         ∃ after,
           render_pages 1 texts
           = render_pages 1 (take k texts) ++ Pipeline.page_header (S k)
             ++ page_body text ++ after
           ∧ (text = [] -> page_body text = py "[NO TEXT ON PAGE]" ++ Pipeline.NL)
           ∧ (text ≠ [] -> page_body text = text))
    ∧ (∀ i j, Pipeline.page_header i = Pipeline.page_header j -> i = j).
Proof.
  intros Hbytes Hdoc Hnd Hpd. eexists. split_and!.
  - unfold Pipeline.extract_text_from_searchable.
    erewrite bind_ok by (unfold read_text; erewrite bind_ok by reflexivity;
                         simpl; rewrite Hbytes; reflexivity).
    rewrite Hdoc. erewrite bind_ok by reflexivity.
    erewrite bind_ok
      by (unfold open_w; erewrite bind_ok by reflexivity; simpl;
          rewrite Hnd, Hpd; reflexivity).
    erewrite write_pages_all_read by (simpl; apply lookup_insert_eq).
    reflexivity.
  - simpl. by rewrite insert_insert_eq.
  - intros k text Hk. eexists. split_and!.
    + rewrite (render_pages_lookup 1 texts k text Hk). unfold page_block.
      by rewrite <-!(assoc_L (++)).
    + by intros ->.
    + by destruct text.
  - apply page_header_inj.
Qed.

End Extractor.

(** ** The token classifier *)

(** A letter, among the characters the tokenizer keeps: [A-Z], [a-z] and the
    accented letters of [À-ÿ] (all of that range but the signs [×] and
    [÷]). *)
Definition is_letter (c : N) : bool :=
  Pipeline.is_ascii_letter c
  || (in_range 192 255 c && negb (c =? 215)%N && negb (c =? 247)%N).
Definition has_letter (w : str) : bool := existsb is_letter w.

(** The report line of a token taken for a formula. *)
Definition chemical_line (w : str) : str :=
  w ++ py "  (chemical-like token - review manually)" ++ Pipeline.NL.

Lemma emit_spec run w :
  w ∈ Pipeline.emit run -> w = run ∧ 2 <= length run.
Proof.
  unfold Pipeline.emit. destruct (2 <=? length run) eqn:Hlen.
  - intros ->%list_elem_of_singleton. split; [done|]. by apply Nat.leb_le.
  - by intros ?%elem_of_nil.
Qed.

Lemma findall_from_spec run text w :
  Forall (fun c => Pipeline.is_word_char c = true) run ->
  w ∈ Pipeline.findall_from run text ->
  2 <= length w ∧ Forall (fun c => Pipeline.is_word_char c = true) w.
Proof.
  revert run. induction text as [|c text IH]; intros run Hrun; simpl.
  - by intros [-> ?]%emit_spec.
  - destruct (Pipeline.is_word_char c) eqn:Hc.
    + apply IH. apply Forall_app. by split; [|constructor].
    + rewrite elem_of_app. intros [[-> ?]%emit_spec | Hw]; [done|].
      by apply (IH []).
Qed.

Lemma elem_of_candidates words w :
  w ∈ Pipeline.candidates words ↔ w ∈ words ∧ Pipeline.all_digits w = false.
Proof.
  unfold Pipeline.candidates.
  rewrite elem_of_list_to_set, list_elem_of_filter. tauto.
Qed.

Section Classifier.
Context `{World}.

Lemma for_each_write {A} (p : Path) (f : A -> str) (xs : list A) st c :
  files st !! p = Some (File c) ->
  for_each xs (fun x => write p (f x)) st
  = (Ok tt, {| files := <[p := File (c ++ concat (f <$> xs))]> (files st);
               stdout := stdout st |}).
Proof.
  revert st c. induction xs as [|x xs IH]; intros st c Hc.
  - simpl. rewrite app_nil_r, insert_id by done. by destruct st.
  - cbn [for_each fmap list_fmap concat].
    erewrite bind_ok by by apply write_append.
    erewrite IH by (simpl; apply lookup_insert_eq). cbn [files stdout].
    by rewrite insert_insert_eq, <-(assoc_L (++)).
Qed.

(** The tokens the report lists, in the order it lists them. *)
Definition reported (text : str) (custom_words : list str) : list str :=
  sorted_strs (elements
    (spell_unknown (Pipeline.build_dictionary custom_words)
       (Pipeline.candidates (Pipeline.findall_words text)))).

Lemma simple_spellcheck_report txt_path issues_out custom_words st text :
  files st !! txt_path = Some (File text) ->
  is_dir (files st) issues_out = false ->
  is_dir (files st) (parent issues_out) = true ->
  Pipeline.simple_spellcheck txt_path issues_out custom_words st
  = (Ok (length (reported text custom_words)),
     {| files := <[issues_out := File
                     (Pipeline.ISSUES_HEADER
                      ++ concat (Pipeline.issue_line
                                   (Pipeline.build_dictionary custom_words)
                                 <$> reported text custom_words))]> (files st);
        stdout := stdout st |}).
Proof.
  intros Htxt Hnd Hpd.
  assert (length (reported text custom_words)
          = size (spell_unknown (Pipeline.build_dictionary custom_words)
                    (Pipeline.candidates (Pipeline.findall_words text)))) as ->.
  { unfold reported, sorted_strs. by rewrite merge_sort_Permutation. }
  unfold Pipeline.simple_spellcheck.
  erewrite bind_ok by (unfold read_text; erewrite bind_ok by reflexivity;
                       simpl; rewrite Htxt; reflexivity).
  erewrite bind_ok
    by (unfold open_w; erewrite bind_ok by reflexivity; simpl;
        rewrite Hnd, Hpd; reflexivity).
  erewrite bind_ok by (apply write_append; simpl; apply lookup_insert_eq).
  erewrite bind_ok by (apply for_each_write; simpl; apply lookup_insert_eq).
  cbn [files stdout mret M_ret]. by rewrite !insert_insert_eq.
Qed.

End Classifier.

Section ClassifierClaims.
Context `{World}.

(** C4, amended: tokens are the runs of two or more characters among letters
    ([A-Z], [a-z], [À-ÿ]), digits, hyphen and apostrophe; tokens made of
    digits only are dropped before the dictionary is asked; the report, after
    its heading, has one line per unknown token, each token once, in the
    order of Python's string comparison; an unknown token with a digit and an
    ASCII letter ([A-Z] or [a-z]) gets the chemical-like line and no
    suggestions; any other unknown token gets the first five at most of the
    backend's suggestions. The stage returns the number of unknown tokens. *)
Theorem token_classifier_report (txt_path issues_out : Path)
    (custom_words : list str) (st : State) (text : str) :
  files st !! txt_path = Some (File text) ->
  is_dir (files st) issues_out = false ->
  is_dir (files st) (parent issues_out) = true ->
  let spell := Pipeline.build_dictionary custom_words in
  let words := Pipeline.findall_words text in
  let unknown := spell_unknown spell (Pipeline.candidates words) in
  (∀ w, w ∈ words ->
     2 <= length w ∧ Forall (fun c => Pipeline.is_word_char c = true) w)
  ∧ (∀ w, w ∈ Pipeline.candidates words ↔
          w ∈ words ∧ Pipeline.all_digits w = false)
  ∧ (∃ st',
       Pipeline.simple_spellcheck txt_path issues_out custom_words st
       = (Ok (size unknown), st')
       ∧ files st' !! issues_out
         = Some (File (Pipeline.ISSUES_HEADER
                       ++ concat (Pipeline.issue_line spell
                                  <$> reported text custom_words))))
  ∧ Sorted str_le (reported text custom_words)
  ∧ NoDup (reported text custom_words)
  ∧ (∀ w, w ∈ reported text custom_words ↔ w ∈ unknown)
  ∧ (∀ w, Pipeline.has_digit w = true -> Pipeline.has_ascii_letter w = true ->
          Pipeline.issue_line spell w = chemical_line w)
  ∧ (∀ w, Pipeline.has_digit w && Pipeline.has_ascii_letter w = false ->
          ∃ sugg,
            Pipeline.issue_line spell w
            = w ++ py " -> suggestions: " ++ join (py ", ") sugg ++ Pipeline.NL
            ∧ sugg = take 5 (spell_candidates spell w)
            ∧ length sugg <= 5).
Proof.
  intros Htxt Hnd Hpd spell words unknown. split_and!.
  - intros w Hw. by apply (findall_from_spec [] text).
  - apply elem_of_candidates.
  - eexists. split.
    + rewrite (simple_spellcheck_report _ _ _ _ _ Htxt Hnd Hpd).
      do 2 f_equal. unfold reported, sorted_strs.
      by rewrite merge_sort_Permutation.
    + cbn [files]. apply lookup_insert_eq.
  - apply sorted_strs_sorted.
  - unfold reported, sorted_strs. rewrite merge_sort_Permutation.
    apply NoDup_elements.
  - intros w. unfold reported, sorted_strs.
    by rewrite merge_sort_Permutation, elem_of_elements.
  - intros w Hd Hl. unfold Pipeline.issue_line. by rewrite Hd, Hl.
  - intros w Hw. unfold Pipeline.issue_line. rewrite Hw.
    eexists. split_and!; [done..|]. rewrite length_take. lia.
Qed.

(** C8, amended: the dictionary holds the custom words and, when loading the
    general word list succeeds, the words of that list too; a failure to load
    it is swallowed and the run goes on with the custom words alone. A word
    of the loaded list or of the custom list (such as [the], when the list
    has it) is not in the report, given a backend that only calls unknown
    what the dictionary lacks. *)
Theorem dictionary_seeding (txt_path issues_out : Path)
    (custom_words : list str) (st : State) (text : str) :
  files st !! txt_path = Some (File text) ->
  is_dir (files st) issues_out = false ->
  is_dir (files st) (parent issues_out) = true ->
  (∀ dictionary words x, x ∈ spell_unknown dictionary words -> x ∉ dictionary) ->
  (∀ w, w ∈ Pipeline.build_dictionary custom_words ↔
        w ∈ custom_words
        ∨ ∃ english, load_english = Returned english ∧ w ∈ english)
  ∧ (∀ e, load_english = Threw e ->
          Pipeline.build_dictionary custom_words = list_to_set custom_words)
  ∧ ∃ n st',
      Pipeline.simple_spellcheck txt_path issues_out custom_words st = (Ok n, st')
      ∧ files st' !! issues_out
        = Some (File (Pipeline.ISSUES_HEADER
                      ++ concat (Pipeline.issue_line
                                   (Pipeline.build_dictionary custom_words)
                                 <$> reported text custom_words)))
      ∧ ∀ w, w ∈ Pipeline.build_dictionary custom_words ->
             w ∉ reported text custom_words.
Proof.
  intros Htxt Hnd Hpd Hsound. split_and!.
  - intros w. unfold Pipeline.build_dictionary.
    destruct load_english as [english|e].
    + rewrite !elem_of_union, !elem_of_list_to_set, elem_of_empty.
      split.
      * intros [?|[?|[]]]; [by left|]. right. by exists english.
      * intros [?|(english' & [= <-] & ?)]; [by left|]. right. by left.
    + rewrite elem_of_union, elem_of_list_to_set, elem_of_empty. split.
      * intros [?|[]]. by left.
      * intros [?|(english' & [=] & _)]. by left.
  - intros e He. unfold Pipeline.build_dictionary. rewrite He.
    by rewrite (right_id_L ∅ (∪)).
  - eexists _, _. split_and!.
    + by apply simple_spellcheck_report.
    + cbn [files]. apply lookup_insert_eq.
    + intros w Hw. unfold reported, sorted_strs.
      rewrite merge_sort_Permutation, elem_of_elements. intros Hin.
      by apply Hsound in Hin.
Qed.

End ClassifierClaims.

(** ** The pool and the batch *)

Definition exception_line (p : Path) (e : str) : str :=
  py "[EXCEPTION] " ++ name p ++ py " -> " ++ e.

Section Pool.
Context `{World}.
Variables (root out_base : Path) (custom_words : list str).

(** What [fut.result()] inside its [try] comes to: always a boolean. *)
Lemma worker_result p st :
  ∃ ok st',
    try_except (Pipeline.process_pdf_file p root out_base custom_words)
      (fun e => print (py "[EXCEPTION] " ++ name p ++ py " -> " ++ e);;
                mret false) st
    = (Ok ok, st').
Proof.
  unfold try_except.
  pose proof (no_exit_process_pdf_file p root out_base custom_words st) as Hne.
  destruct (Pipeline.process_pdf_file p root out_base custom_words st)
    as [[ok|e|c] st']; simpl in Hne.
  - by eexists _, _.
  - by eexists _, _.
  - by destruct (Hne c).
Qed.

Lemma run_pool_total order successes fails st :
  ∃ successes' fails' st',
    Pipeline.run_pool root out_base custom_words order successes fails st
    = (Ok (successes', fails'), st')
    ∧ successes' + fails' = successes + fails + length order.
Proof.
  revert successes fails st.
  induction order as [|p rest IH]; intros successes fails st.
  - exists successes, fails, st. split; [done|]. simpl. lia.
  - cbn [Pipeline.run_pool].
    destruct (worker_result p st) as (ok & st1 & Hw).
    erewrite bind_ok by exact Hw. destruct ok.
    + destruct (IH (S successes) fails st1) as (s' & f' & st' & Hrun & Hsum).
      exists s', f', st'. split; [done|]. simpl. lia.
    + destruct (IH successes (S fails) st1) as (s' & f' & st' & Hrun & Hsum).
      exists s', f', st'. split; [done|]. simpl. lia.
Qed.

(** A worker that raised is counted as a failure, after the [EXCEPTION]
    line. *)
Lemma run_pool_counts_exception p rest successes fails st e st1 :
  Pipeline.process_pdf_file p root out_base custom_words st = (Raise e, st1) ->
  Pipeline.run_pool root out_base custom_words (p :: rest) successes fails st
  = Pipeline.run_pool root out_base custom_words rest successes (S fails)
      (logged (exception_line p e) st1).
Proof.
  intros Hp. cbn [Pipeline.run_pool].
  erewrite bind_ok; [|by erewrite try_except_raise]. reflexivity.
Qed.

(** C1: whatever order the futures complete in, the loop ends with
    [successes + fails] equal to the number of documents discovered: every
    document is tallied once, as a success or as a failure; a worker that
    raised an exception is tallied as a failure and the loop goes on with
    the other documents. *)
Theorem pool_counts_every_document (pdfs order : list Path) (st : State) :
  order ≡ₚ pdfs ->
  (∃ successes fails st',
     Pipeline.run_pool root out_base custom_words order 0 0 st
     = (Ok (successes, fails), st')
     ∧ successes + fails = length pdfs)
  ∧ (∀ p rest successes fails st0 e st1,
       Pipeline.process_pdf_file p root out_base custom_words st0 = (Raise e, st1) ->
       Pipeline.run_pool root out_base custom_words (p :: rest)
         successes fails st0
       = Pipeline.run_pool root out_base custom_words rest successes (S fails)
           (logged (exception_line p e) st1)).
Proof.
  intros Hperm. split.
  - destruct (run_pool_total order 0 0 st) as (s & f & st' & Hrun & Hsum).
    exists s, f, st'. split; [done|]. by rewrite <-Hperm.
  - intros p rest successes fails st0 e st1 Hp.
    by apply run_pool_counts_exception.
Qed.

End Pool.

Section Batch.
Context `{World}.

(** Once the start-up steps are through, [main] returns: the interpreter
    exits with 0, whatever happened to the documents. *)
Lemma main_completes cfg st sa sb sc custom_words :
  Pipeline.check_tools st = (Ok tt, sa) ->
  mkdir_p (Pipeline.OUTPUT_DIR cfg) sa = (Ok tt, sb) ->
  Pipeline.load_custom_words (Pipeline.CUSTOM_DICT_FILE cfg) sb
    = (Ok custom_words, sc) ->
  ∃ st', Pipeline.main cfg st = (Ok tt, st')
         ∧ exit_code (Pipeline.main cfg st).1 = 0%Z.
Proof.
  intros Hct Hmk Hcw.
  assert (∃ st', Pipeline.main cfg st = (Ok tt, st')) as [st' Hmain].
  { unfold Pipeline.main.
    erewrite bind_ok by exact Hct.
    erewrite bind_ok by exact Hmk.
    erewrite bind_ok by exact Hcw.
    erewrite bind_ok by reflexivity.
    destruct (Pipeline.discover (files sc) (Pipeline.INPUT_DIR cfg))
      as [|p pdfs]; [by eexists|].
    cbv zeta iota. erewrite bind_ok by reflexivity.
    match goal with
    | |- ∃ _, (Pipeline.run_pool ?r ?o ?cw ?ord 0 0 ≫= _) ?s = _ =>
        destruct (run_pool_total r o cw ord 0 0 s) as (sn & fn & s' & Hrun & _)
    end.
    erewrite bind_ok by exact Hrun. by eexists. }
  exists st'. by rewrite Hmain.
Qed.

(** Nothing is discovered below a root that is not a directory. *)
Lemma discover_not_a_directory fs root :
  is_dir fs root = false -> Pipeline.discover fs root = [].
Proof.
  intros Hroot. destruct (Pipeline.discover fs root) as [|p l] eqn:Hd; [done|].
  assert (p ∈ Pipeline.discover fs root) as Hp by (rewrite Hd; left).
  apply elem_of_discover in Hp as (_ & Hbelow & _).
  unfold below in Hbelow.
  destruct (relative_to p root) as [[|c rel]|]; [done| |done].
  cbn [prefixes forallb] in Hbelow. rewrite app_nil_r, Hroot in Hbelow. done.
Qed.

(** [main] has no check of the input folder: when it is not a directory
    the run still gets through start-up, reports that there is no PDF and
    returns. *)
Lemma main_ignores_missing_root cfg st sa sb sc custom_words :
  Pipeline.check_tools st = (Ok tt, sa) ->
  mkdir_p (Pipeline.OUTPUT_DIR cfg) sa = (Ok tt, sb) ->
  Pipeline.load_custom_words (Pipeline.CUSTOM_DICT_FILE cfg) sb
    = (Ok custom_words, sc) ->
  is_dir (files sc) (Pipeline.INPUT_DIR cfg) = false ->
  Pipeline.main cfg st
  = (Ok tt, logged (py "No PDFs found under "
                    ++ str_of_path (Pipeline.INPUT_DIR cfg)) sc).
Proof.
  intros Hct Hmk Hcw Hroot. unfold Pipeline.main.
  erewrite bind_ok by exact Hct.
  erewrite bind_ok by exact Hmk.
  erewrite bind_ok by exact Hcw.
  erewrite bind_ok by reflexivity.
  by rewrite (discover_not_a_directory _ _ Hroot).
Qed.

End Batch.

(** ** A sample run *)

(** A world for the examples: every tool is installed; the OCR engine exits
    with [rc], printing [out] and [err], and writes its output when [rc] is
    0; the layer reader, the document writer and the loading of the English
    list do as told; a word is unknown when it is not in the dictionary, and
    every dictionary word is suggested. *)
Definition sample_world (rc : Z) (doc : outcome (list (outcome str)))
    (docx : outcome str) (english : outcome (list str)) : World := {|
  which := fun _ => true;
  tool := fun _ _ =>
    (Returned {| returncode := rc; proc_stdout := py "out ";
                 proc_stderr := py "err" |},
     if decide (rc = 0%Z) then Some (py "%PDF-ocr") else None);
  decode := fun b => b;
  fitz_open := fun _ => doc;
  docx_document := fun _ => docx;
  load_english := english;
  spell_unknown := fun dictionary words => filter (fun w => w ∉ dictionary) words;
  spell_candidates := fun dictionary _ => sorted_strs (elements dictionary);
  completion_order := reverse
|}.

Definition two_pages : outcome (list (outcome str)) :=
  Returned [Returned (py "the H2O recieve 42 x"); Returned []].

Definition world_ok : World :=
  sample_world 0 two_pages (Returned (py "PK")) (Returned [py "the"; py "receive"]).
Definition world_ocr_fails : World :=
  sample_world 2 two_pages (Returned (py "PK")) (Returned [py "the"]).
Definition world_unreadable : World :=
  sample_world 0 (Threw (py "cannot open document")) (Returned (py "PK"))
    (Returned [py "the"]).
Definition world_no_docx : World :=
  sample_world 0 two_pages (Threw (py "PackageNotFoundError")) (Returned [py "the"]).

Definition sample_pdf : Path := [py "in"; py "a"; py "doc.pdf"].

Definition sample_state : State := {|
  files := list_to_map
    [ ([py "in"], Dir); ([py "in"; py "a"], Dir);
      (sample_pdf, File (py "%PDF")); ([py "out"], Dir) ];
  stdout := []
|}.

Lemma hard_failure_short_circuit_witness :
  (@Pipeline.process_pdf_file world_ocr_fails sample_pdf [py "in"] [py "out"] []
     sample_state).1 = Ok false
  ∧ (@Pipeline.process_pdf_file world_unreadable sample_pdf [py "in"] [py "out"] []
       sample_state).1 = Ok false.
Proof.
  pose (st0 := (mkdir_p [py "out"; py "a"] sample_state).2).
  pose (searchable := [py "out"; py "a"; py "doc_searchable.pdf"]).
  split.
  - pose (st1 := (@Pipeline.ocr_to_searchable world_ocr_fails sample_pdf
                    searchable (logged (start_line sample_pdf) st0)).2).
    destruct (@hard_failure_short_circuit world_ocr_fails sample_pdf [py "in"]
                [py "out"] [py "a"; py "doc.pdf"] [] sample_state st0
                eq_refl ltac:(vm_compute; reflexivity)) as [Hocr _].
    destruct (Hocr (py "out err") st1 ltac:(vm_compute; reflexivity))
      as (st' & Hp & _).
    exact (f_equal fst Hp).
  - pose (st1 := (@Pipeline.ocr_to_searchable world_unreadable sample_pdf
                    searchable (logged (start_line sample_pdf) st0)).2).
    destruct (@hard_failure_short_circuit world_unreadable sample_pdf [py "in"]
                [py "out"] [py "a"; py "doc.pdf"] [] sample_state st0
                eq_refl ltac:(vm_compute; reflexivity)) as [_ Hext].
    destruct (Hext (py "out err") st1 (py "cannot open document") st1
                ltac:(vm_compute; reflexivity) ltac:(vm_compute; reflexivity))
      as (st' & Hp & _).
    exact (f_equal fst Hp).
Defined.

Lemma exporter_soft_failure_witness :
  ∃ st', @Pipeline.process_pdf_file world_no_docx sample_pdf [py "in"] [py "out"]
           [] sample_state = (Ok true, st')
         ∧ is_file (files st') [py "out"; py "a"; py "doc.txt"]
         ∧ files st' !! [py "out"; py "a"; py "doc.docx"] = None.
Proof.
  pose (st0 := (mkdir_p [py "out"; py "a"] sample_state).2).
  pose (st1 := (@Pipeline.ocr_to_searchable world_no_docx sample_pdf
                 [py "out"; py "a"; py "doc_searchable.pdf"]
                 (logged (start_line sample_pdf) st0)).2).
  pose (st2 := (@Pipeline.extract_text_from_searchable world_no_docx
                 [py "out"; py "a"; py "doc_searchable.pdf"]
                 [py "out"; py "a"; py "doc.txt"] st1).2).
  destruct (@exporter_soft_failure world_no_docx sample_pdf [py "in"]
              [py "out"] [py "a"; py "doc.pdf"] [] sample_state
              st0 st1 st2 st2 (py "out err") (py "PackageNotFoundError")
              eq_refl
              ltac:(vm_compute; reflexivity)
              ltac:(vm_compute; reflexivity)
              ltac:(vm_compute; reflexivity)
              ltac:(vm_compute; reflexivity))
    as (st' & line & _ & Hp & _ & Hf & _ & _ & Hnone & _).
  exists st'. split; [exact Hp|]. split; [exact Hf|].
  apply Hnone. vm_compute. reflexivity.
Defined.

Lemma ocr_normalizer_invocation_witness :
  (@Pipeline.ocr_to_searchable world_ocr_fails sample_pdf
     [py "out"; py "a"; py "doc_searchable.pdf"]
     (logged (start_line sample_pdf) (mkdir_p [py "out"; py "a"] sample_state).2)).1
  = Ok (false, py "out err").
Proof.
  destruct (@ocr_normalizer_invocation world_ocr_fails sample_pdf [py "in"]
              [py "out"] [py "a"; py "doc.pdf"] [] sample_state
              (mkdir_p [py "out"; py "a"] sample_state).2
              {| returncode := 2; proc_stdout := py "out ";
                 proc_stderr := py "err" |}
              eq_refl ltac:(vm_compute; reflexivity) eq_refl ltac:(done))
    as (_ & Hocr & _).
  etrans; [exact (f_equal fst Hocr)|]. vm_compute. reflexivity.
Defined.

Lemma extract_writes_pages_witness :
  ∃ st',
    @Pipeline.extract_text_from_searchable world_ok [py "in"; py "a"; py "doc.pdf"]
      [py "in"; py "a"; py "doc.txt"] sample_state = (Ok tt, st')
    ∧ files st' !! [py "in"; py "a"; py "doc.txt"]
      = Some (File (Pipeline.page_header 1 ++ py "the H2O recieve 42 x"
                    ++ Pipeline.NL ++ Pipeline.NL
                    ++ Pipeline.page_header 2 ++ py "[NO TEXT ON PAGE]"
                    ++ Pipeline.NL ++ Pipeline.NL ++ Pipeline.NL)).
Proof.
  destruct (@extract_writes_pages world_ok [py "in"; py "a"; py "doc.pdf"]
              [py "in"; py "a"; py "doc.txt"] sample_state (py "%PDF")
              [py "the H2O recieve 42 x"; []]
              ltac:(vm_compute; reflexivity) eq_refl
              ltac:(vm_compute; reflexivity) ltac:(vm_compute; reflexivity))
    as (st' & Hrun & Hfiles & _).
  exists st'. split; [exact Hrun|]. rewrite Hfiles, lookup_insert_eq.
  vm_compute. reflexivity.
Defined.

(** A text file to check: a known word, a formula, a misspelling, a number, a
    single letter and an accented token with a digit. *)
Definition sample_text : str :=
  py "the H2O recieve 42 x " ++ [233; 50]%N.

Definition spell_state : State := {|
  files := list_to_map
    [ ([py "out"], Dir); ([py "out"; py "doc.txt"], File sample_text) ];
  stdout := []
|}.

Example sample_tokens :
  Pipeline.findall_words (sample_text ++ py " a-b -- it's")
  = [py "the"; py "H2O"; py "recieve"; py "42"; [233; 50]%N; py "a-b";
     py "--"; py "it's"].
Proof. vm_compute. reflexivity. Qed.

Example sample_reported :
  @reported world_ok sample_text []
  = [py "H2O"; py "recieve"; [233; 50]%N].
Proof. vm_compute. reflexivity. Qed.

(** C4, as stated, fails: [é2] is an unknown token with a digit and a letter,
    and its line is a suggestions line, not the chemical-like one. *)
Lemma chemical_label_misses_accented :
  ¬ (∀ w, w ∈ @reported world_ok sample_text [] ->
          Pipeline.has_digit w = true -> has_letter w = true ->
          @Pipeline.issue_line world_ok (@Pipeline.build_dictionary world_ok []) w
          = chemical_line w).
Proof.
  intros Hall. specialize (Hall [233; 50]%N).
  rewrite sample_reported in Hall.
  assert ([233; 50]%N ∈ [py "H2O"; py "recieve"; [233; 50]%N]) as Hin
    by (do 2 right; left).
  specialize (Hall Hin eq_refl eq_refl).
  vm_compute in Hall. discriminate Hall.
Qed.

Lemma token_classifier_report_witness :
  (@Pipeline.simple_spellcheck world_ok [py "out"; py "doc.txt"]
     [py "out"; py "doc_issues.txt"] [] spell_state).1 = Ok 3.
Proof.
  destruct (@token_classifier_report world_ok [py "out"; py "doc.txt"]
              [py "out"; py "doc_issues.txt"] [] spell_state sample_text
              ltac:(vm_compute; reflexivity) ltac:(vm_compute; reflexivity)
              ltac:(vm_compute; reflexivity))
    as (_ & _ & (st' & Hrun & _) & _).
  rewrite Hrun. vm_compute. reflexivity.
Defined.

(** Two documents; the output directory of the first is taken by a file. *)
Definition pool_state : State := {|
  files := list_to_map
    [ ([py "in"], Dir); ([py "in"; py "a"], Dir);
      (sample_pdf, File (py "%PDF")); ([py "in"; py "b.pdf"], File (py "%PDF"));
      ([py "out"], Dir); ([py "out"; py "a"], File (py "in the way")) ];
  stdout := []
|}.

Example pool_one_of_each :
  (@Pipeline.run_pool world_ok [py "in"] [py "out"] []
     [[py "in"; py "b.pdf"]; sample_pdf] 0 0 pool_state).1 = Ok (1, 1).
Proof. vm_compute. reflexivity. Qed.

Example pool_worker_raised :
  (@Pipeline.process_pdf_file world_ok sample_pdf [py "in"] [py "out"] []
     pool_state).1 = Raise (py "FileExistsError: /out/a").
Proof. vm_compute. reflexivity. Qed.

Lemma pool_counts_every_document_witness :
  (∃ successes fails,
     (@Pipeline.run_pool world_ok [py "in"] [py "out"] []
        [[py "in"; py "b.pdf"]; sample_pdf] 0 0 pool_state).1
     = Ok (successes, fails)
     ∧ successes + fails = 2)
  ∧ (@Pipeline.run_pool world_ok [py "in"] [py "out"] [] [sample_pdf] 0 0
       pool_state).1 = Ok (0, 1).
Proof.
  destruct (@pool_counts_every_document world_ok [py "in"] [py "out"] []
              [sample_pdf; [py "in"; py "b.pdf"]]
              [[py "in"; py "b.pdf"]; sample_pdf] pool_state
              (perm_swap _ _ []))
    as [(successes & fails & st' & Hrun & Hsum) Hraise].
  split.
  - exists successes, fails. split; [exact (f_equal fst Hrun)|exact Hsum].
  - pose (st1 := (@Pipeline.process_pdf_file world_ok sample_pdf [py "in"]
                    [py "out"] [] pool_state).2).
    rewrite (Hraise sample_pdf [] 0 0 pool_state (py "FileExistsError: /out/a")
               st1 ltac:(vm_compute; reflexivity)).
    reflexivity.
Defined.

(** The configuration of a run whose input folder does not exist. *)
Definition cfg_missing : Pipeline.Config := {|
  Pipeline.INPUT_DIR := [py "missing"];
  Pipeline.OUTPUT_DIR := [py "out"];
  Pipeline.WORKERS := 2;
  Pipeline.CUSTOM_DICT_FILE := [py "custom_words.txt"]
|}.
Definition ocr_cfg_missing : Ocr.Config := {|
  Ocr.INPUT_DIR := [py "missing"];
  Ocr.OUTPUT_DIR := [py "out"];
  Ocr.WORKERS := 3
|}.
Definition empty_disk : State := {| files := ∅; stdout := [] |}.

(** C3 does not hold of [high_accuracy_ocr_pipeline.py]: with every tool
    installed and an input folder that does not exist, [main] does not stop
    with an error; it creates the output folder, finds no document, prints
    [No PDFs found under /missing] and returns, so the process exits with 0.
    [ocr.py] checks [root.exists()] first and exits with 1. *)
Theorem missing_input_root_exits_zero :
  (@Pipeline.main world_ok cfg_missing empty_disk).1 = Ok tt
  ∧ exit_code (@Pipeline.main world_ok cfg_missing empty_disk).1 = 0%Z
  ∧ stdout (@Pipeline.main world_ok cfg_missing empty_disk).2
    = [py "No PDFs found under /missing"]
  ∧ is_dir (files (@Pipeline.main world_ok cfg_missing empty_disk).2) [py "out"]
    = true
  ∧ (@Ocr.main world_ok ocr_cfg_missing empty_disk).1 = Exit 1
  ∧ exit_code (@Ocr.main world_ok ocr_cfg_missing empty_disk).1 = 1%Z.
Proof. vm_compute. by split_and!. Qed.

(** [ocr.py] runs the engine with two options only. *)
Example ocr_py_command :
  Ocr.ocr_command sample_pdf [py "out"; py "a"; py "doc_searchable.pdf"]
  = [Lit (py "ocrmypdf"); Lit (py "--deskew"); Lit (py "--force-ocr");
     PathArg sample_pdf; PathArg [py "out"; py "a"; py "doc_searchable.pdf"]].
Proof. reflexivity. Qed.

(** A world where loading the English list raises, as it does when the
    word-frequency object has no [filename]. *)
Definition world_no_english : World :=
  sample_world 0 two_pages (Returned (py "PK"))
    (Threw (py "AttributeError: 'WordFrequency' object has no attribute 'filename'")).

Definition the_cat_state : State := {|
  files := list_to_map
    [ ([py "out"], Dir); ([py "out"; py "doc.txt"], File (py "the cat")) ];
  stdout := []
|}.

(** C8, as stated, fails when loading the English list raises: the exception
    is swallowed, the dictionary is left with the custom words, here none,
    and on the text [the cat] the report lists [the] as unknown. *)
Lemma english_list_not_loaded :
  @Pipeline.build_dictionary world_no_english [] = ∅
  ∧ py "the" ∈ @reported world_no_english (py "the cat") []
  ∧ (@Pipeline.simple_spellcheck world_no_english [py "out"; py "doc.txt"]
       [py "out"; py "doc_issues.txt"] [] the_cat_state).1 = Ok 2
  ∧ files (@Pipeline.simple_spellcheck world_no_english [py "out"; py "doc.txt"]
             [py "out"; py "doc_issues.txt"] [] the_cat_state).2
      !! [py "out"; py "doc_issues.txt"]
    = Some (File (Pipeline.ISSUES_HEADER
                  ++ py "cat -> suggestions: " ++ Pipeline.NL
                  ++ py "the -> suggestions: " ++ Pipeline.NL)).
Proof.
  split_and!; [by vm_compute| |by vm_compute..].
  assert (@reported world_no_english (py "the cat") [] = [py "cat"; py "the"])
    as -> by (vm_compute; reflexivity).
  right. left.
Qed.

Lemma sample_backend_sound rc doc docx english dictionary words x :
  x ∈ @spell_unknown (sample_world rc doc docx english) dictionary words ->
  x ∉ dictionary.
Proof. simpl. by intros [? _]%elem_of_filter. Qed.

Lemma dictionary_seeding_witness :
  py "the" ∈ @Pipeline.build_dictionary world_ok []
  ∧ py "the" ∉ @reported world_ok (py "the cat") [].
Proof.
  destruct (@dictionary_seeding world_ok [py "out"; py "doc.txt"]
              [py "out"; py "doc_issues.txt"] [] the_cat_state (py "the cat")
              ltac:(vm_compute; reflexivity) ltac:(vm_compute; reflexivity)
              ltac:(vm_compute; reflexivity)
              (sample_backend_sound _ _ _ _))
    as (Hdict & _ & n & st' & _ & _ & Hknown).
  assert (py "the" ∈ @Pipeline.build_dictionary world_ok []) as Hthe.
  { apply Hdict. right. exists [py "the"; py "receive"].
    split; [reflexivity|]. left. }
  split; [exact Hthe|]. by apply Hknown.
Defined.

(** With the list loaded, [the] is known and stays out of the report. *)
Example english_list_loaded :
  @reported world_ok (py "the cat") [] = [py "cat"].
Proof. vm_compute. reflexivity. Qed.

(** The whole batch on the sample disk: one document, all four stages. *)
Definition sample_cfg : Pipeline.Config := {|
  Pipeline.INPUT_DIR := [py "in"];
  Pipeline.OUTPUT_DIR := [py "out"];
  Pipeline.WORKERS := 2;
  Pipeline.CUSTOM_DICT_FILE := [py "custom_words.txt"]
|}.

Example main_sample_run :
  (@Pipeline.main world_ok sample_cfg sample_state).1 = Ok tt
  ∧ stdout (@Pipeline.main world_ok sample_cfg sample_state).2
    = [ py "Found 1 PDFs. Processing with 2 worker(s).";
        py "[START] doc.pdf";
        py "[OK] doc.pdf -> text saved (doc.txt), issues: 7";
        Pipeline.NL ++ py "Done.";
        py "Success: 1 Failed: 0";
        py "Outputs in: /out" ]
  ∧ dom (files (@Pipeline.main world_ok sample_cfg sample_state).2)
    = dom (files sample_state)
      ∪ {[ [py "out"; py "a"];
           [py "out"; py "a"; py "doc_searchable.pdf"];
           [py "out"; py "a"; py "doc.txt"];
           [py "out"; py "a"; py "doc.docx"];
           [py "out"; py "a"; py "doc_issues.txt"] ]}.
Proof.
  split_and!; [by vm_compute..|].
  apply set_eq. intros p. vm_compute. tauto.
Qed.

(** * Further properties of the scripts *)

(** ** Where a worker writes *)

Lemma relative_to_app (root rel : Path) : relative_to (root ++ rel) root = Some rel.
Proof.
  induction root as [|r root IH]; [by destruct rel|].
  cbn [app relative_to]. by rewrite decide_True by done.
Qed.

Lemma relative_to_Some (p root rel : Path) :
  relative_to p root = Some rel -> p = root ++ rel.
Proof.
  revert p. induction root as [|r root IH]; intros p; simpl.
  - destruct p; intros Hp; by injection Hp as <-.
  - destruct p as [|c p]; simpl; [done|]. case_decide; [|done].
    intros Hrel. subst. f_equal. by apply IH.
Qed.

Lemma parent_app_ne (root rel : Path) :
  rel ≠ [] -> parent (root ++ rel) = root ++ parent rel.
Proof. intros Hne. unfold parent. by apply removelast_app. Qed.

(** X1. A document found by discovery lies below the root: [relative_to] does
    not raise on it, the relative path has the file name at least, and
    [ocr.py], which takes the parent first, mirrors into the same folder. *)
Theorem discovered_below_root (fs : FS) (root p : Path) :
  p ∈ Pipeline.discover fs root ->
  ∃ rel, relative_to p root = Some rel
         ∧ rel ≠ []
         ∧ p = root ++ rel
         ∧ relative_to (parent p) root = Some (parent rel).
Proof.
  intros Hp. apply elem_of_discover in Hp as (_ & Hbelow & _).
  unfold below in Hbelow.
  destruct (relative_to p root) as [[|c rel]|] eqn:Hrel; [done| |done].
  exists (c :: rel). split_and!; [done..|by apply relative_to_Some|].
  apply relative_to_Some in Hrel as ->.
  rewrite parent_app_ne by done. apply relative_to_app.
Qed.

Lemma discovered_below_root_witness :
  relative_to [py "in"; py "a-b"; py "x.pdf"] [py "in"]
  = Some [py "a-b"; py "x.pdf"].
Proof.
  destruct (discovered_below_root fs_siblings [py "in"]
              [py "in"; py "a-b"; py "x.pdf"]) as (rel & Hrel & _ & Heq & _).
  - rewrite discover_siblings. right. left.
  - rewrite Hrel. f_equal. by apply (app_inv_head [py "in"]).
Defined.

(** [mkdir] writes at the folders on the way down to its target only. *)
Lemma touches_only_mkdir_prefix done rest :
  touches_only (fun p => ∃ r1 r2, rest = r1 ++ r2 ∧ r1 ≠ [] ∧ p = done ++ r1)
    (mkdir_from done rest).
Proof.
  revert done. induction rest as [|c rest IH]; intros done; simpl; inv_auto;
    try (apply touches_only_insert; by exists [c], rest);
    (eapply touches_only_mono, IH; intros p (r1 & r2 & -> & Hne & ->);
     exists (c :: r1), r2; by rewrite <-(assoc_L (++))).
Qed.

(** The paths a worker may write at: the folders down to the mirrored output
    folder and the four artifacts of the document. *)
Definition worker_paths (pdf_path out_base rel : Path) (p : Path) : Prop :=
  (p ≠ [] ∧ p `prefix_of` out_base ++ parent rel)
  ∨ ∃ suffix, suffix ∈ [py "_searchable.pdf"; py ".txt"; py ".docx";
                        py "_issues.txt"]
              ∧ p = Pipeline.artifact (out_base ++ parent rel) pdf_path suffix.

Section WorkerFootprint.
Context `{World}.

(** X2. A worker leaves every other path of the file system as it was, the
    input documents among them, however it ends. *)
Theorem worker_writes_only_its_artifacts (pdf_path root out_base rel : Path)
    (custom_words : list str) (st : State) (p : Path) :
  relative_to pdf_path root = Some rel ->
  ¬ worker_paths pdf_path out_base rel p ->
  files (Pipeline.process_pdf_file pdf_path root out_base custom_words st).2 !! p
  = files st !! p.
Proof.
  intros Hrel Hp. revert st p Hp.
  change (touches_only (worker_paths pdf_path out_base rel)
            (Pipeline.process_pdf_file pdf_path root out_base custom_words)).
  assert (∀ suffix,
    suffix ∈ [py "_searchable.pdf"; py ".txt"; py ".docx"; py "_issues.txt"] ->
    worker_paths pdf_path out_base rel
      (Pipeline.artifact (out_base ++ parent rel) pdf_path suffix)) as Hart.
  { intros suffix Hs. right. by exists suffix. }
  unfold Pipeline.process_pdf_file. rewrite Hrel. inv_auto.
  - eapply touches_only_mono, touches_only_mkdir_prefix.
    intros q (r1 & r2 & Heq & Hne & ->). left. split.
    + by destruct r1.
    + exists r2. by rewrite Heq.
  - apply touches_only_ocr_to_searchable, Hart. left.
  - apply touches_only_extract, Hart. right. left.
  - apply touches_only_docx_stage, Hart. do 2 right. left.
  - apply touches_only_spellcheck_stage, Hart. do 3 right. left.
Qed.

End WorkerFootprint.

Lemma worker_writes_only_its_artifacts_witness :
  files (@Pipeline.process_pdf_file world_ok sample_pdf [py "in"] [py "out"] []
           sample_state).2 !! sample_pdf
  = Some (File (py "%PDF")).
Proof.
  rewrite (@worker_writes_only_its_artifacts world_ok sample_pdf [py "in"]
             [py "out"] [py "a"; py "doc.pdf"] [] sample_state sample_pdf eq_refl).
  - vm_compute. reflexivity.
  - intros [[_ Hpre] | (suffix & Hs & Heq)].
    + apply prefix_length in Hpre. vm_compute in Hpre. lia.
    + repeat (apply elem_of_cons in Hs as [-> | Hs]);
        [vm_compute in Heq; discriminate Heq..|by apply elem_of_nil in Hs].
Defined.

(** ** Creating the output folder *)

Section Mkdir.

Lemma mkdir_from_present top rest st :
  (∀ r1 r2, rest = r1 ++ r2 -> r1 ≠ [] -> files st !! (top ++ r1) = Some Dir) ->
  mkdir_from top rest st = (Ok tt, st).
Proof.
  revert top. induction rest as [|c rest IH]; intros top Hdirs; [done|].
  cbn [mkdir_from]. erewrite bind_ok by reflexivity.
  rewrite (Hdirs [c] rest) by done.
  erewrite bind_ok.
  - apply IH. intros r1 r2 -> Hne. rewrite <-(assoc_L (++)).
    by apply (Hdirs (c :: r1) r2).
  - unfold set_files. rewrite insert_id by by apply (Hdirs [c] rest).
    by destruct st.
Qed.

Lemma mkdir_from_ok top rest st st' :
  mkdir_from top rest st = (Ok tt, st') ->
  (∀ r1 r2, rest = r1 ++ r2 -> r1 ≠ [] -> files st' !! (top ++ r1) = Some Dir)
  ∧ (∀ q n, files st !! q = Some n -> files st' !! q = Some n)
  ∧ stdout st' = stdout st.
Proof.
  revert top st. induction rest as [|c rest IH]; intros top st.
  - intros [= <-]. split_and!; [|done..]. intros [|] ? ? ?; simplify_list_eq.
  - cbn [mkdir_from]. intros Hmk.
    apply bind_ok_inv in Hmk as (fs & sa & [= <- <-] & Hmk).
    destruct (files st !! (top ++ [c])) as [[content|]|] eqn:Hq; [done|..].
    + apply bind_ok_inv in Hmk as ([] & sb & [= <-] & Hmk).
      apply IH in Hmk as (Hdirs & Hkeep & Hout). simpl in *.
      rewrite insert_id in Hkeep by done. split_and!; [|done..].
      intros [|x r1] r2 Heq Hne; [done|]. injection Heq as -> ->.
      destruct r1 as [|y r1].
      * by apply Hkeep.
      * replace (top ++ x :: y :: r1) with ((top ++ [x]) ++ y :: r1)
          by by rewrite <-(assoc_L (++)).
        by eapply Hdirs.
    + apply bind_ok_inv in Hmk as ([] & sb & [= <-] & Hmk).
      apply IH in Hmk as (Hdirs & Hkeep & Hout). simpl in *.
      split_and!; [| |done].
      * intros [|x r1] r2 Heq Hne; [done|]. injection Heq as -> ->.
        destruct r1 as [|y r1].
        -- apply Hkeep. by rewrite lookup_insert_eq.
        -- replace (top ++ x :: y :: r1) with ((top ++ [x]) ++ y :: r1)
          by by rewrite <-(assoc_L (++)).
        by eapply Hdirs.
      * intros q n Hqn. apply Hkeep. rewrite lookup_insert_ne; [done|].
        intros <-. congruence.
Qed.

Lemma mkdir_from_blocked top rest st r1 r2 content :
  rest = r1 ++ r2 -> r1 ≠ [] ->
  files st !! (top ++ r1) = Some (File content) ->
  ∃ e st', mkdir_from top rest st = (Raise e, st').
Proof.
  revert top st r1. induction rest as [|c rest IH]; intros top st r1.
  - intros Heq Hne. by destruct r1.
  - intros Heq Hne Hfile. destruct r1 as [|x r1]; [done|].
    injection Heq as -> ->. cbn [mkdir_from].
    erewrite bind_ok by reflexivity.
    destruct r1 as [|y r1].
    + rewrite Hfile. by eexists _, _.
    + destruct (files st !! (top ++ [x])) as [[c'|]|] eqn:Hq.
      * by eexists _, _.
      * erewrite bind_ok by reflexivity.
        eapply (IH _ _ (y :: r1)); [done..|]. simpl.
        rewrite insert_id by done. by rewrite <-(assoc_L (++)).
      * erewrite bind_ok by reflexivity.
        eapply (IH _ _ (y :: r1)); [done..|]. simpl.
        rewrite lookup_insert_ne.
        -- by rewrite <-(assoc_L (++)).
        -- intros Heq. apply (f_equal length) in Heq.
           rewrite !length_app in Heq. simpl in Heq. lia.
Qed.

(** X3. [mkdir(parents=True, exist_ok=True)] that succeeded has left a folder at
    the target and at every folder above it, has kept every entry that was
    there, and succeeds again without changing anything (so a second worker,
    or a second run, for the same folder is harmless). *)
Theorem mkdir_p_idempotent (p : Path) (st st' : State) :
  mkdir_p p st = (Ok tt, st') ->
  is_dir (files st') p = true
  ∧ (∀ q, q `prefix_of` p -> is_dir (files st') q = true)
  ∧ (∀ q n, files st !! q = Some n -> files st' !! q = Some n)
  ∧ mkdir_p p st' = (Ok tt, st').
Proof.
  unfold mkdir_p. intros Hmk.
  apply mkdir_from_ok in Hmk as (Hdirs & Hkeep & _).
  assert (∀ q, q `prefix_of` p -> is_dir (files st') q = true) as Hpre.
  { intros q [r2 ->]. destruct q as [|x q]; [done|].
    unfold is_dir. apply bool_decide_eq_true. by apply (Hdirs (x :: q) r2). }
  split_and!; [by apply Hpre|done|done|].
  apply mkdir_from_present. intros r1 r2 -> Hne. by eapply Hdirs.
Qed.

(** X4. A file in the way, at the target or above it, makes [mkdir] raise. *)
Theorem mkdir_p_blocked_by_file (p q : Path) (st : State) (content : str) :
  q ≠ [] ->
  q `prefix_of` p ->
  files st !! q = Some (File content) ->
  ∃ e st', mkdir_p p st = (Raise e, st').
Proof.
  intros Hne [r2 ->] Hfile. unfold mkdir_p.
  by eapply (mkdir_from_blocked [] _ st q r2).
Qed.

End Mkdir.

Lemma mkdir_p_idempotent_witness :
  is_dir (files (mkdir_p [py "out"; py "a"] sample_state).2) [py "out"; py "a"]
  = true.
Proof.
  destruct (mkdir_p_idempotent [py "out"; py "a"] sample_state
              (mkdir_p [py "out"; py "a"] sample_state).2
              ltac:(vm_compute; reflexivity)) as [Hdir _].
  exact Hdir.
Defined.

Lemma mkdir_p_blocked_by_file_witness :
  ∃ e st', mkdir_p [py "out"; py "a"; py "b"] pool_state = (Raise e, st').
Proof.
  apply (mkdir_p_blocked_by_file [py "out"; py "a"; py "b"] [py "out"; py "a"]
           pool_state (py "in the way")).
  - done.
  - by exists [py "b"].
  - vm_compute. reflexivity.
Defined.

(** ** Start-up *)

Lemma bind_exit {A B} (m : M A) (f : A -> M B) st c st' :
  m st = (Exit c, st') -> (m ≫= f) st = (Exit c, st').
Proof. intros Hm. unfold mbind, M_bind. by rewrite Hm. Qed.

Section Startup.
Context `{World}.

(** The first command of a list that is not installed. *)
Definition first_missing (cmds : list str) : option str :=
  head (filter (fun cmd => which cmd = false) cmds).

Lemma check_loop_first_missing (message : str -> str) (cmds : list str) st :
  for_each cmds (fun cmd =>
    if which cmd then mret tt else print (message cmd);; sys_exit 1) st
  = match first_missing cmds with
    | None => (Ok tt, st)
    | Some cmd => (Exit 1, logged (message cmd) st)
    end.
Proof.
  unfold first_missing. induction cmds as [|cmd cmds IH]; [done|].
  cbn [for_each]. rewrite filter_cons.
  destruct (which cmd) eqn:Hw.
  - rewrite decide_False by done. by erewrite bind_ok by reflexivity.
  - rewrite decide_True by done. simpl.
    erewrite bind_exit; [done|]. by erewrite bind_ok by reflexivity.
Qed.

(** X5. [check_tools] stops at the first of [ocrmypdf], [pdftotext], [tesseract]
    that is not on the path: it prints the error for that one and exits with
    1. Since [main] starts with it, a run with a tool missing ends there,
    with nothing created and no document looked at. With all three present
    it does nothing. *)
Theorem pipeline_stops_at_missing_tool (cfg : Pipeline.Config) (st : State) :
  match first_missing [py "ocrmypdf"; py "pdftotext"; py "tesseract"] with
  | None => Pipeline.check_tools st = (Ok tt, st)
  | Some cmd =>
      which cmd = false
      ∧ Pipeline.main cfg st
        = (Exit 1,
           logged (py "ERROR: required command not found in PATH: " ++ cmd) st)
      ∧ exit_code (Pipeline.main cfg st).1 = 1%Z
  end.
Proof.
  pose proof (check_loop_first_missing
                (fun cmd => py "ERROR: required command not found in PATH: " ++ cmd)
                [py "ocrmypdf"; py "pdftotext"; py "tesseract"] st) as Hct.
  fold Pipeline.check_tools in Hct.
  destruct (first_missing _) as [cmd|] eqn:Hfm; [|done].
  assert (Pipeline.main cfg st
          = (Exit 1, logged (py "ERROR: required command not found in PATH: "
                             ++ cmd) st)) as Hmain.
  { unfold Pipeline.main. by erewrite bind_exit by exact Hct. }
  split_and!; [|done|by rewrite Hmain].
  unfold first_missing in Hfm. apply head_Some_elem_of in Hfm.
  by apply list_elem_of_filter in Hfm as [? _].
Qed.

(** X6. [ocr.py] looks at the input folder first: when nothing is there, it
    prints so and exits with 1, and nothing has been created. *)
Theorem ocr_main_missing_root (cfg : Ocr.Config) (st : State) :
  exists_ (files st) (Ocr.INPUT_DIR cfg) = false ->
  Ocr.main cfg st
  = (Exit 1, logged (py "Input folder does not exist: "
                     ++ str_of_path (Ocr.INPUT_DIR cfg)) st)
  ∧ exit_code (Ocr.main cfg st).1 = 1%Z.
Proof.
  intros Hroot.
  assert (Ocr.main cfg st
          = (Exit 1, logged (py "Input folder does not exist: "
                             ++ str_of_path (Ocr.INPUT_DIR cfg)) st)) as Hmain.
  { unfold Ocr.main. erewrite bind_ok by reflexivity.
    cbn [files]. rewrite Hroot. cbn [negb].
    erewrite bind_exit; [done|]. by erewrite bind_ok by reflexivity. }
  split; [done|]. by rewrite Hmain.
Qed.

(** X7. [ocr.py] creates the output folder before it looks for its tools: with
    the input folder there and a tool missing it exits with 1 all the same,
    and the output folder has been made. *)
Theorem ocr_main_missing_tool (cfg : Ocr.Config) (st st1 : State) (cmd : str) :
  exists_ (files st) (Ocr.INPUT_DIR cfg) = true ->
  mkdir_p (Ocr.OUTPUT_DIR cfg) st = (Ok tt, st1) ->
  first_missing [py "ocrmypdf"; py "pdftotext"] = Some cmd ->
  Ocr.main cfg st
  = (Exit 1, logged (py "ERROR: " ++ cmd
                     ++ py " not found. Install it before running.") st1)
  ∧ is_dir (files (Ocr.main cfg st).2) (Ocr.OUTPUT_DIR cfg) = true.
Proof.
  intros Hroot Hmk Hfm.
  pose proof (check_loop_first_missing
                (fun cmd => py "ERROR: " ++ cmd
                            ++ py " not found. Install it before running.")
                [py "ocrmypdf"; py "pdftotext"] st1) as Hct.
  fold Ocr.check_tools in Hct. rewrite Hfm in Hct.
  assert (Ocr.main cfg st
          = (Exit 1, logged (py "ERROR: " ++ cmd
               ++ py " not found. Install it before running.") st1)) as Hmain.
  { unfold Ocr.main. erewrite bind_ok by reflexivity.
    cbn [files]. rewrite Hroot. cbn [negb].
    erewrite bind_ok by reflexivity.
    erewrite bind_ok by exact Hmk.
    by erewrite bind_exit by exact Hct. }
  split; [done|]. rewrite Hmain. cbn [snd logged files].
  by apply mkdir_p_idempotent in Hmk as [? _].
Qed.

End Startup.

(** The sample world with one command taken off the path. *)
Definition world_without (missing : str) : World := {|
  which := fun cmd => bool_decide (cmd ≠ missing);
  tool := @tool world_ok;
  decode := @decode world_ok;
  fitz_open := @fitz_open world_ok;
  docx_document := @docx_document world_ok;
  load_english := @load_english world_ok;
  spell_unknown := @spell_unknown world_ok;
  spell_candidates := @spell_candidates world_ok;
  completion_order := @completion_order world_ok
|}.

Lemma pipeline_stops_at_missing_tool_witness :
  @Pipeline.main (world_without (py "tesseract")) sample_cfg sample_state
  = (Exit 1,
     logged (py "ERROR: required command not found in PATH: tesseract")
       sample_state).
Proof.
  pose proof (@pipeline_stops_at_missing_tool (world_without (py "tesseract"))
                sample_cfg sample_state) as Hstop.
  change (@first_missing (world_without (py "tesseract"))
            [py "ocrmypdf"; py "pdftotext"; py "tesseract"])
    with (Some (py "tesseract")) in Hstop.
  destruct Hstop as (_ & Hmain & _). exact Hmain.
Defined.

Lemma ocr_main_missing_root_witness :
  exit_code (@Ocr.main world_ok ocr_cfg_missing empty_disk).1 = 1%Z.
Proof.
  by destruct (@ocr_main_missing_root world_ok ocr_cfg_missing empty_disk eq_refl).
Defined.

Definition ocr_sample_cfg : Ocr.Config := {|
  Ocr.INPUT_DIR := [py "in"];
  Ocr.OUTPUT_DIR := [py "new"; py "out"];
  Ocr.WORKERS := 3
|}.

Lemma ocr_main_missing_tool_witness :
  (@Ocr.main (world_without (py "pdftotext")) ocr_sample_cfg sample_state).1
  = Exit 1
  ∧ is_dir (files (@Ocr.main (world_without (py "pdftotext")) ocr_sample_cfg
                     sample_state).2) [py "new"; py "out"] = true.
Proof.
  destruct (@ocr_main_missing_tool (world_without (py "pdftotext"))
              ocr_sample_cfg sample_state
              (mkdir_p [py "new"; py "out"] sample_state).2 (py "pdftotext")
              ltac:(vm_compute; reflexivity) ltac:(vm_compute; reflexivity)
              ltac:(vm_compute; reflexivity)) as [Hmain Hdir].
  split; [exact (f_equal fst Hmain)|exact Hdir].
Defined.

(** ** [ocr.py]: one document and the pool *)

Definition ocr_ocrmypdf_error (pdf_path : Path) (out : str) : str :=
  py "[ERROR] ocrmypdf failed for " ++ str_of_path pdf_path ++ py ":"
  ++ Pipeline.NL ++ strip out.
Definition ocr_pdftotext_error (searchable : Path) (out : str) : str :=
  py "[ERROR] pdftotext failed for " ++ str_of_path searchable ++ py ":"
  ++ Pipeline.NL ++ strip out.

Section OcrScript.
Context `{World}.




(** X9. One document in [ocr.py], once its output folder is there: when
    [ocrmypdf] fails the worker returns [False] and [pdftotext] is not run
    (the file system is as [ocrmypdf] left it); when [pdftotext] fails it
    returns [False]; with both through it prints [OK] and returns [True]. *)
Theorem ocr_process_one_steps (pdf_path root out_root rel_parent : Path)
    (st st0 : State) :
  relative_to (parent pdf_path) root = Some rel_parent ->
  mkdir_p (out_root ++ rel_parent) st = (Ok tt, st0) ->
  let searchable :=
    child (out_root ++ rel_parent) (stem pdf_path ++ py "_searchable.pdf") in
  let txt_file := child (out_root ++ rel_parent) (stem pdf_path ++ py ".txt") in
  let st_start := logged (start_line pdf_path) st0 in
  (∀ out st1,
     Ocr.run_cmd (Ocr.ocr_command pdf_path searchable) st_start
       = (Ok (false, out), st1) ->
     Ocr.process_one pdf_path root out_root st
     = (Ok false, logged (ocr_ocrmypdf_error pdf_path out) st1))
  ∧ (∀ out st1 ok2 out2 st2,
     Ocr.run_cmd (Ocr.ocr_command pdf_path searchable) st_start
       = (Ok (true, out), st1) ->
     Ocr.run_cmd [Lit (py "pdftotext"); PathArg searchable; PathArg txt_file] st1
       = (Ok (ok2, out2), st2) ->
     Ocr.process_one pdf_path root out_root st
     = if ok2 then
         (Ok true, logged (py "[OK] " ++ name pdf_path ++ py " -> "
                           ++ name searchable ++ py ", " ++ name txt_file) st2)
       else (Ok false, logged (ocr_pdftotext_error searchable out2) st2)).
Proof.
  intros Hrel Hmk searchable txt_file st_start. split.
  - intros out st1 Hocr. unfold Ocr.process_one. rewrite Hrel.
    erewrite bind_ok by exact Hmk.
    erewrite bind_ok by reflexivity.
    erewrite bind_ok by exact Hocr. reflexivity.
  - intros out st1 ok2 out2 st2 Hocr Htxt. unfold Ocr.process_one. rewrite Hrel.
    erewrite bind_ok by exact Hmk.
    erewrite bind_ok by reflexivity.
    erewrite bind_ok by exact Hocr.
    cbv beta iota delta [negb].
    erewrite bind_ok by exact Htxt.
    by destruct ok2.
Qed.

End OcrScript.


Lemma ocr_process_one_steps_witness :
  (@Ocr.process_one world_ocr_fails sample_pdf [py "in"] [py "out"]
     sample_state).1 = Ok false
  ∧ (@Ocr.process_one world_ok sample_pdf [py "in"] [py "out"]
       sample_state).1 = Ok true.
Proof.
  pose (st0 := (mkdir_p [py "out"; py "a"] sample_state).2).
  pose (searchable := [py "out"; py "a"; py "doc_searchable.pdf"]).
  pose (txt_file := [py "out"; py "a"; py "doc.txt"]).
  split.
  - pose (st1 := (@Ocr.run_cmd world_ocr_fails
                    (Ocr.ocr_command sample_pdf searchable)
                    (logged (start_line sample_pdf) st0)).2).
    destruct (@ocr_process_one_steps world_ocr_fails sample_pdf [py "in"]
                [py "out"] [py "a"] sample_state st0
                eq_refl ltac:(vm_compute; reflexivity)) as [Hfail _].
    exact (f_equal fst (Hfail (py "out err") st1 ltac:(vm_compute; reflexivity))).
  - pose (st1 := (@Ocr.run_cmd world_ok
                    (Ocr.ocr_command sample_pdf searchable)
                    (logged (start_line sample_pdf) st0)).2).
    pose (st2 := (@Ocr.run_cmd world_ok
                    [Lit (py "pdftotext"); PathArg searchable; PathArg txt_file]
                    st1).2).
    destruct (@ocr_process_one_steps world_ok sample_pdf [py "in"]
                [py "out"] [py "a"] sample_state st0
                eq_refl ltac:(vm_compute; reflexivity)) as [_ Hboth].
    exact (f_equal fst (Hboth (py "out err") st1 true (py "out err") st2
                          ltac:(vm_compute; reflexivity)
                          ltac:(vm_compute; reflexivity))).
Defined.

(** ** The pipeline's optional stages and its full run *)

Definition spell_warn_line (pdf_path : Path) (e : str) : str :=
  py "[WARN] spellcheck failed for " ++ name pdf_path ++ py ": " ++ e.
Definition ok_line (pdf_path : Path) (num_issues : nat) : str :=
  py "[OK] " ++ name pdf_path ++ py " -> text saved ("
  ++ (stem pdf_path ++ py ".txt") ++ py "), issues: " ++ fmt_nat num_issues.

Lemma read_text_ok p st text st' :
  read_text p st = (Ok text, st') -> st' = st ∧ files st !! p = Some (File text).
Proof.
  unfold read_text. intros Hr.
  apply bind_ok_inv in Hr as (fs & sa & [= <- <-] & Hr).
  destruct (files st !! p) as [[c|]|]; [|done..]. by injection Hr as -> ->.
Qed.

Lemma write_ok_is_file p s st st' :
  write p s st = (Ok tt, st') -> is_file (files st') p.
Proof.
  intros Hw. destruct (write_returns p s st) as (st'' & Hw' & Hf). congruence.
Qed.

Lemma for_each_write_is_file {A} p (f : A -> str) xs st st' :
  is_file (files st) p ->
  for_each xs (fun x => write p (f x)) st = (Ok tt, st') ->
  is_file (files st') p.
Proof.
  unfold is_file at 1. destruct (files st !! p) as [[c|]|] eqn:Hp; [|done..].
  intros _. rewrite (for_each_write p f xs st c Hp). intros [= <-].
  unfold is_file. cbn [files]. by rewrite lookup_insert_eq.
Qed.

Section OptionalStages.
Context `{World}.

Lemma silent_write_docx txt docx :
  silent (Pipeline.write_docx_from_text txt docx).
Proof. unfold Pipeline.write_docx_from_text. inv_auto. Qed.

Lemma write_docx_ok_is_file txt docx st st' :
  Pipeline.write_docx_from_text txt docx st = (Ok tt, st') ->
  is_file (files st') docx.
Proof.
  unfold Pipeline.write_docx_from_text. intros Hd.
  apply bind_ok_inv in Hd as (text & sa & _ & Hd).
  apply bind_ok_inv in Hd as (bytes & sb & _ & Hd).
  apply bind_ok_inv in Hd as ([] & sc & _ & Hd).
  by apply write_ok_is_file in Hd.
Qed.

Lemma simple_spellcheck_ok_is_file txt issues cw st n st' :
  Pipeline.simple_spellcheck txt issues cw st = (Ok n, st') ->
  is_file (files st') issues.
Proof.
  unfold Pipeline.simple_spellcheck. intros Hs.
  apply bind_ok_inv in Hs as (text & sa & _ & Hs).
  apply bind_ok_inv in Hs as ([] & sb & _ & Hs).
  apply bind_ok_inv in Hs as ([] & sc & Hw & Hs).
  apply bind_ok_inv in Hs as ([] & sd & Hfor & [= _ <-]).
  apply write_ok_is_file in Hw. by eapply for_each_write_is_file.
Qed.

Variables (pdf_path root out_base rel : Path) (custom_words : list str).

Local Abbreviation target_dir := (out_base ++ parent rel).
Local Abbreviation searchable :=
  (Pipeline.artifact target_dir pdf_path (py "_searchable.pdf")).
Local Abbreviation txtfile := (Pipeline.artifact target_dir pdf_path (py ".txt")).
Local Abbreviation docxfile := (Pipeline.artifact target_dir pdf_path (py ".docx")).
Local Abbreviation issuesfile :=
  (Pipeline.artifact target_dir pdf_path (py "_issues.txt")).
Local Abbreviation process :=
  (Pipeline.process_pdf_file pdf_path root out_base custom_words).

Lemma docx_keeps_artifact st r st3 suffix :
  suffix ≠ py ".docx" ->
  Pipeline.docx_stage pdf_path txtfile docxfile st = (r, st3) ->
  files st3 !! Pipeline.artifact target_dir pdf_path suffix
  = files st !! Pipeline.artifact target_dir pdf_path suffix.
Proof.
  intros Hne Hd.
  pose proof (touches_only_docx_stage (fun p => p = docxfile)
                pdf_path txtfile docxfile eq_refl st
                (Pipeline.artifact target_dir pdf_path suffix)) as Ht.
  rewrite Hd in Ht. apply Ht. intros Heq. by apply artifact_inj in Heq.
Qed.

Lemma spellcheck_raw_keeps_artifact st r st4 suffix :
  suffix ≠ py "_issues.txt" ->
  Pipeline.simple_spellcheck txtfile issuesfile custom_words st = (r, st4) ->
  files st4 !! Pipeline.artifact target_dir pdf_path suffix
  = files st !! Pipeline.artifact target_dir pdf_path suffix.
Proof.
  intros Hne Hs.
  pose proof (touches_only_simple_spellcheck (fun p => p = issuesfile)
                txtfile issuesfile custom_words eq_refl st
                (Pipeline.artifact target_dir pdf_path suffix)) as Ht.
  rewrite Hs in Ht. apply Ht. intros Heq. by apply artifact_inj in Heq.
Qed.

Lemma name_artifact dir suffix :
  name (Pipeline.artifact dir pdf_path suffix) = stem pdf_path ++ suffix.
Proof. unfold name, Pipeline.artifact, child. apply last_last. Qed.

(** X10. The spell-check stage is soft as well: when it raises after the required
    stages went through, the worker prints the [WARN] line and still returns
    [True]; the text file is there, as the extractor wrote it. *)
Theorem spellcheck_soft_failure (st st0 st1 st2 st3 st4 : State) (out e : str) :
  relative_to pdf_path root = Some rel ->
  mkdir_p target_dir st = (Ok tt, st0) ->
  Pipeline.ocr_to_searchable pdf_path searchable
    (logged (start_line pdf_path) st0) = (Ok (true, out), st1) ->
  Pipeline.extract_text_from_searchable searchable txtfile st1 = (Ok tt, st2) ->
  Pipeline.docx_stage pdf_path txtfile docxfile st2 = (Ok tt, st3) ->
  Pipeline.simple_spellcheck txtfile issuesfile custom_words st3 = (Raise e, st4) ->
  process st = (Ok true, logged (spell_warn_line pdf_path e) st4)
  ∧ is_file (files (process st).2) txtfile
  ∧ files (process st).2 !! txtfile = files st2 !! txtfile.
Proof.
  intros Hrel Hmk Hocr Hext Hdocx Hspell.
  destruct (process_required_ok pdf_path root out_base rel custom_words
              st st0 out st1 st2 Hrel Hmk Hocr Hext)
    as (st3' & st4' & Hd & Hs & Hp).
  assert (st3' = st3) as -> by congruence.
  assert (st4' = logged (spell_warn_line pdf_path e) st4) as ->.
  { unfold Pipeline.spellcheck_stage in Hs.
    erewrite try_except_raise in Hs by by erewrite bind_raise by exact Hspell.
    change (print ?l ?s) with (Ok tt, logged l s) in Hs.
    unfold spell_warn_line. congruence. }
  rewrite Hp. cbn [snd logged files].
  assert (files st4 !! txtfile = files st2 !! txtfile) as Htxt.
  { erewrite spellcheck_raw_keeps_artifact; [|suffix_ne|exact Hspell].
    erewrite docx_keeps_artifact; [done|suffix_ne|exact Hdocx]. }
  split_and!; [done| |done].
  apply extract_ok_is_file in Hext. unfold is_file in *. by rewrite Htxt.
Qed.

(** X11. A run in which every stage goes through: the worker prints [START] and
    [OK] with the number of issues, returns [True], and the four artifacts
    of the document are all there as files. *)
Theorem all_stages_succeed (st st0 st1 st2 st3 st4 : State) (out : str)
    (num_issues : nat) :
  relative_to pdf_path root = Some rel ->
  mkdir_p target_dir st = (Ok tt, st0) ->
  Pipeline.ocr_to_searchable pdf_path searchable
    (logged (start_line pdf_path) st0) = (Ok (true, out), st1) ->
  Pipeline.extract_text_from_searchable searchable txtfile st1 = (Ok tt, st2) ->
  Pipeline.write_docx_from_text txtfile docxfile st2 = (Ok tt, st3) ->
  Pipeline.simple_spellcheck txtfile issuesfile custom_words st3
    = (Ok num_issues, st4) ->
  process st = (Ok true, logged (ok_line pdf_path num_issues) st4)
  ∧ stdout (process st).2
    = stdout st ++ [start_line pdf_path; ok_line pdf_path num_issues]
  ∧ is_file (files (process st).2) searchable
  ∧ is_file (files (process st).2) txtfile
  ∧ is_file (files (process st).2) docxfile
  ∧ is_file (files (process st).2) issuesfile.
Proof.
  intros Hrel Hmk Hocr Hext Hdocx Hspell.
  destruct (process_required_ok pdf_path root out_base rel custom_words
              st st0 out st1 st2 Hrel Hmk Hocr Hext)
    as (st3' & st4' & Hd & Hs & Hp).
  assert (Pipeline.docx_stage pdf_path txtfile docxfile st2 = (Ok tt, st3))
    as Hd' by (unfold Pipeline.docx_stage; by erewrite try_except_ok).
  assert (st3' = st3) as -> by congruence.
  assert (st4' = logged (ok_line pdf_path num_issues) st4) as ->.
  { unfold Pipeline.spellcheck_stage in Hs.
    erewrite try_except_ok in Hs;
      [|erewrite bind_ok by exact Hspell; reflexivity].
    unfold ok_line. rewrite name_artifact in Hs.
    unfold logged. congruence. }
  rewrite Hp. cbn [snd logged files stdout].
  assert (∀ suffix, suffix ≠ py "_issues.txt" -> suffix ≠ py ".docx" ->
    files st4 !! Pipeline.artifact target_dir pdf_path suffix
    = files st2 !! Pipeline.artifact target_dir pdf_path suffix) as Hkeep.
  { intros suffix H1 H2.
    erewrite spellcheck_raw_keeps_artifact; [|done|exact Hspell].
    erewrite docx_keeps_artifact; [done|done|exact Hd']. }
  assert (files st2 !! searchable = files st1 !! searchable) as Hsearch.
  { erewrite extract_keeps_artifact; [done|suffix_ne|exact Hext]. }
  assert (∃ bytes, files st1 !! searchable = Some (File bytes)) as [bytes Hpdf].
  { unfold Pipeline.extract_text_from_searchable in Hext.
    apply bind_ok_inv in Hext as (bytes & sa & Hr & _).
    apply read_text_ok in Hr as [_ Hr]. by exists bytes. }
  split_and!; [done|..].
  - rewrite (stdout_after _ _ _ _ (silent_simple_spellcheck _ _ _) Hspell).
    rewrite (stdout_after _ _ _ _ (silent_write_docx _ _) Hdocx).
    rewrite (stdout_after _ _ _ _ (silent_extract _ _) Hext).
    rewrite (stdout_after _ _ _ _ (silent_ocr_to_searchable _ _) Hocr).
    cbn [logged stdout].
    rewrite (stdout_after _ _ _ _ (silent_mkdir_from _ _) Hmk).
    by rewrite <-!(assoc_L (++)).
  - unfold is_file. rewrite Hkeep by suffix_ne. by rewrite Hsearch, Hpdf.
  - apply extract_ok_is_file in Hext. unfold is_file in *.
    by rewrite Hkeep by suffix_ne.
  - apply write_docx_ok_is_file in Hdocx. unfold is_file in *.
    erewrite spellcheck_raw_keeps_artifact; [done|suffix_ne|exact Hspell].
  - by eapply simple_spellcheck_ok_is_file.
Qed.

End OptionalStages.

(** The sample disk with a folder where the issues report should go. *)
Definition issues_blocked_state : State := {|
  files := <[[py "out"; py "a"; py "doc_issues.txt"] := Dir]>
             (<[[py "out"; py "a"] := Dir]> (files sample_state));
  stdout := []
|}.

Lemma spellcheck_soft_failure_witness :
  (@Pipeline.process_pdf_file world_ok sample_pdf [py "in"] [py "out"] []
     issues_blocked_state).1 = Ok true
  ∧ is_file (files (@Pipeline.process_pdf_file world_ok sample_pdf [py "in"]
                      [py "out"] [] issues_blocked_state).2)
      [py "out"; py "a"; py "doc.txt"].
Proof.
  pose (searchable := [py "out"; py "a"; py "doc_searchable.pdf"]).
  pose (txtfile := [py "out"; py "a"; py "doc.txt"]).
  pose (st0 := (mkdir_p [py "out"; py "a"] issues_blocked_state).2).
  pose (st1 := (@Pipeline.ocr_to_searchable world_ok sample_pdf searchable
                  (logged (start_line sample_pdf) st0)).2).
  pose (st2 := (@Pipeline.extract_text_from_searchable world_ok searchable
                  txtfile st1).2).
  pose (st3 := (@Pipeline.docx_stage world_ok sample_pdf txtfile
                  [py "out"; py "a"; py "doc.docx"] st2).2).
  destruct (@spellcheck_soft_failure world_ok sample_pdf [py "in"] [py "out"]
              [py "a"; py "doc.pdf"] [] issues_blocked_state st0 st1 st2 st3 st3
              (py "out err") (py "IsADirectoryError: /out/a/doc_issues.txt")
              eq_refl
              ltac:(vm_compute; reflexivity) ltac:(vm_compute; reflexivity)
              ltac:(vm_compute; reflexivity) ltac:(vm_compute; reflexivity)
              ltac:(vm_compute; reflexivity)) as (Hp & Hf & _).
  split; [exact (f_equal fst Hp)|exact Hf].
Defined.

Lemma all_stages_succeed_witness :
  (@Pipeline.process_pdf_file world_ok sample_pdf [py "in"] [py "out"] []
     sample_state).1 = Ok true
  ∧ is_file (files (@Pipeline.process_pdf_file world_ok sample_pdf [py "in"]
                      [py "out"] [] sample_state).2)
      [py "out"; py "a"; py "doc.docx"].
Proof.
  pose (searchable := [py "out"; py "a"; py "doc_searchable.pdf"]).
  pose (txtfile := [py "out"; py "a"; py "doc.txt"]).
  pose (docxfile := [py "out"; py "a"; py "doc.docx"]).
  pose (st0 := (mkdir_p [py "out"; py "a"] sample_state).2).
  pose (st1 := (@Pipeline.ocr_to_searchable world_ok sample_pdf searchable
                  (logged (start_line sample_pdf) st0)).2).
  pose (st2 := (@Pipeline.extract_text_from_searchable world_ok searchable
                  txtfile st1).2).
  pose (st3 := (@Pipeline.write_docx_from_text world_ok txtfile docxfile st2).2).
  pose (st4 := (@Pipeline.simple_spellcheck world_ok txtfile
                  [py "out"; py "a"; py "doc_issues.txt"] [] st3).2).
  destruct (@all_stages_succeed world_ok sample_pdf [py "in"] [py "out"]
              [py "a"; py "doc.pdf"] [] sample_state st0 st1 st2 st3 st4
              (py "out err") 7
              eq_refl
              ltac:(vm_compute; reflexivity) ltac:(vm_compute; reflexivity)
              ltac:(vm_compute; reflexivity) ltac:(vm_compute; reflexivity)
              ltac:(vm_compute; reflexivity)) as (Hp & _ & _ & _ & Hf & _).
  split; [exact (f_equal fst Hp)|exact Hf].
Defined.

(** ** The tokenizer *)

Lemma findall_from_split run a c b :
  Pipeline.is_word_char c = false ->
  Pipeline.findall_from run (a ++ c :: b)
  = Pipeline.findall_from run a ++ Pipeline.findall_words b.
Proof.
  intros Hc. revert run. induction a as [|x a IH]; intros run; simpl.
  - by rewrite Hc.
  - destruct (Pipeline.is_word_char x); [apply IH|].
    by rewrite IH, (assoc_L (++)).
Qed.

Lemma findall_from_word run w :
  Forall (fun c => Pipeline.is_word_char c = true) w ->
  Pipeline.findall_from run w = Pipeline.emit (run ++ w).
Proof.
  intros Hw. revert run. induction Hw as [|c w Hc _ IH]; intros run; simpl.
  - by rewrite app_nil_r.
  - rewrite Hc, IH. by rewrite <-(assoc_L (++)).
Qed.

Lemma findall_from_infix run text w :
  w ∈ Pipeline.findall_from run text -> ∃ pre post, run ++ text = pre ++ w ++ post.
Proof.
  revert run. induction text as [|c text IH]; intros run; simpl.
  - intros [-> _]%emit_spec. exists [], []. by rewrite app_nil_r.
  - destruct (Pipeline.is_word_char c).
    + intros Hw. apply IH in Hw as (pre & post & Heq).
      exists pre, post. by rewrite <-Heq, <-(assoc_L (++)).
    + rewrite elem_of_app. intros [[-> _]%emit_spec | Hw].
      * by exists [], (c :: text).
      * apply IH in Hw as (pre & post & Heq). simpl in Heq.
        exists (run ++ c :: pre), post. by rewrite Heq, <-(assoc_L (++)).
Qed.

(** X12. Tokenizing goes piece by piece: a character outside the class (a blank,
    a comma, a line end) cuts the text in two and the tokens are those of
    the first part followed by those of the second; and every token is a
    piece of the text as it stands. *)
Theorem findall_words_split (a b : str) (c : N) :
  Pipeline.is_word_char c = false ->
  Pipeline.findall_words (a ++ c :: b)
  = Pipeline.findall_words a ++ Pipeline.findall_words b
  ∧ ∀ w, w ∈ Pipeline.findall_words (a ++ c :: b) ->
         ∃ pre post, a ++ c :: b = pre ++ w ++ post.
Proof.
  intros Hc. split.
  - by apply findall_from_split.
  - intros w Hw. by apply (findall_from_infix []) in Hw.
Qed.

Lemma findall_words_split_witness :
  Pipeline.findall_words (py "H2O is" ++ 32%N :: py "wet")
  = [py "H2O"; py "is"; py "wet"].
Proof.
  destruct (findall_words_split (py "H2O is") (py "wet") 32 eq_refl) as [-> _].
  vm_compute. reflexivity.
Defined.

(** X13. A word of two characters or more, all of the class, is its own and only
    token; a single such character gives none. *)
Theorem findall_words_of_word (w : str) :
  Forall (fun c => Pipeline.is_word_char c = true) w ->
  Pipeline.findall_words w = (if 2 <=? length w then [w] else []).
Proof.
  intros Hw. unfold Pipeline.findall_words.
  by rewrite (findall_from_word [] w Hw).
Qed.

Lemma findall_words_of_word_witness :
  Pipeline.findall_words (py "it's") = [py "it's"]
  ∧ Pipeline.findall_words (py "x") = [].
Proof.
  split.
  - rewrite findall_words_of_word; [done|]. by repeat constructor.
  - rewrite findall_words_of_word; [done|]. by repeat constructor.
Defined.

(** ** The names of the artifacts *)

Lemma rfind_dot_pdf (base : str) :
  rfind 46 (base ++ py ".pdf") = Some (length base).
Proof.
  induction base as [|x base IH]; [done|]. simpl. by rewrite IH.
Qed.

(** X14. For a document [base.pdf] the stem is [base], so that its artifacts are
    [base_searchable.pdf], [base.txt], [base.docx] and [base_issues.txt] in
    the mirrored folder, four different paths; a file called just [.pdf]
    keeps its whole name as stem. *)
Theorem stem_of_pdf (p : Path) (base : str) :
  name p = base ++ py ".pdf" ->
  (base ≠ [] -> stem p = base)
  ∧ (base = [] -> stem p = py ".pdf")
  ∧ ∀ dir, NoDup [Pipeline.artifact dir p (py "_searchable.pdf");
                  Pipeline.artifact dir p (py ".txt");
                  Pipeline.artifact dir p (py ".docx");
                  Pipeline.artifact dir p (py "_issues.txt")].
Proof.
  intros Hname. split_and!.
  - intros Hne. unfold stem. rewrite Hname, rfind_dot_pdf.
    destruct base as [|x base]; [done|].
    rewrite length_app. change (length (py ".pdf")) with 4.
    replace ((0 <? length (x :: base)) && (length (x :: base) <? length (x :: base) + 4 - 1))
      with true.
    + by rewrite take_app_length.
    + symmetry. apply andb_true_iff. split.
      * apply Nat.ltb_lt. simpl. lia.
      * apply Nat.ltb_lt. lia.
  - intros ->. unfold stem. by rewrite Hname.
  - intros dir.
    change (NoDup (Pipeline.artifact dir p
                   <$> [py "_searchable.pdf"; py ".txt"; py ".docx";
                        py "_issues.txt"])).
    apply NoDup_fmap_2_strong.
    + intros s1 s2 _ _. apply artifact_inj.
    + apply (bool_decide_unpack _). by vm_compute.
Qed.

Lemma stem_of_pdf_witness : stem sample_pdf = py "doc".
Proof.
  destruct (stem_of_pdf sample_pdf (py "doc") eq_refl) as [Hstem _].
  by apply Hstem.
Defined.

(** X15. Two documents of one folder can share an output path: the issues report
    of [base.pdf] and the text file of [base_issues.pdf] are both
    [base_issues.txt]. *)
Theorem artifact_names_collide (dir p1 p2 : Path) (base : str) :
  base ≠ [] ->
  name p1 = base ++ py ".pdf" ->
  name p2 = base ++ py "_issues.pdf" ->
  Pipeline.artifact dir p1 (py "_issues.txt") = Pipeline.artifact dir p2 (py ".txt").
Proof.
  intros Hne H1 H2.
  destruct (stem_of_pdf p1 base H1) as (Hs1 & _ & _).
  destruct (stem_of_pdf p2 (base ++ py "_issues")) as (Hs2 & _ & _).
  { by rewrite H2, <-(assoc_L (++)). }
  unfold Pipeline.artifact. rewrite Hs1 by done.
  rewrite Hs2 by (by destruct base). by rewrite <-(assoc_L (++)).
Qed.

Lemma artifact_names_collide_witness :
  Pipeline.artifact [py "out"] [py "in"; py "doc.pdf"] (py "_issues.txt")
  = Pipeline.artifact [py "out"] [py "in"; py "doc_issues.pdf"] (py ".txt").
Proof.
  apply (artifact_names_collide _ _ _ (py "doc")); [done|reflexivity..].
Defined.

(** ** The extractor on a document it cannot read through *)

Section ExtractorFaults.
Context `{World}.

Lemma write_pages_fault out_txt i texts e rest st c :
  files st !! out_txt = Some (File c) ->
  Pipeline.write_pages out_txt i ((Returned <$> texts) ++ Threw e :: rest) st
  = (Raise e,
     {| files := <[out_txt := File (c ++ render_pages i texts)]> (files st);
        stdout := stdout st |}).
Proof.
  revert i st c. induction texts as [|t texts IH]; intros i st c Hc.
  - simpl. rewrite app_nil_r, insert_id by done. by destruct st.
  - cbn [fmap list_fmap app Pipeline.write_pages render_pages].
    erewrite bind_ok by reflexivity.
    erewrite bind_ok by by apply write_append.
    assert (∀ st' c', files st' !! out_txt = Some (File c') ->
      (match t with
       | _ :: _ => write out_txt t
       | [] => write out_txt Pipeline.NO_TEXT
       end) st'
      = (Ok tt, {| files := <[out_txt := File (c' ++ page_body t)]> (files st');
                   stdout := stdout st' |})) as Hbody.
    { intros st' c' Hc'. destruct t; by apply write_append. }
    erewrite bind_ok by (apply Hbody; simpl; apply lookup_insert_eq).
    erewrite bind_ok by (apply write_append; simpl; apply lookup_insert_eq).
    erewrite IH by (simpl; apply lookup_insert_eq). cbn [files stdout].
    rewrite !insert_insert_eq. unfold page_block.
    by rewrite <-!(assoc_L (++)).
Qed.

(** X16. When the document cannot be opened the extractor raises before it
    touches the text file. When a page cannot be read it raises there, and
    the text file is left holding the pages before that one, complete, and
    nothing of the pages after. *)
Theorem extract_stops_at_unreadable_page (searchable_pdf out_txt : Path)
    (st : State) (bytes : str) :
  files st !! searchable_pdf = Some (File bytes) ->
  is_dir (files st) out_txt = false ->
  is_dir (files st) (parent out_txt) = true ->
  (∀ e, fitz_open bytes = Threw e ->
        Pipeline.extract_text_from_searchable searchable_pdf out_txt st
        = (Raise e, st))
  ∧ (∀ texts e rest,
       fitz_open bytes = Returned ((Returned <$> texts) ++ Threw e :: rest) ->
       ∃ st',
         Pipeline.extract_text_from_searchable searchable_pdf out_txt st
         = (Raise e, st')
         ∧ files st' = <[out_txt := File (render_pages 1 texts)]> (files st)
         ∧ stdout st' = stdout st).
Proof.
  intros Hbytes Hnd Hpd.
  assert (read_text searchable_pdf st = (Ok bytes, st)) as Hread.
  { unfold read_text. erewrite bind_ok by reflexivity. simpl.
    by rewrite Hbytes. }
  split.
  - intros e He. unfold Pipeline.extract_text_from_searchable.
    erewrite bind_ok by exact Hread. rewrite He.
    by erewrite bind_raise by reflexivity.
  - intros texts e rest Hdoc. eexists. split_and!.
    + unfold Pipeline.extract_text_from_searchable.
      erewrite bind_ok by exact Hread. rewrite Hdoc.
      erewrite bind_ok by reflexivity.
      erewrite bind_ok
        by (unfold open_w; erewrite bind_ok by reflexivity; simpl;
            rewrite Hnd, Hpd; reflexivity).
      erewrite write_pages_fault by (simpl; apply lookup_insert_eq).
      reflexivity.
    + simpl. by rewrite insert_insert_eq.
    + done.
Qed.

End ExtractorFaults.

Definition world_bad_page : World :=
  sample_world 0
    (Returned [Returned (py "first page"); Threw (py "cannot read page");
               Returned (py "third page")])
    (Returned (py "PK")) (Returned [py "the"]).

Lemma extract_stops_at_unreadable_page_witness :
  ∃ st',
    @Pipeline.extract_text_from_searchable world_bad_page sample_pdf
      [py "in"; py "a"; py "doc.txt"] sample_state
    = (Raise (py "cannot read page"), st')
    ∧ files st' !! [py "in"; py "a"; py "doc.txt"]
      = Some (File (render_pages 1 [py "first page"])).
Proof.
  destruct (@extract_stops_at_unreadable_page world_bad_page sample_pdf
              [py "in"; py "a"; py "doc.txt"] sample_state (py "%PDF")
              ltac:(vm_compute; reflexivity) ltac:(vm_compute; reflexivity)
              ltac:(vm_compute; reflexivity)) as [_ Hpage].
  destruct (Hpage [py "first page"] (py "cannot read page")
              [Returned (py "third page")] eq_refl)
    as (st' & Hrun & Hfiles & _).
  exists st'. split; [exact Hrun|]. by rewrite Hfiles, lookup_insert_eq.
Defined.

(** ** Stripping and splitting into lines *)

Lemma lstrip_head s c s' : lstrip s = c :: s' -> is_space c = false.
Proof.
  induction s as [|x s IH]; [done|]. simpl.
  destruct (is_space x) eqn:Hx; [done|]. by intros [= <- _].
Qed.

Lemma lstrip_suffix s : lstrip s `suffix_of` s.
Proof.
  induction s as [|x s IH]; [done|]. simpl.
  destruct (is_space x); [by apply suffix_cons_r|done].
Qed.

Lemma lstrip_Forall (P : N -> Prop) s : Forall P s -> Forall P (lstrip s).
Proof.
  intros Hs. destruct (lstrip_suffix s) as [k Hk].
  rewrite Hk in Hs. by apply Forall_app in Hs as [_ ?].
Qed.

Lemma rstrip_Forall (P : N -> Prop) s : Forall P s -> Forall P (rstrip s).
Proof.
  intros Hs. unfold rstrip. apply Forall_reverse, lstrip_Forall.
  by apply Forall_reverse.
Qed.

Lemma rstrip_last s c : last (rstrip s) = Some c -> is_space c = false.
Proof.
  unfold rstrip. rewrite last_reverse.
  destruct (lstrip (reverse s)) as [|x l] eqn:Hl; [done|].
  intros [= <-]. by eapply lstrip_head.
Qed.

Lemma rstrip_snoc_space s c : is_space c = true -> rstrip (s ++ [c]) = rstrip s.
Proof. intros Hc. unfold rstrip. rewrite reverse_snoc. simpl. by rewrite Hc. Qed.

(** What [strip] returns neither starts nor ends with white space. *)
Lemma strip_ends s :
  (∀ c s', strip s = c :: s' -> is_space c = false)
  ∧ (∀ c, last (strip s) = Some c -> is_space c = false).
Proof.
  unfold strip. split.
  - intros c s'. apply lstrip_head.
  - intros c Hlast. destruct (lstrip_suffix (rstrip s)) as [k Hk].
    apply (rstrip_last s). rewrite Hk, last_app.
    by rewrite Hlast.
Qed.

(** After a CR, an LF that follows at once belongs to the same break. *)
Definition after_cr (s : str) : str :=
  match s with 10%N :: s' => s' | _ => s end.

Lemma splitlines_from_cr cur s :
  splitlines_from cur (13%N :: s) = cur :: splitlines_from [] (after_cr s).
Proof.
  destruct s as [|d s']; [done|]. destruct d as [|p]; [done|].
  do 4 (try destruct p as [p|p|]); reflexivity.
Qed.

Lemma splitlines_from_no_break cur s line :
  Forall (fun c => is_linebreak c = false) cur ->
  line ∈ splitlines_from cur s ->
  Forall (fun c => is_linebreak c = false) line.
Proof.
  revert cur line. induction s as [|c s IH]; intros cur line Hcur.
  - simpl. destruct cur; [by intros ?%elem_of_nil|].
    by intros ->%list_elem_of_singleton.
  - destruct (decide (c = 13%N)) as [->|Hcr].
    + rewrite splitlines_from_cr, elem_of_cons. intros [->|Hin]; [done|].
      destruct s as [|d s']; [by apply elem_of_nil in Hin|].
      destruct (decide (d = 10%N)) as [->|Hd].
      * apply (IH [] line); [done|]. simpl. by right.
      * apply (IH [] line); [done|].
        replace (after_cr (d :: s')) with (d :: s') in Hin; [done|].
        destruct d as [|p]; [done|].
        do 4 (try destruct p as [p|p|]); done.
    + cbn [splitlines_from]. rewrite (proj2 (N.eqb_neq c 13)) by done.
      destruct (is_linebreak c) eqn:Hlb.
      * rewrite elem_of_cons. intros [->|Hin]; [done|by apply (IH [])].
      * apply IH. apply Forall_app. by split; [|constructor].
Qed.

(** ** The custom word list *)

Section CustomWords.

(** X17. [load_custom_words] gives no word when the file is not there, raises when
    the path is a folder, and otherwise gives the non-blank lines of the file,
    each without the white space around it: no word is empty, starts or ends
    with white space, or holds a line break. It writes nothing. *)
Theorem load_custom_words_clean (path : Path) (st : State) :
  (exists_ (files st) path = false ->
     Pipeline.load_custom_words path st = (Ok [], st))
  ∧ (files st !! path = Some Dir ->
     ∃ e, Pipeline.load_custom_words path st = (Raise e, st))
  ∧ (∀ text, files st !! path = Some (File text) ->
     ∃ ws, Pipeline.load_custom_words path st = (Ok ws, st)
       ∧ ∀ w, w ∈ ws ->
           w ≠ []
           ∧ (∀ c w', w = c :: w' -> is_space c = false)
           ∧ (∀ c, last w = Some c -> is_space c = false)
           ∧ Forall (fun c => is_linebreak c = false) w).
Proof.
  assert (∀ n, files st !! path = Some n -> exists_ (files st) path = true)
    as Hex.
  { intros n Hn. unfold exists_. destruct path; [done|].
    apply bool_decide_eq_true. by rewrite Hn. }
  split_and!.
  - intros Hmiss. unfold Pipeline.load_custom_words.
    erewrite bind_ok by reflexivity. cbn [files]. by rewrite Hmiss.
  - intros Hdir. eexists. unfold Pipeline.load_custom_words.
    erewrite bind_ok by reflexivity. cbn [files]. rewrite (Hex _ Hdir).
    cbn [negb]. erewrite bind_raise; [done|].
    unfold read_text. erewrite bind_ok by reflexivity. cbn [files].
    by rewrite Hdir.
  - intros text Htext. eexists. split.
    + unfold Pipeline.load_custom_words.
      erewrite bind_ok by reflexivity. cbn [files]. rewrite (Hex _ Htext).
      cbn [negb]. erewrite bind_ok; [done|].
      unfold read_text. erewrite bind_ok by reflexivity. cbn [files].
      by rewrite Htext.
    + intros w Hw. apply list_elem_of_fmap in Hw as (line & -> & Hline).
      apply list_elem_of_filter in Hline as [Hne Hline].
      destruct (strip_ends line) as [Hhead Hlast].
      split_and!; [done|done|done|].
      unfold strip. apply lstrip_Forall, rstrip_Forall.
      by apply (splitlines_from_no_break [] text).
Qed.

End CustomWords.

Definition words_state : State := {|
  files := list_to_map
    [ ([py "words.txt"],
       File (py "  benzene " ++ [13; 10]%N ++ py "   " ++ [10]%N ++ py "NaCl")) ];
  stdout := []
|}.

Lemma load_custom_words_clean_witness :
  Pipeline.load_custom_words [py "words.txt"] words_state
  = (Ok [py "benzene"; py "NaCl"], words_state)
  ∧ Pipeline.load_custom_words [py "none.txt"] words_state
    = (Ok [], words_state).
Proof.
  destruct (load_custom_words_clean [py "words.txt"] words_state)
    as (_ & _ & Hfile).
  destruct (load_custom_words_clean [py "none.txt"] words_state)
    as (Hmiss & _ & _).
  split; [|by apply Hmiss].
  destruct (Hfile _ ltac:(vm_compute; reflexivity)) as (ws & Hload & _).
  assert (Pipeline.load_custom_words [py "words.txt"] words_state
          = (Ok [py "benzene"; py "NaCl"], words_state)) as Hrun
    by (vm_compute; reflexivity).
  rewrite Hload in Hrun |- *. exact Hrun.
Defined.

(** ** The paragraphs of the proofreading copy *)

Lemma file_lines_from_cr cur s :
  file_lines_from cur (13%N :: s)
  = (cur ++ [10%N]) :: file_lines_from [] (after_cr s).
Proof.
  destruct s as [|d s']; [done|]. destruct d as [|p]; [done|].
  do 4 (try destruct p as [p|p|]); reflexivity.
Qed.

Definition no_newline (c : N) : Prop := c ≠ 10%N ∧ c ≠ 13%N.

Lemma file_lines_from_shape cur s line :
  Forall no_newline cur ->
  line ∈ file_lines_from cur s ->
  ∃ body, Forall no_newline body ∧ (line = body ∨ line = body ++ [10%N]).
Proof.
  revert cur line. induction s as [|c s IH]; intros cur line Hcur.
  - simpl. destruct cur; [by intros ?%elem_of_nil|].
    intros ->%list_elem_of_singleton. eexists. split; [exact Hcur|by left].
  - destruct (decide (c = 13%N)) as [->|Hcr].
    + rewrite file_lines_from_cr, elem_of_cons. intros [->|Hin].
      { exists cur. split; [done|by right]. }
      destruct s as [|d s']; [by apply elem_of_nil in Hin|].
      destruct (decide (d = 10%N)) as [->|Hd].
      * apply (IH [] line); [done|]. simpl. by right.
      * apply (IH [] line); [done|].
        replace (after_cr (d :: s')) with (d :: s') in Hin; [done|].
        destruct d as [|p]; [done|].
        do 4 (try destruct p as [p|p|]); done.
    + cbn [file_lines_from]. rewrite (proj2 (N.eqb_neq c 13)) by done.
      destruct (decide (c = 10%N)) as [->|Hlf].
      * simpl. rewrite elem_of_cons. intros [->|Hin].
        -- exists cur. split; [done|by right].
        -- by apply (IH [] line).
      * rewrite (proj2 (N.eqb_neq c 10)) by done.
        apply IH. apply Forall_app. split; [done|]. by repeat constructor.
Qed.

Section Paragraphs.
Context `{World}.

(** X18. The export hands the writer one paragraph per line of the text file,
    each without its line end and without trailing white space; when the
    writer returns, what it produced is written at the [.docx] path and
    nothing else changes. *)
Theorem docx_paragraphs_clean (txt_path docx_path : Path) (st : State)
    (text bytes : str) :
  files st !! txt_path = Some (File text) ->
  docx_document (rstrip <$> file_lines text) = Returned bytes ->
  is_dir (files st) docx_path = false ->
  is_dir (files st) (parent docx_path) = true ->
  Pipeline.write_docx_from_text txt_path docx_path st
  = (Ok tt, {| files := <[docx_path := File bytes]> (files st);
               stdout := stdout st |})
  ∧ length (rstrip <$> file_lines text) = length (file_lines text)
  ∧ ∀ para, para ∈ rstrip <$> file_lines text ->
      Forall no_newline para ∧ ∀ c, last para = Some c -> is_space c = false.
Proof.
  intros Htxt Hdoc Hnd Hpd. split_and!.
  - unfold Pipeline.write_docx_from_text.
    erewrite bind_ok by (unfold read_text; erewrite bind_ok by reflexivity;
                         simpl; rewrite Htxt; reflexivity).
    rewrite Hdoc. erewrite bind_ok by reflexivity.
    erewrite bind_ok
      by (unfold open_w; erewrite bind_ok by reflexivity; simpl;
          rewrite Hnd, Hpd; reflexivity).
    erewrite write_append by (simpl; apply lookup_insert_eq).
    cbn [files stdout]. by rewrite insert_insert_eq.
  - apply length_fmap.
  - intros para Hpara. apply list_elem_of_fmap in Hpara as (line & -> & Hline).
    split; [|apply rstrip_last].
    assert (∃ body, Forall no_newline body
                    ∧ (line = body ∨ line = body ++ [10%N]))
      as (body & Hbody & [->| ->])
      by (by apply (file_lines_from_shape [] text)).
    + by apply rstrip_Forall.
    + rewrite rstrip_snoc_space by done. by apply rstrip_Forall.
Qed.

End Paragraphs.

Lemma docx_paragraphs_clean_witness :
  files (@Pipeline.write_docx_from_text world_ok [py "out"; py "doc.txt"]
           [py "out"; py "doc.docx"] the_cat_state).2
    !! [py "out"; py "doc.docx"]
  = Some (File (py "PK")).
Proof.
  destruct (@docx_paragraphs_clean world_ok [py "out"; py "doc.txt"]
              [py "out"; py "doc.docx"] the_cat_state (py "the cat") (py "PK")
              ltac:(vm_compute; reflexivity) eq_refl
              ltac:(vm_compute; reflexivity) ltac:(vm_compute; reflexivity))
    as (Hrun & _ & _).
  rewrite Hrun. cbn [snd files]. apply lookup_insert_eq.
Defined.

(** ** Optional stages that fail *)

Section FailuresWriteNothing.
Context `{World}.






End FailuresWriteNothing.



(** ** The summary of a batch *)

Section Summary.
Context `{World}.


End Summary.


(** ** [batch_extract.py] *)

Lemma elem_of_batch_discover fs root p :
  p ∈ BatchExtract.discover fs root ↔
  is_Some (fs !! p) ∧ below fs root p ∧ endswith (name p) (py ".pdf").
Proof.
  unfold BatchExtract.discover, sorted_paths, rglob.
  rewrite merge_sort_Permutation, list_elem_of_filter, andb_True,
    list_elem_of_fmap.
  split.
  - intros ([Hb He] & [q n] & -> & Hq). apply elem_of_map_to_list in Hq.
    simpl in *. by rewrite Hq.
  - intros ([n Hn] & Hb & He). split; [done|]. exists (p, n).
    split; [done|]. by apply elem_of_map_to_list.
Qed.

(** X21. [batch_extract.py] takes every entry below the root whose name ends in
    [.pdf], a folder of that name included; the documents of the pipeline
    and of [ocr.py], which keep the files only, are among them, and the
    order is the same order on paths. *)
Theorem batch_discover_keeps_folders (fs : FS) (root : Path) :
  (∀ p, p ∈ BatchExtract.discover fs root ↔
        is_Some (fs !! p) ∧ below fs root p ∧ endswith (name p) (py ".pdf"))
  ∧ (∀ p, p ∈ Pipeline.discover fs root ->
          p ∈ BatchExtract.discover fs root)
  ∧ (∀ p, p ∈ BatchExtract.discover fs root -> fs !! p = Some Dir ->
          p ∉ Pipeline.discover fs root)
  ∧ Sorted seq_le (BatchExtract.discover fs root).
Proof.
  split_and!.
  - apply elem_of_batch_discover.
  - intros p (Hf & Hb & He)%elem_of_discover.
    apply elem_of_batch_discover. split_and!; [|done..].
    unfold is_file in Hf. by destruct (fs !! p).
  - intros p _ Hdir (Hf & _)%elem_of_discover.
    unfold is_file in Hf. by rewrite Hdir in Hf.
  - apply sorted_paths_sorted.
Qed.

(** A disk where a folder is called like a document. *)
Definition fs_folder_pdf : FS :=
  list_to_map
    [ ([py "in"], Dir);
      ([py "in"; py "scans.pdf"], Dir);
      ([py "in"; py "scans.pdf"; py "p1.pdf"], File (py "%PDF")) ].

Lemma batch_discover_keeps_folders_witness :
  BatchExtract.discover fs_folder_pdf [py "in"]
  = [[py "in"; py "scans.pdf"]; [py "in"; py "scans.pdf"; py "p1.pdf"]]
  ∧ [py "in"; py "scans.pdf"] ∉ Pipeline.discover fs_folder_pdf [py "in"].
Proof.
  destruct (batch_discover_keeps_folders fs_folder_pdf [py "in"])
    as (_ & _ & Hdir & _).
  assert (BatchExtract.discover fs_folder_pdf [py "in"]
          = [[py "in"; py "scans.pdf"]; [py "in"; py "scans.pdf"; py "p1.pdf"]])
    as Hall by (vm_compute; reflexivity).
  split; [exact Hall|]. apply Hdir; [|by vm_compute].
  rewrite Hall. left.
Defined.

Definition batch_failed_line (pdf : Path) : str := py "   FAILED on " ++ name pdf.
Definition batch_error_line `{World} (pdf : Path) (proc : CompletedProcess) : str :=
  py "[ERROR] " ++ name pdf ++ py " -> " ++ strip (decode (proc_stderr proc)).
Definition batch_extracting_line (total i : nat) (pdf txt_file : Path) : str :=
  py "[" ++ fmt_nat i ++ py "/" ++ fmt_nat total ++ py "] Extracting "
  ++ name pdf ++ py " -> " ++ str_of_path txt_file.

Definition batch_warning_line (txt_file : Path) : str :=
  py "   WARNING: " ++ name txt_file
  ++ py " is empty (no selectable text in PDF).".

Lemma stat_is_empty_file p c st :
  files st !! p = Some (File c) ->
  BatchExtract.stat_is_empty p st = (Ok (bool_decide (c = [])), st).
Proof.
  intros Hp. unfold BatchExtract.stat_is_empty.
  erewrite bind_ok by reflexivity. by rewrite Hp.
Qed.

Lemma stat_is_empty_missing p st :
  files st !! p = None ->
  BatchExtract.stat_is_empty p st
  = (Raise (py "FileNotFoundError: " ++ str_of_path p), st).
Proof.
  intros Hp. unfold BatchExtract.stat_is_empty.
  erewrite bind_ok by reflexivity. by rewrite Hp.
Qed.

Section BatchExtractScript.
Context `{World}.

Lemma run_pdftotext_failed cfg pdf txt st proc :
  (tool (BatchExtract.pdftotext_command (BatchExtract.USE_LAYOUT cfg) pdf txt)
        (files st)).1 = Returned proc ->
  returncode proc ≠ 0%Z ->
  BatchExtract.run_pdftotext cfg pdf txt st
  = (Ok false,
     logged (batch_error_line pdf proc)
       (after_tool (BatchExtract.pdftotext_command
                      (BatchExtract.USE_LAYOUT cfg) pdf txt) st)).
Proof.
  intros Htool Hrc. unfold BatchExtract.run_pdftotext.
  erewrite bind_ok; last first.
  { rewrite subprocess_run_eq, Htool. reflexivity. }
  rewrite bool_decide_eq_true_2 by done.
  by erewrite bind_ok by reflexivity.
Qed.

Lemma run_pdftotext_ok cfg pdf txt st proc :
  (tool (BatchExtract.pdftotext_command (BatchExtract.USE_LAYOUT cfg) pdf txt)
        (files st)).1 = Returned proc ->
  returncode proc = 0%Z ->
  BatchExtract.run_pdftotext cfg pdf txt st
  = (Ok true,
     after_tool (BatchExtract.pdftotext_command
                   (BatchExtract.USE_LAYOUT cfg) pdf txt) st).
Proof.
  intros Htool Hrc. unfold BatchExtract.run_pdftotext.
  erewrite bind_ok; last first.
  { rewrite subprocess_run_eq, Htool. reflexivity. }
  by rewrite bool_decide_eq_false_2 by (by intros []).
Qed.

Lemma run_pdftotext_threw cfg pdf txt st e :
  (tool (BatchExtract.pdftotext_command (BatchExtract.USE_LAYOUT cfg) pdf txt)
        (files st)).1 = Threw e ->
  BatchExtract.run_pdftotext cfg pdf txt st
  = (Raise e,
     after_tool (BatchExtract.pdftotext_command
                   (BatchExtract.USE_LAYOUT cfg) pdf txt) st).
Proof.
  intros Htool. unfold BatchExtract.run_pdftotext.
  erewrite bind_raise; [reflexivity|].
  by rewrite subprocess_run_eq, Htool.
Qed.

(** X22. One turn of the loop of [batch_extract.py], its output folder made. A
    return code other than 0 costs the document only: [ERROR] and [FAILED]
    are printed and the loop goes on with the next one. A [pdftotext] that
    cannot be started is another matter: nothing catches the exception, so
    the loop, and with it the run, ends there. *)
Theorem batch_loop_step (cfg : BatchExtract.Config) (root out_base : Path)
    (total i : nat) (pdf rel : Path) (rest : list Path) (st st0 : State) :
  relative_to pdf root = Some rel ->
  mkdir_p (out_base ++ parent rel) st = (Ok tt, st0) ->
  let txt_file := child (out_base ++ parent rel) (stem pdf ++ py ".txt") in
  let cmd := BatchExtract.pdftotext_command (BatchExtract.USE_LAYOUT cfg)
               pdf txt_file in
  let st_start := logged (batch_extracting_line total i pdf txt_file) st0 in
  (∀ proc, (tool cmd (files st0)).1 = Returned proc ->
           returncode proc ≠ 0%Z ->
     BatchExtract.extract_loop cfg root out_base total i (pdf :: rest) st
     = BatchExtract.extract_loop cfg root out_base total (S i) rest
         (logged (batch_failed_line pdf)
            (logged (batch_error_line pdf proc) (after_tool cmd st_start))))
  ∧ (∀ e, (tool cmd (files st0)).1 = Threw e ->
     BatchExtract.extract_loop cfg root out_base total i (pdf :: rest) st
     = (Raise e, after_tool cmd st_start)).
Proof.
  intros Hrel Hmk txt_file cmd st_start. split.
  - intros proc Htool Hrc. cbn [BatchExtract.extract_loop]. rewrite Hrel.
    erewrite bind_ok by exact Hmk.
    erewrite bind_ok by reflexivity.
    erewrite bind_ok by (by apply run_pdftotext_failed).
    by erewrite bind_ok by reflexivity.
  - intros e Htool. cbn [BatchExtract.extract_loop]. rewrite Hrel.
    erewrite bind_ok by exact Hmk.
    erewrite bind_ok by reflexivity.
    erewrite bind_raise; [reflexivity|].
    by apply run_pdftotext_threw.
Qed.

(** X23. The turn of a document whose [pdftotext] returns 0. The size of the
    text file is looked up: an empty file gets a [WARNING] line, any other
    nothing, and the loop goes on; but when the tool left no file at all,
    [stat()] raises and, uncaught, ends the run. *)
Theorem batch_loop_step_ok (cfg : BatchExtract.Config) (root out_base : Path)
    (total i : nat) (pdf rel : Path) (rest : list Path) (st st0 : State)
    (proc : CompletedProcess) :
  relative_to pdf root = Some rel ->
  mkdir_p (out_base ++ parent rel) st = (Ok tt, st0) ->
  let txt_file := child (out_base ++ parent rel) (stem pdf ++ py ".txt") in
  let cmd := BatchExtract.pdftotext_command (BatchExtract.USE_LAYOUT cfg)
               pdf txt_file in
  let st_run :=
    after_tool cmd (logged (batch_extracting_line total i pdf txt_file) st0) in
  (tool cmd (files st0)).1 = Returned proc ->
  returncode proc = 0%Z ->
  (∀ c, files st_run !! txt_file = Some (File c) ->
     BatchExtract.extract_loop cfg root out_base total i (pdf :: rest) st
     = BatchExtract.extract_loop cfg root out_base total (S i) rest
         (if bool_decide (c = []) then logged (batch_warning_line txt_file) st_run
          else st_run))
  ∧ (files st_run !! txt_file = None ->
     BatchExtract.extract_loop cfg root out_base total i (pdf :: rest) st
     = (Raise (py "FileNotFoundError: " ++ str_of_path txt_file), st_run)).
Proof.
  intros Hrel Hmk txt_file cmd st_run Htool Hrc. split.
  - intros c Hc. cbn [BatchExtract.extract_loop]. rewrite Hrel.
    erewrite bind_ok by exact Hmk.
    erewrite bind_ok by reflexivity.
    erewrite bind_ok by (by eapply run_pdftotext_ok).
    fold txt_file cmd st_run.
    erewrite bind_ok; last first.
    { erewrite bind_ok by (by apply stat_is_empty_file).
      instantiate (1 := if bool_decide (c = [])
                        then logged (batch_warning_line txt_file) st_run
                        else st_run).
      instantiate (1 := tt). by case_bool_decide. }
    reflexivity.
  - intros Hnone. cbn [BatchExtract.extract_loop]. rewrite Hrel.
    erewrite bind_ok by exact Hmk.
    erewrite bind_ok by reflexivity.
    erewrite bind_ok by (by eapply run_pdftotext_ok).
    fold txt_file cmd st_run.
    erewrite bind_raise; [reflexivity|].
    erewrite bind_raise; [reflexivity|]. by apply stat_is_empty_missing.
Qed.

(** X24. Like [ocr.py], [batch_extract.py] checks the input folder first and
    exits with 1 when it is not there, before creating anything. *)
Theorem batch_main_missing_root (cfg : BatchExtract.Config) (st : State) :
  exists_ (files st) (BatchExtract.INPUT_DIR cfg) = false ->
  BatchExtract.main cfg st
  = (Exit 1, logged (py "Input folder not found: "
                     ++ str_of_path (BatchExtract.INPUT_DIR cfg)) st)
  ∧ exit_code (BatchExtract.main cfg st).1 = 1%Z.
Proof.
  intros Hroot.
  assert (BatchExtract.main cfg st
          = (Exit 1, logged (py "Input folder not found: "
                             ++ str_of_path (BatchExtract.INPUT_DIR cfg)) st))
    as Hmain.
  { unfold BatchExtract.main. cbv zeta. erewrite bind_ok by reflexivity.
    cbn [files]. rewrite Hroot. cbn [negb].
    erewrite bind_exit; [done|]. by erewrite bind_ok by reflexivity. }
  split; [done|]. by rewrite Hmain.
Qed.

End BatchExtractScript.

Definition batch_cfg : BatchExtract.Config := {|
  BatchExtract.INPUT_DIR := [py "in"];
  BatchExtract.OUTPUT_DIR := [py "out"];
  BatchExtract.USE_LAYOUT := true
|}.
Definition batch_cfg_missing : BatchExtract.Config := {|
  BatchExtract.INPUT_DIR := [py "missing"];
  BatchExtract.OUTPUT_DIR := [py "out"];
  BatchExtract.USE_LAYOUT := true
|}.

(** A world where no tool can be started, and one where [pdftotext] returns
    0 and writes an empty file. *)
Definition world_no_tools : World := {|
  which := fun _ => false;
  tool := fun _ _ => (Threw (py "FileNotFoundError: pdftotext"), None);
  decode := @decode world_ok;
  fitz_open := @fitz_open world_ok;
  docx_document := @docx_document world_ok;
  load_english := @load_english world_ok;
  spell_unknown := @spell_unknown world_ok;
  spell_candidates := @spell_candidates world_ok;
  completion_order := @completion_order world_ok
|}.
Definition world_empty_text : World := {|
  which := fun _ => true;
  tool := fun _ _ =>
    (Returned {| returncode := 0; proc_stdout := []; proc_stderr := [] |},
     Some []);
  decode := @decode world_ok;
  fitz_open := @fitz_open world_ok;
  docx_document := @docx_document world_ok;
  load_english := @load_english world_ok;
  spell_unknown := @spell_unknown world_ok;
  spell_candidates := @spell_candidates world_ok;
  completion_order := @completion_order world_ok
|}.

Definition batch_dirs_state : State :=
  (mkdir_p [py "out"; py "a"] sample_state).2.

Lemma batch_loop_step_witness :
  (@BatchExtract.extract_loop world_ocr_fails batch_cfg [py "in"] [py "out"]
     1 1 [sample_pdf] sample_state).1 = Ok tt
  ∧ stdout (@BatchExtract.extract_loop world_ocr_fails batch_cfg [py "in"]
              [py "out"] 1 1 [sample_pdf] sample_state).2
    = [py "[1/1] Extracting doc.pdf -> /out/a/doc.txt";
       py "[ERROR] doc.pdf -> err";
       py "   FAILED on doc.pdf"]
  ∧ (@BatchExtract.extract_loop world_no_tools batch_cfg [py "in"] [py "out"]
       1 1 [sample_pdf] sample_state).1
    = Raise (py "FileNotFoundError: pdftotext").
Proof.
  destruct (@batch_loop_step world_ocr_fails batch_cfg [py "in"] [py "out"]
              1 1 sample_pdf [py "a"; py "doc.pdf"] [] sample_state
              batch_dirs_state
              ltac:(vm_compute; reflexivity) ltac:(vm_compute; reflexivity))
    as [Hfail _].
  destruct (@batch_loop_step world_no_tools batch_cfg [py "in"] [py "out"]
              1 1 sample_pdf [py "a"; py "doc.pdf"] [] sample_state
              batch_dirs_state
              ltac:(vm_compute; reflexivity) ltac:(vm_compute; reflexivity))
    as [_ Hthrow].
  specialize (Hfail _ eq_refl ltac:(vm_compute; discriminate)).
  specialize (Hthrow _ eq_refl).
  split_and!.
  - exact (f_equal fst Hfail).
  - etransitivity; [exact (f_equal (fun r => stdout r.2) Hfail)|].
    vm_compute; reflexivity.
  - exact (f_equal fst Hthrow).
Defined.

Lemma batch_loop_step_ok_witness :
  stdout (@BatchExtract.extract_loop world_empty_text batch_cfg [py "in"]
            [py "out"] 1 1 [sample_pdf] sample_state).2
  = [py "[1/1] Extracting doc.pdf -> /out/a/doc.txt";
     py "   WARNING: doc.txt is empty (no selectable text in PDF)."].
Proof.
  destruct (@batch_loop_step_ok world_empty_text batch_cfg [py "in"] [py "out"]
              1 1 sample_pdf [py "a"; py "doc.pdf"] [] sample_state
              batch_dirs_state _
              ltac:(vm_compute; reflexivity) ltac:(vm_compute; reflexivity)
              eq_refl eq_refl) as [Hwarn _].
  specialize (Hwarn [] ltac:(vm_compute; reflexivity)).
  etransitivity; [exact (f_equal (fun r => stdout r.2) Hwarn)|].
  vm_compute; reflexivity.
Defined.

Lemma batch_main_missing_root_witness :
  (@BatchExtract.main world_ok batch_cfg_missing empty_disk).1 = Exit 1.
Proof.
  destruct (@batch_main_missing_root world_ok batch_cfg_missing empty_disk
              eq_refl) as [Hmain _].
  exact (f_equal fst Hmain).
Defined.
